(** * Admission bot: flow state machine and slot allocator

    A shallow embedding of
      - [utils/sanitizer.js]                 (module [Sanitizer]),
      - [services/appointmentService.js]     (module [AppointmentService]),
      - [controllers/whatsappController.js]  (module [WhatsappController],
        with [utils/rateLimiter.js] and [models/userMessageModel.js]),
      - [services/aiService.js]              (module [AiService]),
    followed by the properties of the specification and by further
    properties of the code.  The sources hold
    two revisions of the controller; the one embedded is the later one,
    with the exit keyword, the integer grade and semester and the
    appointment replacement states, which the specification describes.

    Conventions of the embedding.
      - A JavaScript string is a [string] of code units; the case and
        white-space operations are those of the ASCII range.
      - A [Date] is a number of milliseconds of local time, or the
        Invalid Date.  Local time has no daylight-saving transition, so a
        calendar day is 86 400 000 ms long, and the triple
        (getFullYear, getMonth, getDate) is represented by the day number.
      - The AI service, the text rendering built-ins and the faults of
        the MySQL pool are the fields of an environment [Env].  A
        statement whose DATETIME parameter is not a date is refused by
        the engine, as MySQL does in its default strict mode.
      - Session objects live in a heap; [userSessions] maps a user
        identifier to the location of the session object, so that a
        mutation through one reference is seen through the other. *)

From Stdlib Require Import ZArith Lia List Bool Ascii String.
From stdpp Require Import base option list gmap strings pretty sorting.

Local Open Scope string_scope.
Local Open Scope Z_scope.

(* ===================================================================== *)
(** ** JavaScript strings *)
(* ===================================================================== *)

Module JsString.

Definition code (c : ascii) : nat := nat_of_ascii c.

Definition isUpper (c : ascii) : bool := (65 <=? code c)%nat && (code c <=? 90)%nat.
Definition isLower (c : ascii) : bool := (97 <=? code c)%nat && (code c <=? 122)%nat.
Definition isDigit (c : ascii) : bool := (48 <=? code c)%nat && (code c <=? 57)%nat.

(** White space of [String.prototype.trim] in the ASCII range:
    TAB, LF, VT, FF, CR and SPACE. *)
Definition isSpace (c : ascii) : bool :=
  ((9 <=? code c)%nat && (code c <=? 13)%nat) || (code c =? 32)%nat.

Definition lowerChar (c : ascii) : ascii :=
  if isUpper c then ascii_of_nat (code c + 32) else c.

Definition upperChar (c : ascii) : ascii :=
  if isLower c then ascii_of_nat (code c - 32) else c.

Fixpoint map (f : ascii -> ascii) (s : string) : string :=
  match s with
  | EmptyString => EmptyString
  | String c r => String (f c) (map f r)
  end.

Fixpoint filter (p : ascii -> bool) (s : string) : string :=
  match s with
  | EmptyString => EmptyString
  | String c r => if p c then String c (filter p r) else filter p r
  end.

Fixpoint forallb (p : ascii -> bool) (s : string) : bool :=
  match s with
  | EmptyString => true
  | String c r => p c && forallb p r
  end.

Definition toLowerCase (s : string) : string := map lowerChar s.

Fixpoint trimStart (s : string) : string :=
  match s with
  | EmptyString => EmptyString
  | String c r => if isSpace c then trimStart r else s
  end.

(** [trimEnd] drops the longest white-space suffix. *)
Fixpoint trimEnd (s : string) : string :=
  match s with
  | EmptyString => EmptyString
  | String c r =>
      match trimEnd r with
      | EmptyString => if isSpace c then EmptyString else String c EmptyString
      | r' => String c r'
      end
  end.

Definition trim (s : string) : string := trimEnd (trimStart s).

Fixpoint startsWith (s p : string) : bool :=
  match p, s with
  | EmptyString, _ => true
  | String a p', String b s' => Ascii.eqb a b && startsWith s' p'
  | String _ _, EmptyString => false
  end.

(** [s.substring(n)]: [s] without its first [n] code units. *)
Fixpoint substring (n : nat) (s : string) : string :=
  match n, s with
  | O, _ => s
  | S n', String _ r => substring n' r
  | S _, EmptyString => EmptyString
  end.

(** [s.charAt(0).toUpperCase() + s.slice(1)]. *)
Definition capitalize (s : string) : string :=
  match s with
  | EmptyString => EmptyString
  | String c r => String (upperChar c) r
  end.

Fixpoint takeDigits (s : string) : string :=
  match s with
  | String c r => if isDigit c then String c (takeDigits r) else EmptyString
  | EmptyString => EmptyString
  end.

(** [s.match(/\d+/)]: the first maximal run of digits, [None] for the
    [null] of a failed match. *)
Fixpoint matchDigits (s : string) : option string :=
  match s with
  | EmptyString => None
  | String c r => if isDigit c then Some (takeDigits s) else matchDigits r
  end.

Definition digitValue (c : ascii) : Z := Z.of_nat (code c) - 48.

Fixpoint decimalFrom (acc : Z) (s : string) : Z :=
  match s with
  | EmptyString => acc
  | String c r => decimalFrom (10 * acc + digitValue c) r
  end.

(** [parseInt(s, 10)]: leading white space is skipped, an optional sign
    is read, then the longest run of digits; [None] is NaN. *)
Definition parseInt (s : string) : option Z :=
  let t := trimStart s in
  let '(neg, u) :=
    match t with
    | String "-" r => (true, r)
    | String "+" r => (false, r)
    | _ => (false, t)
    end in
  match takeDigits u with
  | EmptyString => None
  | ds => Some (if neg : bool then - decimalFrom 0 ds else decimalFrom 0 ds)
  end.

(** The double quote, for the prompts that quote the exit keyword. *)
Definition dq : string := String (ascii_of_nat 34) EmptyString.

End JsString.

(* ===================================================================== *)
(** ** utils/sanitizer.js *)
(* ===================================================================== *)

Module Sanitizer.
Import JsString.

(** The complement of the character class [[^a-zA-Z0-9 .,!?@]]. *)
Definition allowed (c : ascii) : bool :=
  isLower c || isUpper c || isDigit c
  || (code c =? 32)%nat   (* space *)
  || (code c =? 46)%nat   (* .     *)
  || (code c =? 44)%nat   (* ,     *)
  || (code c =? 33)%nat   (* !     *)
  || (code c =? 63)%nat   (* ?     *)
  || (code c =? 64)%nat.  (* @     *)

(** [input.replace(/[^a-zA-Z0-9 .,!?@]/g, '').trim()] *)
Definition sanitizeInput (input : string) : string :=
  trim (filter allowed input).

End Sanitizer.

(* ===================================================================== *)
(** ** Dates, values and the tables of the database *)
(* ===================================================================== *)

Module JsDate.

(** A [Date] object: local milliseconds, or the Invalid Date whose
    time value is NaN. *)
Inductive Date : Type :=
| ValidDate (ms : Z)
| InvalidDate.

Definition msPerSecond : Z := 1000.
Definition msPerMinute : Z := 60000.
Definition msPerHour : Z := 3600000.
Definition msPerDay : Z := 86400000.

(** [d.setHours(0, 0, 0, 0)] *)
Definition startOfDay (t : Z) : Z := t - t mod msPerDay.

(** [d.setDate(d.getDate() + n)] *)
Definition addDays (t n : Z) : Z := t + n * msPerDay.

(** [d.getDay()]: 0 is Sunday; day 0 of the time line is a Thursday. *)
Definition getDay (t : Z) : Z := (t / msPerDay + 4) mod 7.

(** [new Date(d.getFullYear(), d.getMonth(), d.getDate(), hour, minute, 0)] *)
Definition atTimeOfDay (t hour minute : Z) : Z :=
  startOfDay t + hour * msPerHour + minute * msPerMinute.

(** [new Date(d.getTime() + delta)] *)
Definition shift (d : Date) (delta : Z) : Date :=
  match d with
  | ValidDate t => ValidDate (t + delta)
  | InvalidDate => InvalidDate
  end.

(** [new Date(text)] yields the Invalid Date when the text holds no
    digit at all; the parser of the other texts is the environment's. *)
Definition parse (parser : string -> Date) (text : string) : Date :=
  if JsString.forallb (fun c => negb (JsString.isDigit c)) text
  then InvalidDate else parser text.

End JsDate.
Export JsDate.

(** A value sent to or read from a MySQL column. *)
Inductive SqlVal : Type :=
| SNull
| SInt (n : Z)
| SText (s : string).

(** A DATETIME literal in the text format 'YYYY-MM-DD HH:MM:SS': the
    number of whole seconds, or [None] for the text 'NaN-NaN-NaN
    NaN:NaN:NaN' that formatting the Invalid Date produces. *)
Definition SqlDatetime : Type := option Z.

Record Appointment : Type := {
  app_id : Z;
  app_student_id : SqlVal;
  appdate : Z;              (* DATETIME, whole seconds *)
  app_time : Z;
  app_purpose : string;
  app_host : string;
  app_type : string;
  app_forgrade : SqlVal
}.

Record Student : Type := {
  st_id : Z;
  st_displayname : SqlVal;
  st_grade : SqlVal;
  st_semester : SqlVal;
  st_referral : SqlVal;
  st_regdate : Z;
  st_enrolled : Z
}.

Record ContactInfo : Type := {
  ci_id : Z;
  ci_student_id : Z;
  ci_email : SqlVal;
  ci_mobile : SqlVal;
  ci_mobile2 : SqlVal
}.

Record Guardian : Type := {
  gd_id : Z;
  gd_mobile : SqlVal
}.

Record Database : Type := {
  appointments : list Appointment;
  student : list Student;
  studentcontactinfo : list ContactInfo;
  guardian : list Guardian;
  user_messages : list (string * string * Z)
}.

(** A value held in [session.data]; an absent key reads as [undefined]. *)
Inductive JsVal : Type :=
| JNull
| JNum (n : Z)
| JNaN
| JStr (s : string)
| JDate (d : Date)
| JRows (rows : list Appointment).

Definition truthy (v : option JsVal) : bool :=
  match v with
  | None | Some JNull | Some JNaN => false
  | Some (JNum n) => negb (n =? 0)
  | Some (JStr s) => negb (String.eqb s "")
  | Some (JDate _) | Some (JRows _) => true
  end.

(** How the driver escapes a bound parameter. *)
Definition toSql (v : option JsVal) : SqlVal :=
  match v with
  | Some (JNum n) => SInt n
  | Some (JStr s) => SText s
  | _ => SNull
  end.

Definition ofSql (v : SqlVal) : JsVal :=
  match v with
  | SNull => JNull
  | SInt n => JNum n
  | SText s => JStr s
  end.

(** The number MySQL reads in a text compared with an integer column:
    its numeric prefix, 0 when there is none. *)
Definition sqlNumber (v : SqlVal) : option Z :=
  match v with
  | SNull => None
  | SInt n => Some n
  | SText s => Some (default 0 (JsString.parseInt s))
  end.

(** [column = ?]; a comparison with NULL selects nothing. *)
Definition sqlEq (column param : SqlVal) : bool :=
  match column, param with
  | SNull, _ | _, SNull => false
  | SText a, SText b => String.eqb a b
  | _, _ =>
      match sqlNumber column, sqlNumber param with
      | Some a, Some b => a =? b
      | _, _ => false
      end
  end.

(** [String(v)] inside a template literal. *)
Definition display (v : option JsVal) : string :=
  match v with
  | None => "undefined"
  | Some JNull => "null"
  | Some JNaN => "NaN"
  | Some (JNum n) => pretty n
  | Some (JStr s) => s
  | Some (JDate _) => "[object Date]"
  | Some (JRows _) => "[object Object]"
  end.

(** [v || fallback] inside a template literal. *)
Definition displayOr (v : option JsVal) (fallback : string) : string :=
  if truthy v then display v else fallback.

(* ===================================================================== *)
(** ** Sessions, the world and the environment *)
(* ===================================================================== *)

(** One conversation record, [{ state, previousState, intentDisabled,
    checkedExistingData, checkedExistingAppointment, data }].  The flags
    are only ever tested for truth, an absent flag is [false]. *)
Record Session : Type := {
  state : string;
  previousState : option string;
  intentDisabled : bool;
  checkedExistingData : bool;
  checkedExistingAppointment : bool;
  data : gmap string JsVal
}.

Definition newSession (st : string) : Session :=
  {| state := st; previousState := None; intentDisabled := false;
     checkedExistingData := false; checkedExistingAppointment := false;
     data := ∅ |}.

Definition set_state (st : string) (s : Session) : Session :=
  {| state := st; previousState := previousState s;
     intentDisabled := intentDisabled s;
     checkedExistingData := checkedExistingData s;
     checkedExistingAppointment := checkedExistingAppointment s;
     data := data s |}.

Definition set_previousState (p : option string) (s : Session) : Session :=
  {| state := state s; previousState := p;
     intentDisabled := intentDisabled s;
     checkedExistingData := checkedExistingData s;
     checkedExistingAppointment := checkedExistingAppointment s;
     data := data s |}.

Definition set_checkedExistingData (b : bool) (s : Session) : Session :=
  {| state := state s; previousState := previousState s;
     intentDisabled := intentDisabled s;
     checkedExistingData := b;
     checkedExistingAppointment := checkedExistingAppointment s;
     data := data s |}.

Definition set_checkedExistingAppointment (b : bool) (s : Session) : Session :=
  {| state := state s; previousState := previousState s;
     intentDisabled := intentDisabled s;
     checkedExistingData := checkedExistingData s;
     checkedExistingAppointment := b;
     data := data s |}.

Definition set_data (d : gmap string JsVal) (s : Session) : Session :=
  {| state := state s; previousState := previousState s;
     intentDisabled := intentDisabled s;
     checkedExistingData := checkedExistingData s;
     checkedExistingAppointment := checkedExistingAppointment s;
     data := d |}.

(** [session.data[key] = v] and [delete session.data[key]] *)
Definition set_field (key : string) (v : JsVal) (s : Session) : Session :=
  set_data (<[key := v]> (data s)) s.

Definition delete_field (key : string) (s : Session) : Session :=
  set_data (delete key (data s)) s.

(** Location of a session object. *)
Definition loc : Type := positive.

Record World : Type := {
  userSessions : gmap string loc;          (* const userSessions = new Map() *)
  heap : gmap loc Session;                 (* the session objects          *)
  rateLimitCache : gmap string (Z * Z);    (* count and expiry, per user   *)
  db : Database;
  outbox : list (string * string);         (* texts handed to the channel  *)
  interactionLog : list (Z * string * string)
}.

Definition with_userSessions (f : gmap string loc -> gmap string loc) (w : World) : World :=
  {| userSessions := f (userSessions w); heap := heap w;
     rateLimitCache := rateLimitCache w; db := db w; outbox := outbox w;
     interactionLog := interactionLog w |}.

Definition with_heap (f : gmap loc Session -> gmap loc Session) (w : World) : World :=
  {| userSessions := userSessions w; heap := f (heap w);
     rateLimitCache := rateLimitCache w; db := db w; outbox := outbox w;
     interactionLog := interactionLog w |}.

Definition with_rateLimitCache (f : gmap string (Z * Z) -> gmap string (Z * Z)) (w : World) : World :=
  {| userSessions := userSessions w; heap := heap w;
     rateLimitCache := f (rateLimitCache w); db := db w; outbox := outbox w;
     interactionLog := interactionLog w |}.

Definition with_db (f : Database -> Database) (w : World) : World :=
  {| userSessions := userSessions w; heap := heap w;
     rateLimitCache := rateLimitCache w; db := f (db w); outbox := outbox w;
     interactionLog := interactionLog w |}.

Definition with_outbox (f : list (string * string) -> list (string * string)) (w : World) : World :=
  {| userSessions := userSessions w; heap := heap w;
     rateLimitCache := rateLimitCache w; db := db w; outbox := f (outbox w);
     interactionLog := interactionLog w |}.

Definition with_interactionLog (f : list (Z * string * string) -> list (Z * string * string)) (w : World) : World :=
  {| userSessions := userSessions w; heap := heap w;
     rateLimitCache := rateLimitCache w; db := db w; outbox := outbox w;
     interactionLog := f (interactionLog w) |}.

Definition with_appointments (f : list Appointment -> list Appointment) (d : Database) : Database :=
  {| appointments := f (appointments d); student := student d;
     studentcontactinfo := studentcontactinfo d; guardian := guardian d;
     user_messages := user_messages d |}.

Definition with_student (f : list Student -> list Student) (d : Database) : Database :=
  {| appointments := appointments d; student := f (student d);
     studentcontactinfo := studentcontactinfo d; guardian := guardian d;
     user_messages := user_messages d |}.

Definition with_studentcontactinfo (f : list ContactInfo -> list ContactInfo) (d : Database) : Database :=
  {| appointments := appointments d; student := student d;
     studentcontactinfo := f (studentcontactinfo d); guardian := guardian d;
     user_messages := user_messages d |}.

Definition with_user_messages (f : list (string * string * Z) -> list (string * string * Z)) (d : Database) : Database :=
  {| appointments := appointments d; student := student d;
     studentcontactinfo := studentcontactinfo d; guardian := guardian d;
     user_messages := f (user_messages d) |}.

(** The statements sent through the pool, as far as their failure is
    concerned. *)
Inductive Stmt : Type :=
| GetConnection | BeginTransaction | Commit | Rollback
| SelectGuardianByMobile | SelectContactByMobile
| SelectUnenrolledByMobile | SelectUnenrolledById | SelectStudentIdByMobile
| UpdateContact | UpdateStudent
| SelectMaxStudentId | InsertStudent | SelectMaxContactId | InsertContact
| CountAppointmentsAt (at_ : SqlDatetime)
| CountAppointmentsBetween (lo hi : SqlDatetime)
| SelectMaxAppointmentId | InsertAppointment
| SelectNextAppointment | SelectFutureAppointments
| InsertUserMessage.

(** What is outside the program while one message is handled. *)
Record Env : Type := {
  (* services/aiService.js, the Oracle *)
  validateInput : string -> string -> string;
  interpretYesNo : string -> string;
  determineIntent : string -> string -> string;
  answerQuestion : string -> string -> string;
  inputContent : string;
  (* built-ins that render or read text *)
  dateParser : string -> Date;
  toLocaleString : Date -> string;
  toLocaleDateString : Date -> string;
  toLocaleTimeString : Date -> string;
  JSON_stringify : Guardian + ContactInfo -> string;
  (* the clock read by [new Date()] and by NOW() *)
  clock : Z;
  botStartTime : Z;
  (* the statements that the pool fails with an error *)
  fault : Stmt -> bool
}.

(* ===================================================================== *)
(** ** The monad of handlers: a world, and a completion *)
(* ===================================================================== *)

Inductive Completion (A : Type) : Type :=
| Normal (a : A)
| Throw (e : string).
Arguments Normal {A} a.
Arguments Throw {A} e.

Definition M (A : Type) : Type := World -> Completion A * World.

#[global] Instance M_ret : MRet M := fun A a w => (Normal a, w).

#[global] Instance M_bind : MBind M := fun A B f m w =>
  match m w with
  | (Normal a, w') => f a w'
  | (Throw e, w') => (Throw e, w')
  end.

Definition throw {A} (e : string) : M A := fun w => (Throw e, w).

(** [try { body } catch (err) { handler }] *)
Definition tryCatch {A} (body : M A) (handler : string -> M A) : M A := fun w =>
  match body w with
  | (Throw e, w') => handler e w'
  | r => r
  end.

(** [try { body } finally { final }] *)
Definition tryFinally {A} (body : M A) (final : M unit) : M A := fun w =>
  match body w with
  | (r, w') =>
      match final w' with
      | (Normal _, w'') => (r, w'')
      | (Throw e, w'') => (Throw e, w'')
      end
  end.

Definition getWorld : M World := fun w => (Normal w, w).
Definition modifyWorld (f : World -> World) : M unit := fun w => (Normal tt, f w).

Fixpoint foldM {A S} (body : S -> A -> M S) (l : list A) (acc : S) : M S :=
  match l with
  | [] => mret acc
  | x :: r => acc' ← body acc x; foldM body r acc'
  end.

(* ===================================================================== *)
(** ** config/db.js: the pool *)
(* ===================================================================== *)

Section Pool.
Context (env : Env).

(** [await pool.query(sql, params)] for a SELECT: the rows computed
    from the tables, or the error of a failing statement. *)
Definition query {A} (st : Stmt) (read : Database -> A) : M A := fun w =>
  if fault env st then (Throw "query failed", w)
  else (Normal (read (db w)), w).

(** [await pool.query(sql, params)] for an INSERT or UPDATE. *)
Definition execute (st : Stmt) (write : Database -> Database) : M unit := fun w =>
  if fault env st then (Throw "query failed", w)
  else (Normal tt, with_db write w).

(** NOW(), in whole seconds. *)
Definition sqlNow : Z := clock env / msPerSecond.

End Pool.

Definition maxOf (l : list Z) : option Z :=
  match l with
  | [] => None
  | x :: r => Some (fold_left Z.max r x)
  end.

(** [(rows[0].maxId || 0) + 1] *)
Definition nextId (maxId : option Z) : Z :=
  match maxId with
  | Some m => (if m =? 0 then 0 else m) + 1
  | None => 0 + 1
  end.

(* ===================================================================== *)
(** ** services/appointmentService.js *)
(* ===================================================================== *)

Module AppointmentService.

(** An element [{ slotDate }] of the list of available slots. *)
Record Slot : Type := { slotDate : Date }.

(** Helper function to format JS Date to MySQL DATETIME string: the
    milliseconds are dropped. *)
Definition formatDateTimeMySql (date : Date) : SqlDatetime :=
  match date with
  | ValidDate t => Some (t / msPerSecond)
  | InvalidDate => None
  end.

Definition hours : list Z := seqZ 8 (15 - 8).   (* hour = 8; hour < 15; hour++ *)
Definition minutes : list Z := [0; 30].         (* minute = 0; minute < 60; minute += 30 *)

(** ORDER BY appdate ASC *)
Fixpoint insertByAppdate (a : Appointment) (l : list Appointment) : list Appointment :=
  match l with
  | [] => [a]
  | b :: r => if appdate a <=? appdate b then a :: l else b :: insertByAppdate a r
  end.

Definition orderByAppdate (l : list Appointment) : list Appointment :=
  foldr insertByAppdate [] l.

Section WithEnv.
Context (env : Env).

(** SELECT COUNT( * ) AS cnt FROM appointments WHERE appdate = ? *)
Definition countAt (formatted : SqlDatetime) : M Z :=
  match formatted with
  | None => throw "Incorrect DATETIME value"
  | Some s =>
      query env (CountAppointmentsAt formatted) (fun d =>
        Z.of_nat (length (List.filter (fun a => appdate a =? s) (appointments d))))
  end.

(** SELECT COUNT( * ) AS cnt FROM appointments
    WHERE appdate >= ? AND appdate <= ? *)
Definition countBetween (lo hi : SqlDatetime) : M Z :=
  match lo, hi with
  | Some l, Some h =>
      query env (CountAppointmentsBetween lo hi) (fun d =>
        Z.of_nat (length (List.filter
          (fun a => (l <=? appdate a) && (appdate a <=? h)) (appointments d))))
  | _, _ => throw "Incorrect DATETIME value"
  end.

(** The direct check of one slot: booked unless the count is 0, and
    booked when the check fails. *)
Definition isSlotBooked (formattedSlotDate : SqlDatetime) : M bool :=
  tryCatch
    (cnt ← countAt formattedSlotDate;
     mret (negb (cnt =? 0)))
    (fun checkError => mret true).

(** The body of the two [for] loops, for one hour and minute of the
    day of [current]. *)
Definition slotStep (now current hour : Z) (possibleSlots : list Slot) (minute : Z)
  : M (list Slot) :=
  let slotDate := atTimeOfDay current hour minute in
  if now <? slotDate then
    booked ← isSlotBooked (formatDateTimeMySql (ValidDate slotDate));
    if negb booked
    then mret (possibleSlots ++ [ {| slotDate := ValidDate slotDate |} ])%list
    else mret possibleSlots
  else mret possibleSlots.

Definition hourStep (now current : Z) (possibleSlots : list Slot) (hour : Z)
  : M (list Slot) :=
  foldM (slotStep now current hour) minutes possibleSlots.

(** [while (current < endDate) { ...; current.setDate(current.getDate() + 1) }],
    on at most [fuel] days. *)
Fixpoint dayLoop (fuel : nat) (now current endDate : Z) (possibleSlots : list Slot)
  : M (list Slot) :=
  match fuel with
  | O => mret possibleSlots
  | S fuel' =>
      if current <? endDate then
        let dayOfWeek := getDay current in
        slots ← (if (0 <=? dayOfWeek) && (dayOfWeek <=? 4)   (* Sunday to Thursday *)
                 then foldM (hourStep now current) hours possibleSlots
                 else mret possibleSlots);
        dayLoop fuel' now (addDays current 1) endDate slots
      else mret possibleSlots
  end.

(** Days that the loop can still visit, and one more for the test
    that leaves it. *)
Definition daysBetween (current endDate : Z) : nat :=
  Z.to_nat ((endDate - current) / msPerDay + 2).

Definition getAvailableSlots (grade : string) : M (list Slot) :=
  let now := clock env in
  (* Define start and end dates (e.g., tomorrow for 3 days) *)
  let startDate := startOfDay (addDays now 1) in
  let endDate := startOfDay (addDays startDate 3) + (msPerDay - 1) in
  let numericGrade :=
    match JsString.matchDigits grade with
    | Some m => JsString.decimalFrom 0 m
    | None => 4
    end in
  let section := if numericGrade <=? 3 then "Section 1" else "Section 2" in
  let current := startOfDay startDate in
  dayLoop (daysBetween current endDate) now current endDate [].

(** [await pool.getConnection()].  The connection remembers the rows
    of the table as they are when its transaction begins (nothing is
    written in between), for [rollback]. *)
Definition getConnection : M (list Appointment) := fun w =>
  if fault env GetConnection then (Throw "no connection", w)
  else (Normal (appointments (db w)), w).

Definition beginTransaction : M unit := fun w =>
  if fault env BeginTransaction then (Throw "begin failed", w) else (Normal tt, w).

Definition commit : M unit := fun w =>
  if fault env Commit then (Throw "commit failed", w) else (Normal tt, w).

(** [await connection.rollback()]: the rows written since the
    transaction began are dropped; the server also drops them when
    the statement itself fails with the connection. *)
Definition rollback (connection : list Appointment) : M unit := fun w =>
  let w' := with_db (with_appointments (fun _ => connection)) w in
  if fault env Rollback then (Throw "rollback failed", w') else (Normal tt, w').

Definition release : M unit := mret tt.

(** SELECT MAX(id) AS maxId FROM appointments FOR UPDATE *)
Definition selectMaxId : M (option Z) :=
  query env SelectMaxAppointmentId (fun d => maxOf (List.map app_id (appointments d))).

(** INSERT INTO appointments (id, student_id, appdate, time, purpose,
    host, type, forgrade) VALUES (?, ?, ?, ?, ?, ?, ?, ?) *)
Definition insertAppointment (id : Z) (studentId : SqlVal) (formatted : SqlDatetime)
    (purpose type_ : string) (forgrade : SqlVal) : M unit :=
  match formatted with
  | None => throw "Incorrect datetime value"
  | Some s =>
      execute env InsertAppointment (with_appointments (fun rows =>
        rows ++ [ {| app_id := id; app_student_id := studentId;
                     appdate := s; app_time := s; app_purpose := purpose;
                     app_host := "IvyBot"; app_type := type_;
                     app_forgrade := forgrade |} ])%list)
  end.

(** Attempt to save an appointment for studentId at slotDatetime, if
    free. *)
Definition saveAppointment (studentId : SqlVal) (slotDatetime : Date)
    (purpose type_ : string) (forgrade : SqlVal) : M bool :=
  connection ← getConnection;
  tryFinally
    (tryCatch
       (beginTransaction;;
        let formattedSlotTime := formatDateTimeMySql slotDatetime in
        let slotTimeMinus1Sec := shift slotDatetime (-1000) in
        let slotTimePlus1Sec := shift slotDatetime 1000 in
        let formattedMinus1Sec := formatDateTimeMySql slotTimeMinus1Sec in
        let formattedPlus1Sec := formatDateTimeMySql slotTimePlus1Sec in
        cnt ← countBetween formattedMinus1Sec formattedPlus1Sec;
        if 0 <? cnt then
          rollback connection;;
          mret false                        (* Slot already taken *)
        else
          maxId ← selectMaxId;
          let newAppointmentId := nextId maxId in
          insertAppointment newAppointmentId studentId formattedSlotTime
                            purpose type_ forgrade;;
          commit;;
          mret true)
       (fun error =>
          rollback connection;;
          mret false))
    release.

Definition futureOf (studentId : SqlVal) (d : Database) : list Appointment :=
  orderByAppdate
    (List.filter (fun a => sqlEq (app_student_id a) studentId
                           && (sqlNow env <=? appdate a))
                 (appointments d)).

(** Check if the user already has an upcoming appointment:
    ... ORDER BY appdate ASC LIMIT 1; [None] is [null]. *)
Definition checkExistingAppointment (studentId : SqlVal) : M (option Appointment) :=
  tryCatch
    (rows ← query env SelectNextAppointment (fun d => take 1 (futureOf studentId d));
     mret (head rows))
    (fun error => mret None).

(** Get ALL future appointments for a given student ID. *)
Definition getAllFutureAppointments (studentId : SqlVal) : M (list Appointment) :=
  tryCatch
    (query env SelectFutureAppointments (futureOf studentId))
    (fun error => mret []).

End WithEnv.
End AppointmentService.

(* ===================================================================== *)
(** ** controllers/whatsappController.js *)
(* ===================================================================== *)

Module WhatsappController.
Import JsString AppointmentService.

Definition nl : string := String (ascii_of_nat 10) EmptyString.

(** The sentence that the prompts of the flow end with. *)
Definition exitHint : string :=
  " You can type " ++ dq ++ "exit" ++ dq ++ " at any time to cancel the process.".

(** Mapping from validation type to session storage key,
    [storeKeyMapping[validationType] || validationType]. *)
Definition storeKeyMapping (validationType : string) : string :=
  if String.eqb validationType "name" then "displayname"
  else if String.eqb validationType "email" then "email"
  else if String.eqb validationType "grade_level" then "grade"
  else if String.eqb validationType "semester" then "semester"
  else if String.eqb validationType "referral_source" then "referral"
  else validationType.

(** [userPhone.split('@')[0]] *)
Fixpoint phoneOf (userId : string) : string :=
  match userId with
  | EmptyString => EmptyString
  | String c r => if Ascii.eqb c "@" then EmptyString else String c (phoneOf r)
  end.

(** Get prompt message based on session state.  [None] is the
    TypeError of [sessionData.detailToUpdate.charAt] when no text is
    stored under that key. *)
Definition getPromptForState (st : string) (sessionData : gmap string JsVal)
  : option string :=
  if String.eqb st "admission_displayname" then
    Some ("Please provide your full name." ++ exitHint)
  else if String.eqb st "admission_email" then
    Some ("What is your email address?" ++ exitHint)
  else if String.eqb st "admission_grade" then
    Some ("For which grade are you applying? (e.g., Grade 3)." ++ exitHint)
  else if String.eqb st "admission_semester" then
    Some ("Which semester are you applying for? (1 or 2)." ++ exitHint)
  else if String.eqb st "admission_referral" then
    Some ("How did you hear about us? (Twitter, Facebook, Instagram, YouTube, Friend, Other)."
          ++ exitHint)
  else if String.eqb st "admission_confirm" then
    (* Only show review details if we have at least some data *)
    if negb (truthy (sessionData !! "displayname"))
       && negb (truthy (sessionData !! "email"))
       && negb (truthy (sessionData !! "grade"))
       && negb (truthy (sessionData !! "semester"))
       && negb (truthy (sessionData !! "referral"))
    then Some ("Let's start the admission process. Please provide your full name."
               ++ exitHint)
    else Some ("Please review your details:" ++ nl
               ++ "- Name: " ++ displayOr (sessionData !! "displayname") "Not provided" ++ nl
               ++ "- Email: " ++ displayOr (sessionData !! "email") "Not provided" ++ nl
               ++ "- Grade: " ++ displayOr (sessionData !! "grade") "Not provided" ++ nl
               ++ "- Semester: " ++ displayOr (sessionData !! "semester") "Not provided" ++ nl
               ++ "- Referral: " ++ displayOr (sessionData !! "referral") "Not provided" ++ nl
               ++ nl
               ++ "Are all details correct? (Yes/No)" ++ exitHint)
  else if String.eqb st "admission_change_or_cancel" then
    Some ("Would you like to change any detail or cancel the admission process? (Reply "
          ++ dq ++ "Change" ++ dq ++ " or " ++ dq ++ "Cancel" ++ dq ++ ")")
  else if String.eqb st "admission_choose_detail_to_change" then
    Some ("Which detail would you like to change? (Name, Email, Grade, Semester, Referral)."
          ++ exitHint)
  else if String.eqb st "update_detail" then
    match sessionData !! "detailToUpdate" with
    | Some (JStr detail) =>
        Some ("Please provide the new value for " ++ capitalize detail ++ "." ++ exitHint)
    | _ => None
    end
  else if String.eqb st "meeting_offer" then
    Some ("Your admission is submitted. Would you like to schedule a meeting now? (Yes/No)"
          ++ exitHint)
  else if String.eqb st "meeting_show_slots" then
    Some ("Available slots (8:00 AM–3:00 PM, every 30 min, Sun–Thu):" ++ nl
          ++ display (sessionData !! "slotsList") ++ nl
          ++ "Please choose a slot number." ++ exitHint)
  else if String.eqb st "awaiting_continue" then
    Some "How can I help you today?"
  else if String.eqb st "check_existing_appointment" then
    Some "Would you like to proceed with the admission process anyway? (Yes/No)"
  else if String.eqb st "confirm_existing_data" then
    Some "Would you like to use these details? (Yes/No)"
  else if String.eqb st "confirm_replace_appointment" then
    Some "Do you want to replace the existing appointment? (Yes/No)"
  else if String.eqb st "confirm_book_another_appointment" then
    Some "Would you like to book another appointment? (Yes/No)"
  else Some "".

(** Check if the validation response is acceptable. *)
Definition isValidValidation (result : string) : bool :=
  let normalized := trim (toLowerCase result) in
  String.eqb normalized "valid" || startsWith normalized "valid ".

(** [parseInt(v, 10)] of a stored value. *)
Definition parseIntVal (v : JsVal) : JsVal :=
  match v with
  | JNum n => JNum n
  | JStr s => match parseInt s with Some n => JNum n | None => JNaN end
  | _ => JNaN
  end.

(** [column ? parseInt(column, 10) : null] *)
Definition intOrNull (column : SqlVal) : JsVal :=
  if truthy (Some (ofSql column)) then parseIntVal (ofSql column) else JNull.

(** [match ? parseInt(match[0], 10) : null] for [text.match(/\d+/)] *)
Definition firstNumber (text : string) : JsVal :=
  match matchDigits text with
  | Some run => JNum (decimalFrom 0 run)
  | None => JNull
  end.

(** A row of the join of student and studentcontactinfo. *)
Record Admission : Type := {
  adm_id : Z;
  adm_displayname : SqlVal;
  adm_grade : SqlVal;
  adm_semester : SqlVal;
  adm_referral : SqlVal;
  adm_email : SqlVal
}.

Definition joinAdmissions (keep : Student -> ContactInfo -> bool) (d : Database)
  : list Admission :=
  flat_map (fun s =>
    flat_map (fun sci =>
      if (st_id s =? ci_student_id sci) && keep s sci
      then [ {| adm_id := st_id s; adm_displayname := st_displayname s;
                adm_grade := st_grade s; adm_semester := st_semester s;
                adm_referral := st_referral s; adm_email := ci_email sci |} ]
      else [])
      (studentcontactinfo d))
    (student d).

Definition hasMobile (phone : string) (sci : ContactInfo) : bool :=
  sqlEq (ci_mobile sci) (SText phone) || sqlEq (ci_mobile2 sci) (SText phone).

Section WithEnv.
Context (env : Env).

(** services/whatsappService.js: a failure of the channel is logged
    and swallowed, the text is recorded as handed over. *)
Definition sendMessage (userId content : string) : M unit :=
  modifyWorld (with_outbox (fun o => (o ++ [(userId, content)])%list)).

Definition sessionsGet (userId : string) : M (option loc) :=
  w ← getWorld; mret (userSessions w !! userId).

Definition sessionsSet (userId : string) (session : loc) : M unit :=
  modifyWorld (with_userSessions <[userId := session]>).

Definition sessionsDelete (userId : string) : M unit :=
  modifyWorld (with_userSessions (delete userId)).

Definition readSession (session : loc) : M Session := fun w =>
  match heap w !! session with
  | Some s => (Normal s, w)
  | None => (Throw "TypeError", w)
  end.

(** An assignment to a property of the session object. *)
Definition mutate (session : loc) (f : Session -> Session) : M unit :=
  modifyWorld (with_heap (alter f session)).

(** A new object [{ state, data: {} }]. *)
Definition allocSession (s : Session) : M loc := fun w =>
  let l := fresh (dom (heap w)) in
  (Normal l, with_heap <[l := s]> w).

Definition promptFor (st : string) (sessionData : gmap string JsVal) : M string :=
  match getPromptForState st sessionData with
  | Some p => mret p
  | None => throw "TypeError"
  end.

(** [await sendMessage(userId, getPromptForState(session.state, session.data))] *)
Definition sendPrompt (userId : string) (session : loc) : M unit :=
  s ← readSession session;
  p ← promptFor (state s) (data s);
  sendMessage userId p.

(** Retrieve user info from the DB based on phone number. *)
Definition getUserInfo (userPhone : string)
  : M (option (string * (Guardian + ContactInfo))) :=
  let phone := phoneOf userPhone in
  guardianRows ← query env SelectGuardianByMobile (fun d =>
    List.filter (fun g => sqlEq (gd_mobile g) (SText phone)) (guardian d));
  match guardianRows with
  | g :: _ => mret (Some ("parent", inl g))
  | [] =>
      studentRows ← query env SelectContactByMobile (fun d =>
        List.filter (hasMobile phone) (studentcontactinfo d));
      match studentRows with
      | c :: _ => mret (Some ("student", inr c))
      | [] => mret None
      end
  end.

(** SELECT s.id, s.displayname, s.grade, s.semester, s.referral, sci.email
    FROM student s JOIN studentcontactinfo sci ON s.id = sci.student_id
    WHERE (sci.mobile = ? OR sci.mobile2 = ?) AND s.enrolled = 0 *)
Definition selectUnenrolledByMobile (phone : string) : M (list Admission) :=
  query env SelectUnenrolledByMobile
    (joinAdmissions (fun s sci => hasMobile phone sci && (st_enrolled s =? 0))).

(** ... WHERE s.id = ? AND s.enrolled = 0 LIMIT 1 *)
Definition selectUnenrolledById (studentId : Z) : M (list Admission) :=
  query env SelectUnenrolledById (fun d =>
    take 1 (joinAdmissions (fun s _ => (st_id s =? studentId) && (st_enrolled s =? 0)) d)).

(** SELECT student_id FROM studentcontactinfo
    WHERE mobile = ? OR mobile2 = ? LIMIT 1 *)
Definition selectStudentIdByMobile (phone : string) : M (list Z) :=
  query env SelectStudentIdByMobile (fun d =>
    take 1 (List.map ci_student_id (List.filter (hasMobile phone) (studentcontactinfo d)))).

Definition useDetailsQuestion : string :=
  "Would you like to use these details? (Reply " ++ dq ++ "Yes" ++ dq
  ++ " to use them, or " ++ dq ++ "No" ++ dq ++ " to fill out the form)".

(** The text that shows a found admission record as the database
    returned it. *)
Definition foundRecordText (row : Admission) : string :=
  "We found your information based on your phone number:" ++ nl
  ++ "- Name: " ++ display (Some (ofSql (adm_displayname row))) ++ nl
  ++ "- Email: " ++ display (Some (ofSql (adm_email row))) ++ nl
  ++ "- Grade: " ++ display (Some (ofSql (adm_grade row))) ++ nl
  ++ "- Semester: " ++ display (Some (ofSql (adm_semester row))) ++ nl
  ++ "- Referral: " ++ display (Some (ofSql (adm_referral row))) ++ nl ++ nl
  ++ useDetailsQuestion.

(** The same text from the session data, with N/A for a missing field. *)
Definition foundDataText (d : gmap string JsVal) : string :=
  "We found your information based on your phone number:" ++ nl
  ++ "- Name: " ++ displayOr (d !! "displayname") "N/A" ++ nl
  ++ "- Email: " ++ displayOr (d !! "email") "N/A" ++ nl
  ++ "- Grade: " ++ displayOr (d !! "grade") "N/A" ++ nl
  ++ "- Semester: " ++ displayOr (d !! "semester") "N/A" ++ nl
  ++ "- Referral: " ++ displayOr (d !! "referral") "N/A" ++ nl ++ nl
  ++ useDetailsQuestion.

(** [referral: row.referral || 'Unknown'] *)
Definition referralOf (row : Admission) : JsVal :=
  if truthy (Some (ofSql (adm_referral row))) then ofSql (adm_referral row)
  else JStr "Unknown".

(** The object literal [{ studentId, displayname, email, grade,
    semester, referral }] built from a found record. *)
Definition dataOfRecord (studentId : JsVal) (row : Admission) : gmap string JsVal :=
  <["studentId" := studentId]>
  (<["displayname" := ofSql (adm_displayname row)]>
  (<["email" := ofSql (adm_email row)]>
  (<["grade" := intOrNull (adm_grade row)]>
  (<["semester" := intOrNull (adm_semester row)]>
  (<["referral" := referralOf row]> ∅))))).

(** The check for existing data shared, statement for statement, by
    the states confirm_book_another_appointment and
    check_existing_appointment. *)
Definition resumeFromExistingData (userId : string) (session : loc) : M unit :=
  let phone := phoneOf userId in
  existingData ← selectUnenrolledByMobile phone;
  match existingData with
  | row :: _ =>
      (* Data found, ask user to confirm using it *)
      mutate session (set_data (dataOfRecord (JNum (adm_id row)) row));;
      mutate session (set_state "confirm_existing_data");;
      mutate session (set_checkedExistingData true);;
      sendMessage userId (foundRecordText row)
  | [] =>
      (* No data found, proceed to ask for name *)
      mutate session (set_state "admission_displayname");;
      mutate session (set_checkedExistingData true);;
      mutate session (set_data ∅);;
      sendPrompt userId session
  end.

Definition handleConfirmBookAnotherAppointment (userId userMessage : string)
    (session : loc) : M unit :=
  let yesNo := interpretYesNo env userMessage in
  if String.eqb (toLowerCase yesNo) "yes" then
    resumeFromExistingData userId session;;
    sessionsSet userId session
  else
    sendMessage userId "Okay. Your existing appointments remain scheduled. Let us know if you need anything else.";;
    sessionsDelete userId.

Definition handleCheckExistingAppointment (userId userMessage : string)
    (session : loc) : M unit :=
  let yesNo := interpretYesNo env userMessage in
  if String.eqb (toLowerCase yesNo) "yes" then
    resumeFromExistingData userId session;;
    sessionsSet userId session
  else
    sessionsDelete userId;;
    sendMessage userId "Okay, admission process cancelled. Your existing appointment remains scheduled. Let us know if you need anything else.".

Definition handleConfirmExistingData (userId userMessage : string)
    (session : loc) : M unit :=
  let yesNo := interpretYesNo env userMessage in
  if String.eqb (toLowerCase yesNo) "yes" then
    mutate session (set_state "meeting_offer");;
    sendPrompt userId session
  else if String.eqb (toLowerCase yesNo) "no" then
    mutate session (set_state "admission_choose_detail_to_change");;
    sendPrompt userId session
  else
    sendMessage userId "Sorry, I didn't understand. Please reply 'Yes' to use the found details or 'No' to fill out the form.".

(** The inner [switch (session.state)] of the field collection. *)
Definition validationTypeOfState (st : string) : string :=
  if String.eqb st "admission_displayname" then "name"
  else if String.eqb st "admission_email" then "email"
  else if String.eqb st "admission_grade" then "grade_level"
  else if String.eqb st "admission_semester" then "semester"
  else if String.eqb st "admission_referral" then "referral_source"
  else "text".

(** Move to the next state based on current state. *)
Definition nextStateOf (st : string) : string :=
  if String.eqb st "admission_displayname" then "admission_email"
  else if String.eqb st "admission_email" then "admission_grade"
  else if String.eqb st "admission_grade" then "admission_semester"
  else if String.eqb st "admission_semester" then "admission_referral"
  else if String.eqb st "admission_referral" then "admission_confirm"
  else "".

(** Extract the raw value from the AI response (usually after the
    marker), with the user input as fallback. *)
Definition extractValue (validationRes userMessage : string) : string :=
  if startsWith (toLowerCase validationRes) "valid "
  then trim (substring 6 validationRes)
  else trim userMessage.

(** Admission flow data collection: the states admission_displayname,
    admission_email, admission_grade, admission_semester and
    admission_referral. *)
Definition handleFieldCollection (userId userMessage : string) (session : loc)
  : M unit :=
  s ← readSession session;
  let validationType := validationTypeOfState (state s) in
  (* Let the AI service handle all validation *)
  let validationRes := validateInput env validationType userMessage in
  if isValidValidation validationRes then
    let storeKey := storeKeyMapping validationType in
    let extractedValue := extractValue validationRes userMessage in
    (* Store integer for grade and semester, otherwise store the extracted string *)
    (if String.eqb storeKey "grade" then
       mutate session (set_field storeKey (firstNumber extractedValue))
     else if String.eqb storeKey "semester" then
       mutate session (set_field storeKey (firstNumber extractedValue))
     else
       mutate session (set_field storeKey (JStr extractedValue)));;
    let nextState := nextStateOf (state s) in
    mutate session (set_state nextState);;
    (* Save session before sending next prompt *)
    sessionsSet userId session;;
    sendPrompt userId session
  else
    (* Send the AI's validation error message *)
    sendMessage userId validationRes;;
    sendPrompt userId session;;
    sessionsSet userId session.

(** The body of the [try] of admission_confirm up to the change of
    state: update the existing record, or create a new one. *)
Definition persistAdmission (userId : string) (session : loc) : M unit :=
  s ← readSession session;
  let d := data s in
  if truthy (d !! "studentId") then
    (* Update existing record *)
    let currentPhone := phoneOf userId in
    execute env UpdateContact (with_studentcontactinfo (List.map (fun c =>
      if sqlEq (SInt (ci_student_id c)) (toSql (d !! "studentId"))
      then {| ci_id := ci_id c; ci_student_id := ci_student_id c;
              ci_email := toSql (d !! "email"); ci_mobile := SText currentPhone;
              ci_mobile2 := ci_mobile2 c |}
      else c)));;
    execute env UpdateStudent (with_student (List.map (fun r =>
      if sqlEq (SInt (st_id r)) (toSql (d !! "studentId"))
      then {| st_id := st_id r;
              st_displayname := toSql (d !! "displayname");
              st_grade := toSql (d !! "grade");
              st_semester := toSql (d !! "semester");
              st_referral := toSql (d !! "referral");
              st_regdate := st_regdate r; st_enrolled := st_enrolled r |}
      else r)))
  else
    (* Create new record *)
    maxStudent ← query env SelectMaxStudentId (fun db => maxOf (List.map st_id (student db)));
    let newStudentId := nextId maxStudent in
    execute env InsertStudent (with_student (fun rows =>
      rows ++ [ {| st_id := newStudentId;
                   st_displayname := toSql (d !! "displayname");
                   st_grade := toSql (d !! "grade");
                   st_semester := toSql (d !! "semester");
                   st_referral := toSql (d !! "referral");
                   st_regdate := sqlNow env; st_enrolled := 0 |} ])%list);;
    maxContact ← query env SelectMaxContactId (fun db =>
      maxOf (List.map ci_id (studentcontactinfo db)));
    let newContactId := nextId maxContact in
    execute env InsertContact (with_studentcontactinfo (fun rows =>
      rows ++ [ {| ci_id := newContactId; ci_student_id := newStudentId;
                   ci_email := toSql (d !! "email");
                   ci_mobile := SText (phoneOf userId);
                   ci_mobile2 := SNull |} ])%list);;
    mutate session (set_field "studentId" (JNum newStudentId)).

Definition handleAdmissionConfirm (userId userMessage : string) (session : loc)
  : M unit :=
  let yesNo := interpretYesNo env userMessage in
  if String.eqb (toLowerCase yesNo) "yes" then
    tryCatch
      (persistAdmission userId session;;
       mutate session (set_state "meeting_offer");;
       sendPrompt userId session;;
       sessionsSet userId session)
      (fun err =>
         sendMessage userId "There was a problem saving your data. Please try again later.";;
         sessionsDelete userId)
  else if String.eqb yesNo "no" then
    mutate session (set_state "admission_choose_detail_to_change");;
    sendPrompt userId session;;
    sessionsSet userId session
  else
    sendMessage userId "I did not understand. Are all details correct? (Yes/No)".

Definition validDetails : list string :=
  ["name"; "email"; "grade"; "semester"; "referral"].

Definition handleChooseDetailToChange (userId userMessage : string) (session : loc)
  : M unit :=
  let detail := toLowerCase (trim userMessage) in
  (if existsb (String.eqb detail) validDetails then
     mutate session (set_field "detailToUpdate" (JStr detail));;
     mutate session (set_state "update_detail");;
     sendMessage userId ("Please provide your new " ++ capitalize detail ++ ".")
   else
     sendMessage userId "Please choose a valid detail: Name, Email, Grade, Semester, or Referral.");;
  sessionsSet userId session.

(** The [switch (detailToUpdate)] of update_detail. *)
Definition validationTypeOfDetail (detailToUpdate : option JsVal) : string :=
  match detailToUpdate with
  | Some (JStr detail) =>
      if String.eqb detail "name" then "name"
      else if String.eqb detail "email" then "email"
      else if String.eqb detail "grade" then "grade_level"
      else if String.eqb detail "semester" then "semester"
      else if String.eqb detail "referral" then "referral_source"
      else "text"
  | _ => "text"
  end.

Definition handleUpdateDetail (userId userMessage : string) (session : loc) : M unit :=
  s ← readSession session;
  let detailToUpdate := data s !! "detailToUpdate" in
  let validationType := validationTypeOfDetail detailToUpdate in
  let validationRes := validateInput env validationType userMessage in
  (if isValidValidation validationRes then
     let storeKey := storeKeyMapping validationType in
     let valueToStore :=
       (* Special handling for grade and semester to ensure they are stored as numbers *)
       if String.eqb storeKey "grade" || String.eqb storeKey "semester" then
         (* Attempt 1: Extract number from validationRes *)
         let attempt1 :=
           if startsWith (toLowerCase validationRes) "valid "
           then firstNumber (trim (substring 6 validationRes))
           else JNull in
         (* Attempt 2: Extract number from original userMessage if Attempt 1 failed *)
         match attempt1 with
         | JNull => firstNumber userMessage
         | v => v
         end
       else JStr (trim userMessage) in
     mutate session (set_field storeKey valueToStore);;
     mutate session (set_field "detailToUpdate" JNull);;
     mutate session (set_state "admission_confirm");;
     let displayValue :=
       match valueToStore with
       | JNull => trim userMessage
       | v => display (Some v)
       end in
     sendMessage userId ("Thank you! Your " ++ display detailToUpdate
                         ++ " has been updated to " ++ displayValue ++ ".");;
     sendPrompt userId session
   else
     sendMessage userId validationRes;;
     sendPrompt userId session);;
  sessionsSet userId session.

(** [slots.map((s, i) => `${i + 1}. ${dateStr}, ${timeStr}`).join('\n')] *)
Fixpoint slotLines (i : Z) (slots : list Slot) : list string :=
  match slots with
  | [] => []
  | s :: r =>
      (pretty (i + 1) ++ ". " ++ toLocaleDateString env (slotDate s) ++ ", "
       ++ toLocaleTimeString env (slotDate s)) :: slotLines (i + 1) r
  end.

Definition renderSlots (slots : list Slot) : string :=
  String.concat nl (slotLines 0 slots).

Definition handleMeetingOffer (userId userMessage : string) (session : loc) : M unit :=
  let yesNo := toLowerCase (interpretYesNo env userMessage) in
  if String.eqb yesNo "yes" then
    mutate session (set_state "meeting_show_slots");;
    sessionsSet userId session;;
    s ← readSession session;
    (* Ensure grade is passed as a string like Grade X to getAvailableSlots *)
    let gradeNumber :=
      if truthy (data s !! "grade")
      then parseIntVal (default JNull (data s !! "grade"))
      else JNum 4 in
    let gradeForSlots := "Grade " ++ display (Some gradeNumber) in
    slots ← getAvailableSlots env gradeForSlots;
    match slots with
    | [] =>
        sendMessage userId "No available slots in the next three days (Sun–Thu, 8:00–15:00).";;
        sessionsDelete userId
    | _ =>
        let slotMsg := "Available slots (Tomorrow and the next 2 days, 8:00 AM–3:00 PM, every 30 min, Sun–Thu):" ++ nl in
        let slotsList := renderSlots slots in
        mutate session (set_field "slotsList" (JStr slotsList));;
        sendMessage userId (slotMsg ++ slotsList ++ nl ++ "Please choose a slot number:")
    end
  else if String.eqb yesNo "no" then
    sendMessage userId "No worries! Let us know if you need anything else.";;
    sessionsDelete userId
  else
    sendMessage userId "I did not understand. Would you like to schedule a meeting? (Yes/No)".

Definition handleMeetingShowSlots (userId userMessage : string) (session : loc)
  : M unit :=
  s ← readSession session;
  let chosenNum := parseInt (trim userMessage) in
  let gradeForSlots :=
    if truthy (data s !! "grade")
    then "Grade " ++ display (data s !! "grade") else "Grade 4" in
  (* 1. Get the list of available slot Date objects *)
  availableSlotsObjects ← getAvailableSlots env gradeForSlots;
  match chosenNum with
  | Some n =>
      if (n <=? 0) || (Z.of_nat (length availableSlotsObjects) <? n) then
        (* Invalid number selected *)
        sendMessage userId "Invalid slot number. Please choose one of the listed options.";;
        sendMessage userId ("Available slots:" ++ nl ++ renderSlots availableSlotsObjects
                            ++ nl ++ "Please choose a slot number:")
      else
        (* 2. Get the EXACT Date object chosen by the user *)
        match availableSlotsObjects !! Z.to_nat (n - 1) with
        | None => throw "TypeError"
        | Some chosenSlotObject =>
            let appointmentDateTime := slotDate chosenSlotObject in
            let phone := phoneOf userId in
            (* 3. Check for existing appointment just before saving *)
            existingAppointment ← checkExistingAppointment env (SText phone);
            match existingAppointment with
            | Some existing =>
                let existingDate := ValidDate (appdate existing * msPerSecond) in
                mutate session (set_field "pendingSlot" (JDate appointmentDateTime));;
                mutate session (set_field "existingAppointmentDate" (JDate existingDate));;
                mutate session (set_state "confirm_replace_appointment");;
                sessionsSet userId session;;
                sendMessage userId
                  ("You already have an appointment scheduled for "
                   ++ toLocaleString env existingDate ++ ". "
                   ++ "Do you want to replace it with the new slot on "
                   ++ toLocaleString env appointmentDateTime ++ "? (Yes/No)")
            | None =>
                (* 4. If no existing appointment, proceed to save *)
                tryCatch
                  (success ← saveAppointment env (toSql (data s !! "studentId"))
                               appointmentDateTime "Admission Inquiry" "Admission"
                               (toSql (data s !! "grade"));
                   if (success : bool) then
                     sendMessage userId
                       ("Your meeting is scheduled for "
                        ++ toLocaleDateString env appointmentDateTime ++ " at "
                        ++ toLocaleTimeString env appointmentDateTime ++ ".");;
                     (* Go back to neutral state *)
                     mutate session (set_state "awaiting_continue");;
                     mutate session (delete_field "slotsList");;
                     sessionsSet userId session;;
                     sendPrompt userId session
                   else
                     sendMessage userId "Sorry, the selected slot might have just been taken or there was a problem scheduling your appointment. Please try again later.";;
                     sessionsDelete userId)
                  (fun err =>
                     sendMessage userId "Sorry, there was an error scheduling your appointment. Please try again later.";;
                     sessionsDelete userId)
            end
        end
  | None =>
      (* isNaN(chosenNum) *)
      sendMessage userId "Invalid slot number. Please choose one of the listed options.";;
      sendMessage userId ("Available slots:" ++ nl ++ renderSlots availableSlotsObjects
                          ++ nl ++ "Please choose a slot number:")
  end.

(** [chosenSlot.slot_date] and [chosenSlot.slot_time]: reading a
    property of [undefined] or [null] is a TypeError; no value that a
    session stores has a property of either name, the read yields
    [undefined]. *)
Definition getProperty (object : option JsVal) (name : string) : M (option JsVal) :=
  match object with
  | None | Some JNull => throw "TypeError"
  | Some _ => mret None
  end.

Definition handleConfirmReplaceAppointment (userId userMessage : string)
    (session : loc) : M unit :=
  let yesNo := interpretYesNo env userMessage in
  if String.eqb (toLowerCase yesNo) "yes" then
    (* User wants to replace, proceed with saving the pending slot *)
    s ← readSession session;
    let chosenSlot := data s !! "pendingSlot" in
    slot_date ← getProperty chosenSlot "slot_date";
    slot_time ← getProperty chosenSlot "slot_time";
    let appointmentDateTime :=
      JsDate.parse (dateParser env) (display slot_date ++ " " ++ display slot_time) in
    tryCatch
      (success ← saveAppointment env (toSql (data s !! "studentId"))
                   appointmentDateTime "Admission Inquiry" "Admission"
                   (toSql (data s !! "grade"));
       if (success : bool) then
         sendMessage userId
           ("Okay, your previous appointment has been replaced. Your new meeting is scheduled for "
            ++ display slot_date ++ " at " ++ display slot_time ++ ".");;
         (* Go back to neutral state *)
         mutate session (set_state "awaiting_continue");;
         mutate session (delete_field "pendingSlot");;
         mutate session (delete_field "existingAppointmentDate");;
         sessionsSet userId session;;
         sendPrompt userId session
       else
         sendMessage userId "Sorry, there was a problem replacing your appointment. The slot might have been taken. Please try scheduling again.";;
         sessionsDelete userId)
      (fun err =>
         sendMessage userId "Sorry, there was an error replacing your appointment. Please try again later.";;
         sessionsDelete userId)
  else
    (* User does not want to replace *)
    sendMessage userId "Okay, the new appointment slot was not scheduled. Your existing appointment remains.";;
    mutate session (set_state "meeting_offer");;
    mutate session (delete_field "pendingSlot");;
    mutate session (delete_field "existingAppointmentDate");;
    sessionsSet userId session;;
    sendPrompt userId session.

(** For other intents, check for basic user info. *)
Definition handleOtherIntent (userId : string) : M unit :=
  userInfo ← getUserInfo userId;
  match userInfo with
  | Some (role, row) =>
      sendMessage userId ("We found your info as a " ++ role ++ ":" ++ nl
                          ++ JSON_stringify env row);;
      sendMessage userId "How can I help you today?";;
      sessionsDelete userId     (* Clear the session *)
  | None =>
      sendMessage userId "Hello! You can ask about admissions or any general question about the school."
  end.

(** [answer || 'Could you please rephrase your question?'] *)
Definition answerOrRephrase (userMessage : string) : string :=
  let answer := answerQuestion env userMessage (inputContent env) in
  if String.eqb answer "" then "Could you please rephrase your question?" else answer.

(** [apps.map((app, index) => `${index + 1}. ${new Date(app.appdate).toLocaleString()}`)] *)
Fixpoint appointmentLines (i : Z) (apps : list Appointment) : list string :=
  match apps with
  | [] => []
  | app :: r =>
      (pretty (i + 1) ++ ". " ++ toLocaleString env (ValidDate (appdate app * msPerSecond)))
      :: appointmentLines (i + 1) r
  end.

Definition appointmentsFoundText (apps : list Appointment) : string :=
  "I found the following upcoming appointment(s) scheduled for your number:" ++ nl
  ++ String.concat nl (appointmentLines 0 apps) ++ nl ++ nl
  ++ "Would you like to book another appointment? (Yes/No)".

(** Find student_id from the phone number; a failure of the query
    counts as no student, [None] is [null]. *)
Definition findStudentId (phone : string) (session : loc) : M (option Z) :=
  tryCatch
    (contactRows ← selectStudentIdByMobile phone;
     match contactRows with
     | studentId :: _ =>
         mutate session (set_field "studentId" (JNum studentId));;
         mret (Some studentId)
     | [] => mret None
     end)
    (fun dbError => mret None).

(** The pre-flow checks on the session object [session]: the
    resulting prompt, if one was composed, and the next state. *)
Definition admissionChecks (studentId : option Z) (session : loc)
  : M (option string * string) :=
  if truthy (JNum <$> studentId) then
    let id := default 0 studentId in
    (* Check Appointments *)
    existingAppointments ← tryCatch (getAllFutureAppointments env (SInt id))
                                    (fun appError => mret []);
    match existingAppointments with
    | _ :: _ =>
        mutate session (set_checkedExistingAppointment true);;
        mutate session (set_field "existingAppointments" (JRows existingAppointments));;
        mret (Some (appointmentsFoundText existingAppointments),
              "confirm_book_another_appointment")
    | [] =>
        (* No Appointments -> Check Data *)
        mutate session (set_checkedExistingAppointment true);;
        existingDataRows ← selectUnenrolledById id;
        match existingDataRows with
        | row :: _ =>
            (* Update current session data with found details *)
            mutate session (fun s => set_data
              (<["displayname" := ofSql (adm_displayname row)]>
              (<["email" := ofSql (adm_email row)]>
              (<["grade" := intOrNull (adm_grade row)]>
              (<["semester" := intOrNull (adm_semester row)]>
              (<["referral" := referralOf row]> (data s)))))) s);;
            s ← readSession session;
            mutate session (set_checkedExistingData true);;
            mret (Some (foundDataText (data s)), "confirm_existing_data")
        | [] =>
            (* No Appointments & No Data -> Start fresh form *)
            mutate session (set_checkedExistingData true);;
            mutate session (set_checkedExistingAppointment true);;
            mret (None, "admission_displayname")
        end
    end
  else
    (* No Student ID Found -> Start fresh form *)
    mutate session (set_checkedExistingAppointment true);;
    mutate session (set_checkedExistingData true);;
    mret (None, "admission_displayname").

Definition handleAwaitingContinue (userId userMessage : string) (session : loc)
  : M unit :=
  s ← readSession session;
  let intent := determineIntent env userMessage (state s) in
  if String.eqb intent "AskFAQ" then
    sendMessage userId (answerOrRephrase userMessage);;
    (* Still in awaiting_continue state, ask again *)
    sendPrompt userId session
  else if String.eqb intent "AdmissionFlow" then
    let phone := phoneOf userId in
    (* Reset data within the current session for a fresh check *)
    mutate session (set_data ∅);;
    studentId ← findStudentId phone session;
    '(promptToSend, nextState) ← admissionChecks studentId session;
    (* Update session state and send the appropriate prompt *)
    mutate session (set_state nextState);;
    text ← match promptToSend with
           | Some p => mret p
           | None => s' ← readSession session; promptFor (state s') (data s')
           end;
    sessionsSet userId session;;
    sendMessage userId text
  else
    handleOtherIntent userId.

Definition admissionStates : list string :=
  ["admission_displayname"; "admission_email"; "admission_grade";
   "admission_semester"; "admission_referral"; "admission_confirm";
   "admission_choose_detail_to_change"; "update_detail"].

(** The [default] case of the switch: the states without a case of
    their own. *)
Definition handleDefault (userId userMessage : string) (session : loc) : M unit :=
  s ← readSession session;
  let intent := determineIntent env userMessage (state s) in
  if String.eqb intent "AdmissionFlow" && existsb (String.eqb (state s)) admissionStates then
    sendPrompt userId session
  else if String.eqb intent "AskFAQ" then
    (if negb (String.eqb (state s) "") then
       mutate session (set_previousState (Some (state s)));;
       mutate session (set_state "awaiting_continue");;
       sessionsSet userId session
     else
       fresh_session ← allocSession (newSession "awaiting_continue");
       sessionsSet userId fresh_session);;
    sendMessage userId (answerOrRephrase userMessage);;
    sendMessage userId "How can I help you today?"
  else
    handleOtherIntent userId.

(** [switch (session.state)] *)
Definition dispatch (st : string) : string -> string -> loc -> M unit :=
  if String.eqb st "confirm_book_another_appointment" then handleConfirmBookAnotherAppointment
  else if String.eqb st "confirm_existing_data" then handleConfirmExistingData
  else if String.eqb st "admission_displayname"
       || String.eqb st "admission_email"
       || String.eqb st "admission_grade"
       || String.eqb st "admission_semester"
       || String.eqb st "admission_referral" then handleFieldCollection
  else if String.eqb st "check_existing_appointment" then handleCheckExistingAppointment
  else if String.eqb st "admission_confirm" then handleAdmissionConfirm
  else if String.eqb st "admission_choose_detail_to_change" then handleChooseDetailToChange
  else if String.eqb st "update_detail" then handleUpdateDetail
  else if String.eqb st "meeting_offer" then handleMeetingOffer
  else if String.eqb st "meeting_show_slots" then handleMeetingShowSlots
  else if String.eqb st "confirm_replace_appointment" then handleConfirmReplaceAppointment
  else if String.eqb st "awaiting_continue" then handleAwaitingContinue
  else handleDefault.

Definition completionText : string :=
  "Your admission process is complete. Let us know if you need anything else.".

Definition cancellationText : string :=
  "Admission process cancelled. You can start again anytime.".

(** Main session handler for admission and meeting flows. *)
Definition handleSession (userId userMessage : string) (session : loc) : M unit :=
  s ← readSession session;
  if intentDisabled s then
    sendMessage userId completionText
  else if String.eqb (toLowerCase userMessage) "exit" then
    (* Check for exit command *)
    sessionsDelete userId;;
    sendMessage userId cancellationText
  else
    dispatch (state s) userId userMessage session.

(** An inbound event of the channel, [{ from, body, timestamp }]. *)
Record Message : Type := { from : string; body : string; timestamp : Z }.

(** utils/rateLimiter.js: at most 100 messages, the entry of the
    cache expires 60 seconds after it was last set. *)
Definition isRateLimited (userId : string) : M bool :=
  w ← getWorld;
  let count :=
    match rateLimitCache w !! userId with
    | Some (c, expiry) => if expiry <? clock env then 0 else c
    | None => 0
    end in
  if 100 <=? count then mret true
  else
    modifyWorld (with_rateLimitCache
      <[userId := (count + 1, clock env + 60 * msPerSecond)]>);;
    mret false.

(** models/userMessageModel.js *)
Definition saveUserMessage (userId message : string) (time : Z) : M unit :=
  tryCatch
    (execute env InsertUserMessage (with_user_messages (fun rows =>
       rows ++ [(userId, message, time)])%list))
    (fun err => mret tt).

(** utils/logger.js *)
Definition logInteraction (userId userMessage : string) (time : Z) : M unit :=
  let sanitized := Sanitizer.sanitizeInput userMessage in
  modifyWorld (with_interactionLog (fun l => l ++ [(time, userId, sanitized)])%list).

(** PRIORITY 2: start a new admission flow when there is no active
    session.  The checks are those of awaiting_continue, run on an
    object that enters the session store only at the end. *)
Definition startAdmissionFlow (userId : string) : M unit :=
  let phone := phoneOf userId in
  fresh_session ← allocSession (newSession "admission_displayname");
  studentId ← findStudentId phone fresh_session;
  '(promptToSend, nextState) ← admissionChecks studentId fresh_session;
  mutate fresh_session (set_state nextState);;
  text ← match promptToSend with
         | Some p => mret p
         | None => s' ← readSession fresh_session; promptFor (state s') (data s')
         end;
  (* Store the session and send the determined initial prompt *)
  sessionsSet userId fresh_session;;
  if String.eqb text ""
  then sendMessage userId "Sorry, something went wrong. Please try again."
  else sendMessage userId text.

(** PRIORITY 2 to 4: a message of a user without an active session. *)
Definition handleWithoutSession (userId userMessage intent : string) : M unit :=
  if String.eqb intent "AdmissionFlow" then
    startAdmissionFlow userId
  else if String.eqb intent "AskFAQ" then
    sendMessage userId (answerOrRephrase userMessage)
  else
    userInfo ← getUserInfo userId;
    (match userInfo with
     | Some _ => sendMessage userId "Hello! Welcome back."
     | None => sendMessage userId "Hello! You can ask about admissions or any general question about the school."
     end);;
    sendMessage userId "How can I help you today?".

(** The part of the main message handler that follows the logging of
    the message, on the sanitized text. *)
Definition route (userId userMessage : string) : M unit :=
  session ← sessionsGet userId;
  sessionState ← match session with
                 | Some l => s ← readSession l; mret (state s)
                 | None => mret ""
                 end;
  let intent := determineIntent env userMessage sessionState in
  match session with
  | Some l =>
      if negb (String.eqb sessionState "")
      then handleSession userId userMessage l      (* PRIORITY 1 *)
      else handleWithoutSession userId userMessage intent
  | None => handleWithoutSession userId userMessage intent
  end.

(** Main message handler, [client.on('message', ...)]. *)
Definition onMessage (msg : Message) : M unit :=
  tryCatch
    (let userId := from msg in
     let userMessage := Sanitizer.sanitizeInput (body msg) in
     let time := clock env / msPerSecond in
     if timestamp msg * 1000 <? botStartTime env then
       mret tt                 (* Ignoring message from before the bot started *)
     else
       limited ← isRateLimited userId;
       if (limited : bool) then
         sendMessage userId "You are sending messages too quickly."
       else
         (* Log and save message *)
         saveUserMessage userId userMessage time;;
         logInteraction userId userMessage time;;
         route userId userMessage)
    (fun err => mret tt).

End WithEnv.
End WhatsappController.

(* ===================================================================== *)
(** ** services/aiService.js *)
(* ===================================================================== *)

(** The functions of the AI service that the controller calls or that
    wrap the chat endpoint without reading JSON: [callOpenAI],
    [answerQuestion], [generatePrompt], [interpretYesNo] and
    [validateInput].  The endpoint itself is a parameter. *)
Module AiService.
Import JsString.

(** The class [\w], and the characters that the replacement of
    [/[^\w\s]|_/g] by the empty string keeps. *)
Definition isWord (c : ascii) : bool :=
  isLower c || isUpper c || isDigit c || (code c =? 95)%nat.

Definition keptByYesNo (c : ascii) : bool :=
  (isWord c || isSpace c) && negb (code c =? 95)%nat.

(** The mark that opens and closes a fenced block. *)
Definition fence : string := "```".

(** The text that follows the first fence of [s], if [s] has one. *)
Fixpoint afterFence (s : string) : option string :=
  match s with
  | EmptyString => None
  | String _ r => if startsWith s fence then Some (substring 3 s) else afterFence r
  end.

(** The replacement of every fenced block by the empty string, with a
    lazy body and the flag g, on at most [fuel] characters: a fence that
    has a later fence is dropped with the text between the two, and a
    fence without a later one starts no match, nor does any character
    after it. *)
Fixpoint stripFencesFrom (fuel : nat) (s : string) : string :=
  match fuel with
  | O => s
  | S fuel' =>
      match s with
      | EmptyString => EmptyString
      | String c r =>
          if startsWith s fence then
            match afterFence (substring 3 s) with
            | Some rest => stripFencesFrom fuel' rest
            | None => s
            end
          else String c (stripFencesFrom fuel' r)
      end
  end.

Definition stripFences (s : string) : string := stripFencesFrom (String.length s) s.

(** A chat message [{ role, content }]. *)
Record ChatMessage : Type := { role : string; content : string }.

(** [value || fallback] for the result of a call. *)
Definition orElse (value : option string) (fallback : string) : string :=
  match value with
  | Some text => if String.eqb text "" then fallback else text
  | None => fallback
  end.

Definition validatorRole : string :=
  "You are a data validation and formatting assistant. For valid inputs, always return "
  ++ dq ++ "valid" ++ dq
  ++ " followed by a space and then the database-ready value. Convert all inputs to their proper database format (numbers for grades and semesters, lowercase for emails, standardized names for referrals). Never include any other text.".

(** The [switch (validationType)] that words the request. *)
Definition validationPrompt (validationType input : string) : string :=
  let quoted := "Validate " ++ dq ++ input ++ dq in
  let exactly := "If valid, output exactly " ++ dq ++ "valid" ++ dq in
  if String.eqb validationType "name" then
    quoted ++ " as a full name for a school application. " ++ exactly
    ++ " followed by a space and then the name exactly as provided. If invalid, return an error message."
  else if String.eqb validationType "email" then
    quoted ++ " as an email address. " ++ exactly
    ++ " followed by a space and then the email in lowercase. If invalid, return an error message."
  else if String.eqb validationType "grade_level" then
    quoted ++ " as a grade level (1-12). Accept variations like "
    ++ dq ++ "Grade 3" ++ dq ++ ", " ++ dq ++ "3rd grade" ++ dq ++ ", "
    ++ dq ++ "three" ++ dq ++ ", " ++ dq ++ "3" ++ dq ++ ", etc. " ++ exactly
    ++ " followed by a space and then the grade as a number (e.g., for "
    ++ dq ++ "three" ++ dq ++ " output " ++ dq ++ "valid 3" ++ dq ++ ", for "
    ++ dq ++ "Grade 3" ++ dq ++ " output " ++ dq ++ "valid 3" ++ dq
    ++ "). If invalid, return an error message."
  else if String.eqb validationType "semester" then
    quoted ++ " as a semester (1 or 2). Accept variations like "
    ++ dq ++ "Semester 1" ++ dq ++ ", " ++ dq ++ "1st semester" ++ dq ++ ", "
    ++ dq ++ "one" ++ dq ++ ", " ++ dq ++ "1" ++ dq ++ ", "
    ++ dq ++ "two" ++ dq ++ ", " ++ dq ++ "2" ++ dq ++ ", etc. " ++ exactly
    ++ " followed by a space and then the semester as a number (e.g., for "
    ++ dq ++ "two" ++ dq ++ " output " ++ dq ++ "valid 2" ++ dq ++ ", for "
    ++ dq ++ "2nd semester" ++ dq ++ " output " ++ dq ++ "valid 2" ++ dq
    ++ "). If invalid, return an error message."
  else if String.eqb validationType "referral_source" then
    quoted ++ " as a referral source. Accept variations of: Twitter, Facebook, Instagram, YouTube, Friend, or Other. "
    ++ exactly
    ++ " followed by a space and then the standardized source name (e.g., for "
    ++ dq ++ "from a friend" ++ dq ++ " output " ++ dq ++ "valid Friend" ++ dq ++ ", for "
    ++ dq ++ "insta" ++ dq ++ " output " ++ dq ++ "valid Instagram" ++ dq
    ++ "). If invalid, return an error message."
  else
    quoted ++ " as " ++ validationType ++ ". " ++ exactly
    ++ ". If invalid, return an error message.".

Definition unavailableText : string :=
  "Validation service is unavailable. Please try again.".

Section WithChat.

(** The chat-completion endpoint: the content of the first choice for
    the messages, the token limit and the temperature (in tenths);
    [None] when the request fails or the reply has no content. *)
Context (chat : list ChatMessage -> Z -> Z -> option string).

(** Call OpenAI's API; [None] is the [null] returned on an error. *)
Definition callOpenAI (messages : list ChatMessage) (maxTokens temperature : Z)
  : option string :=
  match chat messages maxTokens temperature with
  | Some text => Some (trim text)
  | None => None
  end.

(** Answer FAQ using provided School Info. *)
Definition answerQuestion (userQuery fileContent : string) : string :=
  let prompt :=
    "You are Eve, a cheerful and knowledgeable assistant at IVY International School. Using the School Info below, answer the query in concise bullet points."
    ++ WhatsappController.nl ++ "School Info:" ++ WhatsappController.nl
    ++ fileContent ++ WhatsappController.nl
    ++ "Query: " ++ dq ++ userQuery ++ dq ++ WhatsappController.nl
    ++ "Provide clear, relevant details and links if applicable." in
  let messages :=
    [ {| role := "system"; content := "Answer FAQs with a friendly tone." |};
      {| role := "user"; content := prompt |} ] in
  orElse (callOpenAI messages 600 5) "I'm not sure. Could the applicant please elaborate?".

(** Generate a prompt for messages. *)
Definition generatePrompt (instruction : string) : string :=
  let prompt :=
    "You are Ivy Bot, a WhatsApp assistant for IVY International School. Instruction: "
    ++ instruction ++ ". Generate a concise, user-friendly message." in
  let messages :=
    [ {| role := "system"; content := "Generate concise user-facing messages." |};
      {| role := "user"; content := prompt |} ] in
  orElse (callOpenAI messages 100 7) "Please continue.".

(** Interpret yes/no. *)
Definition interpretYesNo (userMessage : string) : string :=
  let normalized := toLowerCase (filter keptByYesNo (trim userMessage)) in
  if String.eqb normalized "yes" then "yes"
  else if String.eqb normalized "no" then "no"
  else
    let prompt :=
      "Interpret " ++ dq ++ userMessage ++ dq ++ " as yes or no. Respond with only "
      ++ dq ++ "yes" ++ dq ++ ", " ++ dq ++ "no" ++ dq ++ ", or "
      ++ dq ++ "unknown" ++ dq ++ "." in
    let messages :=
      [ {| role := "system"; content := "Interpret confirmations (yes/no)." |};
        {| role := "user"; content := prompt |} ] in
    match callOpenAI messages 20 0 with
    | None => "unknown"
    | Some response =>
        if String.eqb response "" then "unknown"
        else
          let normalizedResponse := toLowerCase (trim response) in
          if String.eqb normalizedResponse "yes" then "yes"
          else if String.eqb normalizedResponse "no" then "no"
          else "unknown"
    end.

(** Validate inputs according to IVY School standards. *)
Definition validateInput (validationType input : string) : string :=
  let prompt := validationPrompt validationType input in
  let messages :=
    [ {| role := "system"; content := validatorRole |};
      {| role := "user"; content := prompt |} ] in
  match callOpenAI messages 150 0 with
  | None => unavailableText
  | Some result =>
      if String.eqb result "" then unavailableText
      else trim (stripFences result)
  end.

End WithChat.
End AiService.

(* ===================================================================== *)
(** * Vocabulary of the properties *)
(* ===================================================================== *)

Import JsString Sanitizer AppointmentService WhatsappController.

(** The five field-collection states. *)
Definition fieldStates : list string :=
  ["admission_displayname"; "admission_email"; "admission_grade";
   "admission_semester"; "admission_referral"].

(** The states that have a case of their own in the switch of
    [handleSession]; every other state falls to the default case. *)
Definition handledStates : list string :=
  ["confirm_book_another_appointment"; "confirm_existing_data";
   "admission_displayname"; "admission_email"; "admission_grade";
   "admission_semester"; "admission_referral";
   "check_existing_appointment"; "admission_confirm";
   "admission_choose_detail_to_change"; "update_detail"; "meeting_offer";
   "meeting_show_slots"; "confirm_replace_appointment"; "awaiting_continue"].

(** The field-collection states whose value is stored as a text. *)
Definition textFieldStates : list string :=
  ["admission_displayname"; "admission_email"; "admission_referral"].

(** The string does not start with white space. *)
Definition headIsText (s : string) : bool :=
  match s with
  | EmptyString => true
  | String c _ => negb (isSpace c)
  end.

(** The message is not the cancellation keyword. *)
Definition notExit (userMessage : string) : Prop :=
  toLowerCase userMessage <> "exit".

(** The messages of one user handled one after the other on the same
    session object. *)
Definition handleAll (env : Env) (userId : string) (session : loc)
    (messages : list string) : M unit :=
  foldM (fun _ userMessage => handleSession env userId userMessage session) messages tt.

(** What a rejected input is answered with: the message of the Oracle,
    then the prompt of the state. *)
Definition rejectionReplies (env : Env) (userId st prompt : string)
    (messages : list string) : list (string * string) :=
  flat_map (fun userMessage =>
    [(userId, validateInput env (validationTypeOfState st) userMessage);
     (userId, prompt)]) messages.

(** The prompt of the state admission_semester. *)
Definition semesterPrompt : string :=
  "Which semester are you applying for? (1 or 2)." ++ exitHint.


Definition replaceFailedText : string :=
  "Sorry, there was a problem replacing your appointment. The slot might have been taken. Please try scheduling again.".

Definition replaceErrorText : string :=
  "Sorry, there was an error replacing your appointment. Please try again later.".

Definition notReplacedText : string :=
  "Okay, the new appointment slot was not scheduled. Your existing appointment remains.".

(** Every session object has its flag [intentDisabled] down, and a
    computation keeps it so. *)
Definition flagsDown (w : World) : Prop :=
  forall l s, heap w !! l = Some s -> intentDisabled s = false.

Definition keepsFlags {A} (m : M A) : Prop :=
  forall w, flagsDown w -> flagsDown (snd (m w)).

(** The worlds that the main message handler reaches from an empty
    session store, whatever the environment answers. *)
Inductive reachable : World -> Prop :=
| reachable_start (database : Database) :
    reachable {| userSessions := ∅; heap := ∅; rateLimitCache := ∅; db := database;
                 outbox := []; interactionLog := [] |}
| reachable_message (env : Env) (msg : Message) (w : World) :
    reachable w -> reachable (snd (onMessage env msg w)).

(** No statement of the pool fails. *)
Definition noFault (env : Env) : Prop := forall st, fault env st = false.

(** The statements of the booking transaction, the connection and the
    rollback apart. *)
Definition bookingStatementsFail (env : Env) (second : Z) : bool :=
  fault env BeginTransaction
  || fault env (CountAppointmentsBetween (Some (second - 1)) (Some (second + 1)))
  || fault env SelectMaxAppointmentId
  || fault env InsertAppointment
  || fault env Commit.

(** A row lies in the window of one second on each side of [second]. *)
Definition inWindow (second : Z) (a : Appointment) : bool :=
  (second - 1 <=? appdate a) && (appdate a <=? second + 1).

(** A row lies within 1000 ms of the time [t] itself. *)
Definition withinOneSecond (t : Z) (a : Appointment) : bool :=
  (t - 1000 <=? appdate a * msPerSecond) && (appdate a * msPerSecond <=? t + 1000).

(** The row that a successful booking inserts: its identifier is the
    greatest identifier of the table plus one, 1 in an empty table. *)
Definition bookedRowFor (rows : list Appointment) (studentId : SqlVal) (second : Z)
    (purpose type_ : string) (forgrade : SqlVal) : Appointment :=
  {| app_id := match maxOf (List.map app_id rows) with Some m => m + 1 | None => 1 end;
     app_student_id := studentId; appdate := second; app_time := second;
     app_purpose := purpose; app_host := "IvyBot"; app_type := type_;
     app_forgrade := forgrade |}.

(** The candidate slots of the [n] days that start tomorrow, as the
    Generation paragraph words them: the days of the window, kept when
    Sunday to Thursday; their half-hour marks from 08:00 up to and
    excluding 15:00; the marks strictly later than now; the marks with no
    appointment at that exact time; in chronological order. *)
Definition windowDays (now : Z) (n : nat) : list Z :=
  List.map (fun k => addDays (startOfDay (addDays now 1)) (Z.of_nat k)) (seq 0 n).

Definition isSundayToThursday (day : Z) : bool :=
  (0 <=? getDay day) && (getDay day <=? 4).

Definition halfHourMarks (day : Z) : list Z :=
  flat_map (fun hour => List.map (fun minute => atTimeOfDay day hour minute) [0; 30])
           (seqZ 8 7).

Definition isBookedAt (rows : list Appointment) (t : Z) : bool :=
  existsb (fun a => appdate a =? t / msPerSecond) rows.

Definition mkSlot (t : Z) : Slot := {| slotDate := ValidDate t |}.

Definition slotsOfWindow (n : nat) (now : Z) (rows : list Appointment) : list Slot :=
  List.map mkSlot
    (List.filter (fun t => negb (isBookedAt rows t))
      (List.filter (fun t => now <? t)
        (flat_map halfHourMarks (List.filter isSundayToThursday (windowDays now n))))).

(** The slot of time [t], if it is later than now and not booked, and
    the slots that one day of the loop adds. *)
Definition keptSlot (now : Z) (rows : list Appointment) (t : Z) : list Slot :=
  if (now <? t) && negb (isBookedAt rows t) then [mkSlot t] else [].

Definition daySlots (now : Z) (rows : list Appointment) (day : Z) : list Slot :=
  if isSundayToThursday day then flat_map (keptSlot now rows) (halfHourMarks day) else [].

(** The specification's window is of 3 days. *)
Definition spec_getAvailableSlots (now : Z) (rows : list Appointment) : list Slot :=
  slotsOfWindow 3 now rows.

(** Chronological order of a list of slots: the times strictly
    increase.  A later day of the window starts at least one day
    after an earlier one. *)
Definition slotTime (s : Slot) : Z :=
  match slotDate s with
  | ValidDate t => t
  | InvalidDate => 0
  end.

Definition chronological (l : list Slot) : Prop :=
  StronglySorted Z.lt (List.map slotTime l).

Definition dayApart (a b : Z) : Prop := a + msPerDay <= b.

(** *** The slots that the code lists *)

(** The direct check of the slot at time [t] finds it free: the count
    is answered, and it is 0. *)
Definition checkedFree (env : Env) (rows : list Appointment) (t : Z) : bool :=
  negb (fault env (CountAppointmentsAt (Some (t / msPerSecond))))
  && negb (isBookedAt rows t).

Definition keptBy (free : Z -> bool) (now t : Z) : list Slot :=
  if (now <? t) && free t then [mkSlot t] else [].

Definition dayKept (free : Z -> bool) (now day : Z) : list Slot :=
  if isSundayToThursday day then flat_map (keptBy free now) (halfHourMarks day) else [].

(** The slots of the four days that start tomorrow whose check finds
    them free, whatever statements fail. *)
Definition listedSlots (env : Env) (now : Z) (rows : list Appointment) : list Slot :=
  List.map mkSlot
    (List.filter (checkedFree env rows)
      (List.filter (fun t => now <? t)
        (flat_map halfHourMarks (List.filter isSundayToThursday (windowDays now 4))))).

(** What holds of the time [t] of a slot that is offered at [now]: it
    is later than now, no row has its second, its day is Sunday to
    Thursday, its time of day is a half hour from 08:00 to 14:30, and
    it lies in the four days that start tomorrow. *)
Definition offerable (now : Z) (rows : list Appointment) (t : Z) : Prop :=
  now < t
  /\ (forall a, In a rows -> appdate a <> t / msPerSecond)
  /\ 0 <= getDay t <= 4
  /\ 8 * msPerHour <= t mod msPerDay <= 14 * msPerHour + 30 * msPerMinute
  /\ t mod (30 * msPerMinute) = 0
  /\ startOfDay now + msPerDay <= t < startOfDay now + 5 * msPerDay.

(** The WHERE clause of the two queries on future appointments, and the
    order of their ORDER BY. *)
Definition upcoming (env : Env) (studentId : SqlVal) (a : Appointment) : bool :=
  sqlEq (app_student_id a) studentId && (sqlNow env <=? appdate a).

Definition notLater (a b : Appointment) : Prop := appdate a <= appdate b.

(** *** Replies of the meeting states *)

Definition invalidSlotText : string :=
  "Invalid slot number. Please choose one of the listed options.".

Definition relistText (env : Env) (slots : list Slot) : string :=
  "Available slots:" ++ nl ++ renderSlots env slots ++ nl ++ "Please choose a slot number:".

(** The reply is not the number of a listed slot. *)
Definition notASlotNumber (userMessage : string) (slots : list Slot) : Prop :=
  match parseInt (trim userMessage) with
  | Some n => n <= 0 \/ Z.of_nat (length slots) < n
  | None => True
  end.

Definition scheduledText (env : Env) (d : Date) : string :=
  "Your meeting is scheduled for " ++ toLocaleDateString env d ++ " at "
  ++ toLocaleTimeString env d ++ ".".

Definition slotTakenText : string :=
  "Sorry, the selected slot might have just been taken or there was a problem scheduling your appointment. Please try again later.".




(** *** The admission form *)

Definition namePrompt : string := "Please provide your full name." ++ exitHint.
Definition emailPrompt : string := "What is your email address?" ++ exitHint.
Definition gradePrompt : string :=
  "For which grade are you applying? (e.g., Grade 3)." ++ exitHint.
Definition referralPrompt : string :=
  "How did you hear about us? (Twitter, Facebook, Instagram, YouTube, Friend, Other)."
  ++ exitHint.


Definition chooseDetailPrompt : string :=
  "Which detail would you like to change? (Name, Email, Grade, Semester, Referral)."
  ++ exitHint.

Definition provideNewText (detail : string) : string :=
  "Please provide your new " ++ capitalize detail ++ ".".

Definition updatedText (detail value : string) : string :=
  "Thank you! Your " ++ detail ++ " has been updated to " ++ value ++ ".".

Definition savingProblemText : string :=
  "There was a problem saving your data. Please try again later.".

(** The value that the field collection stores in state [st]: an
    integer for the grade and the semester, a text otherwise. *)
Definition collectedValue (st res userMessage : string) : JsVal :=
  if String.eqb st "admission_grade" || String.eqb st "admission_semester"
  then firstNumber (extractValue res userMessage)
  else JStr (extractValue res userMessage).

(** The details whose value is kept as a text, those kept as a number,
    and the key of a detail in the session data. *)
Definition textDetails : list string := ["name"; "email"; "referral"].


Definition keyOfDetail (detail : string) : string :=
  storeKeyMapping (validationTypeOfDetail (Some (JStr detail))).

(** The identifier after the greatest of [ids], 1 when there is none. *)
Definition idAfter (ids : list Z) : Z :=
  match maxOf ids with Some m => m + 1 | None => 1 end.

(** The two rows that a confirmed admission of a new applicant inserts. *)
Definition studentRowOf (env : Env) (id : Z) (d : gmap string JsVal) : Student :=
  {| st_id := id;
     st_displayname := toSql (d !! "displayname");
     st_grade := toSql (d !! "grade");
     st_semester := toSql (d !! "semester");
     st_referral := toSql (d !! "referral");
     st_regdate := sqlNow env; st_enrolled := 0 |}.


(** The session of a fresh form: both checks are marked as done. *)
Definition freshForm : Session :=
  set_checkedExistingData true
    (set_checkedExistingAppointment true (newSession "admission_displayname")).

(** No contact row holds the phone of the user, or the lookup fails. *)
Definition unknownPhone (env : Env) (w : World) (userId : string) : Prop :=
  fault env SelectStudentIdByMobile = true
  \/ forall c, In c (studentcontactinfo (db w)) -> hasMobile (phoneOf userId) c = false.

(** *** The rate limiter *)

(** The answers of the rate limiter to the messages of one user that
    arrive at the clocks of [envs], one after the other. *)
Fixpoint askLimiter (userId : string) (envs : list Env) : M (list bool) :=
  match envs with
  | [] => mret []
  | env :: rest =>
      limited ← isRateLimited env userId;
      answers ← askLimiter userId rest;
      mret (limited :: answers)
  end.

(** The count that the limiter reads for the user: that of an entry
    that has not expired. *)
Definition liveCount (env : Env) (w : World) (userId : string) : Z :=
  match rateLimitCache w !! userId with
  | Some (c, expiry) => if expiry <? clock env then 0 else c
  | None => 0
  end.

(** *** The AI service *)

Definition Chat : Type := list AiService.ChatMessage -> Z -> Z -> option string.

(** The request of [validateInput]. *)
Definition validationRequest (validationType input : string)
  : list AiService.ChatMessage :=
  [ {| AiService.role := "system"; AiService.content := AiService.validatorRole |};
    {| AiService.role := "user";
       AiService.content := AiService.validationPrompt validationType input |} ].

(** The character that fences are made of. *)
Definition isBacktick (c : ascii) : bool := (code c =? 96)%nat.

Module Examples.

(** An environment whose Oracle gives the same three answers to every
    question, at clock [now]. *)
Definition oracle (validation yesNo intent : string) (now : Z) (faults : Stmt -> bool)
  : Env :=
  {| validateInput := fun _ _ => validation;
     interpretYesNo := fun _ => yesNo;
     determineIntent := fun _ _ => intent;
     answerQuestion := fun _ _ => "The fees are on the website.";
     inputContent := "School Info";
     dateParser := fun _ => InvalidDate;
     toLocaleString := fun _ => "date and time";
     toLocaleDateString := fun _ => "date";
     toLocaleTimeString := fun _ => "time";
     JSON_stringify := fun _ => "{}";
     clock := now;
     botStartTime := 0;
     fault := faults |}.

Definition noFaults : Stmt -> bool := fun _ => false.

(** The pool has no connection to give. *)
Definition connectionLost : Stmt -> bool :=
  fun st => match st with GetConnection => true | _ => false end.

(** The INSERT of an appointment is refused. *)
Definition insertRefused : Stmt -> bool :=
  fun st => match st with InsertAppointment => true | _ => false end.

(** Saturday 2025-03-01, 12:00 local time: day 20148 of the time line. *)
Definition saturdayNoon : Z := 20148 * msPerDay + 12 * msPerHour.

Definition emptyDatabase : Database :=
  {| appointments := []; student := []; studentcontactinfo := [];
     guardian := []; user_messages := [] |}.

Definition sessionIn (st : string) (d : gmap string JsVal) : Session :=
  set_data d (newSession st).

(** A world with the single session [s] of user [userId], at location 1. *)
Definition worldOf (userId : string) (s : Session) (database : Database) : World :=
  {| userSessions := {[ userId := 1%positive ]};
     heap := {[ 1%positive := s ]};
     rateLimitCache := ∅;
     db := database;
     outbox := [];
     interactionLog := [] |}.

Definition user : string := "966500000001@c.us".

(** The appointment of student 7 on Monday 2025-03-03 at 09:00. *)
Definition mondayNine : Z := 20150 * msPerDay + 9 * msPerHour.

Definition bookedRow : Appointment :=
  {| app_id := 1; app_student_id := SInt 7; appdate := mondayNine / msPerSecond;
     app_time := mondayNine / msPerSecond; app_purpose := "Admission Inquiry";
     app_host := "IvyBot"; app_type := "Admission"; app_forgrade := SInt 3 |}.

Definition oneBooking : Database :=
  {| appointments := [bookedRow]; student := []; studentcontactinfo := [];
     guardian := []; user_messages := [] |}.

(** A free slot, Tuesday 2025-03-04 at 10:00. *)
Definition tuesdayTen : Z := 20151 * msPerDay + 10 * msPerHour.

(** The collected form of John Smith, under review. *)
Definition reviewData : gmap string JsVal :=
  <[ "referral" := JStr "Friend" ]>
  (<[ "semester" := JNum 1 ]>
  (<[ "grade" := JNum 3 ]>
  (<[ "email" := JStr "john@example.com" ]>
  {[ "displayname" := JStr "John Smith" ]}))).

(** The session of student 7 that was asked whether to replace the
    appointment of Monday by the slot of Tuesday. *)
Definition replaceData : gmap string JsVal :=
  <[ "existingAppointmentDate" := JDate (ValidDate mondayNine) ]>
  (<[ "pendingSlot" := JDate (ValidDate tuesdayTen) ]>
  (<[ "grade" := JNum 3 ]>
  {[ "studentId" := JNum 7 ]})).

Definition inbound (text : string) : Message :=
  {| from := user; body := text; timestamp := saturdayNoon / msPerSecond |}.

(** A world without any session, and the world that the main message
    handler reaches from it on the messages [msgs], one after the other. *)
Definition startWorld (database : Database) : World :=
  {| userSessions := ∅; heap := ∅; rateLimitCache := ∅; db := database;
     outbox := []; interactionLog := [] |}.

Definition afterMessages (env : Env) (msgs : list Message) (w : World) : World :=
  fold_left (fun w' msg => snd (onMessage env msg w')) msgs w.

(** The direct check of a slot fails. *)
Definition checksFail : Stmt -> bool :=
  fun st => match st with CountAppointmentsAt _ => true | _ => false end.

(** The INSERT of a contact row is refused. *)
Definition contactRefused : Stmt -> bool :=
  fun st => match st with InsertContact => true | _ => false end.

(** The first slot listed on Saturday noon: Sunday 2025-03-02 at 08:00. *)
Definition sundayEight : Z := 20149 * msPerDay + 8 * msPerHour.




(** The endpoint is down; it replies with white space; it replies. *)
Definition chatDown : list AiService.ChatMessage -> Z -> Z -> option string :=
  fun _ _ _ => None.

Definition chatBlank : list AiService.ChatMessage -> Z -> Z -> option string :=
  fun _ _ _ => Some "  ".

Definition chatSays (reply : string) : list AiService.ChatMessage -> Z -> Z -> option string :=
  fun _ _ _ => Some reply.

(** An environment whose answers to questions are those of the AI
    service over the endpoint [chat]. *)
Definition answering (chat : list AiService.ChatMessage -> Z -> Z -> option string) : Env :=
  {| validateInput := fun _ _ => "";
     interpretYesNo := fun _ => "unknown";
     determineIntent := fun _ _ => "AskFAQ";
     answerQuestion := AiService.answerQuestion chat;
     inputContent := "School Info";
     dateParser := fun _ => InvalidDate;
     toLocaleString := fun _ => "date and time";
     toLocaleDateString := fun _ => "date";
     toLocaleTimeString := fun _ => "time";
     JSON_stringify := fun _ => "{}";
     clock := saturdayNoon;
     botStartTime := 0;
     fault := noFaults |}.

End Examples.

(* ===================================================================== *)
(** * Properties *)
(* ===================================================================== *)

(** ** Steps of the monad *)

Lemma bind_normal {A B} (m : M A) (f : A -> M B) (w w' : World) (a : A) :
  m w = (Normal a, w') -> (m ≫= f) w = f a w'.
Proof. intros H. unfold mbind, M_bind. rewrite H. reflexivity. Qed.

Lemma bind_throw {A B} (m : M A) (f : A -> M B) (w w' : World) (e : string) :
  m w = (Throw e, w') -> (m ≫= f) w = (Throw e, w').
Proof. intros H. unfold mbind, M_bind. rewrite H. reflexivity. Qed.

Lemma readSession_eq (w : World) (session : loc) (s : Session) :
  heap w !! session = Some s -> readSession session w = (Normal s, w).
Proof. intros H. unfold readSession. rewrite H. reflexivity. Qed.

Lemma sessionsSet_same (w : World) (userId : string) (session : loc) :
  userSessions w !! userId = Some session ->
  with_userSessions <[userId := session]> w = w.
Proof.
  intros H. destruct w as [us h r d o l]. unfold with_userSessions. simpl in *.
  f_equal. apply insert_id. exact H.
Qed.

Lemma with_outbox_app (w : World) (l1 l2 : list (string * string)) :
  with_outbox (fun o => (o ++ l2)%list) (with_outbox (fun o => (o ++ l1)%list) w)
  = with_outbox (fun o => (o ++ (l1 ++ l2))%list) w.
Proof. unfold with_outbox. simpl. rewrite <- app_assoc. reflexivity. Qed.

Lemma with_outbox_nil (w : World) :
  with_outbox (fun o => (o ++ [])%list) w = w.
Proof. destruct w. unfold with_outbox. simpl. rewrite app_nil_r. reflexivity. Qed.

(** ** The two global rules of [handleSession] *)

(** Past the two global rules, a message is handled by the case of the
    state. *)
Lemma handleSession_dispatch (env : Env) (w : World) (userId userMessage : string)
    (session : loc) (s : Session) :
  heap w !! session = Some s -> intentDisabled s = false -> notExit userMessage ->
  handleSession env userId userMessage session w
  = dispatch env (state s) userId userMessage session w.
Proof.
  intros Hs Hd Hx. unfold handleSession.
  rewrite (bind_normal _ _ _ _ _ (readSession_eq _ _ _ Hs)).
  rewrite Hd. apply String.eqb_neq in Hx. rewrite Hx. reflexivity.
Qed.

(** C5.  For a session with [intentDisabled = true], handling any message
    sends the completion acknowledgment and nothing else: the session
    object (its state and data) is unchanged, the session stays in the
    session store, and the database is not written. *)
Theorem intentDisabled_only_acknowledges (env : Env) (w : World)
    (userId userMessage : string) (session : loc) (s : Session) :
  heap w !! session = Some s ->
  intentDisabled s = true ->
  let '(completion, w') := handleSession env userId userMessage session w in
  completion = Normal tt
  /\ outbox w' = (outbox w ++ [(userId, completionText)])%list
  /\ heap w' = heap w
  /\ userSessions w' = userSessions w
  /\ db w' = db w
  /\ rateLimitCache w' = rateLimitCache w
  /\ interactionLog w' = interactionLog w.
Proof.
  intros Hs Hd. unfold handleSession.
  rewrite (bind_normal _ _ _ _ _ (readSession_eq _ _ _ Hs)).
  rewrite Hd. simpl. repeat split.
Qed.

Lemma intentDisabled_only_acknowledges_witness :
  let s := set_previousState (Some "admission_confirm")
             {| state := "awaiting_continue"; previousState := None;
                intentDisabled := true; checkedExistingData := false;
                checkedExistingAppointment := false;
                data := {[ "displayname" := JStr "John Smith" ]} |} in
  let w := Examples.worldOf Examples.user s Examples.oneBooking in
  let env := Examples.oracle "valid" "yes" "AdmissionFlow" Examples.saturdayNoon
                             Examples.noFaults in
  heap w !! 1%positive = Some s
  /\ intentDisabled s = true
  /\ let '(completion, w') := handleSession env Examples.user "yes" 1%positive w in
     completion = Normal tt
     /\ outbox w' = (outbox w ++ [(Examples.user, completionText)])%list
     /\ heap w' = heap w
     /\ userSessions w' = userSessions w
     /\ db w' = db w
     /\ rateLimitCache w' = rateLimitCache w
     /\ interactionLog w' = interactionLog w.
Proof.
  intros s w env.
  split; [reflexivity | split; [reflexivity |]].
  apply (intentDisabled_only_acknowledges env w Examples.user "yes" 1%positive s);
    reflexivity.
Defined.

(** The second global rule, as an equation. *)
Lemma handleSession_exit (env : Env) (w : World) (userId userMessage : string)
    (session : loc) (s : Session) :
  heap w !! session = Some s ->
  intentDisabled s = false ->
  toLowerCase userMessage = "exit" ->
  handleSession env userId userMessage session w
  = (Normal tt,
     with_outbox (fun o => (o ++ [(userId, cancellationText)])%list)
       (with_userSessions (delete userId) w)).
Proof.
  intros Hs Hd Hx. unfold handleSession.
  rewrite (bind_normal _ _ _ _ _ (readSession_eq _ _ _ Hs)).
  rewrite Hd, Hx. reflexivity.
Qed.

(** ** Field collection *)

Lemma field_state_dispatch (env : Env) (st : string) :
  In st fieldStates -> dispatch env st = handleFieldCollection env.
Proof.
  intros H. repeat (destruct H as [<- | H]; [reflexivity |]). destruct H.
Qed.

Lemma field_state_prompt (st : string) (d : gmap string JsVal) :
  In st fieldStates -> exists p, getPromptForState st d = Some p.
Proof.
  intros H. repeat (destruct H as [<- | H]; [eexists; reflexivity |]). destruct H.
Qed.

(** One rejected input: the two replies, and the same world otherwise. *)
Lemma rejected_once (env : Env) (w : World) (userId userMessage : string)
    (session : loc) (s : Session) (p : string) :
  heap w !! session = Some s ->
  userSessions w !! userId = Some session ->
  getPromptForState (state s) (data s) = Some p ->
  isValidValidation (validateInput env (validationTypeOfState (state s)) userMessage) = false ->
  handleFieldCollection env userId userMessage session w
  = (Normal tt,
     with_outbox (fun o => (o ++ rejectionReplies env userId (state s) p [userMessage])%list) w).
Proof.
  intros Hs Hu Hp Hr. unfold handleFieldCollection.
  rewrite (bind_normal _ _ _ _ _ (readSession_eq _ _ _ Hs)).
  rewrite Hr.
  unfold sendMessage, sendPrompt, promptFor, sessionsSet, modifyWorld, mbind, M_bind,
    readSession.
  simpl. rewrite Hs, Hp. simpl.
  rewrite <- (sessionsSet_same w userId session Hu) at 2.
  destruct w; unfold with_outbox, with_userSessions; simpl.
  rewrite <- app_assoc. reflexivity.
Qed.

(** C6.  In each of the five field-collection states, an input that the
    Oracle rejects is answered with the Oracle's message, verbatim,
    followed by the prompt of the current state, and the session object
    (its state and the collected data), the session store and the
    database are unchanged; this holds for a run of rejected inputs of
    any length. *)
Theorem rejected_input_keeps_session (env : Env) (w : World) (userId : string)
    (session : loc) (s : Session) (messages : list string) :
  heap w !! session = Some s ->
  userSessions w !! userId = Some session ->
  intentDisabled s = false ->
  In (state s) fieldStates ->
  Forall (fun userMessage =>
            notExit userMessage
            /\ isValidValidation
                 (validateInput env (validationTypeOfState (state s)) userMessage) = false)
         messages ->
  exists prompt,
    getPromptForState (state s) (data s) = Some prompt
    /\ let '(completion, w') := handleAll env userId session messages w in
       completion = Normal tt
       /\ outbox w' = (outbox w ++ rejectionReplies env userId (state s) prompt messages)%list
       /\ heap w' = heap w
       /\ heap w' !! session = Some s
       /\ userSessions w' = userSessions w
       /\ db w' = db w.
Proof.
  intros Hs Hu Hd Hst Hall.
  destruct (field_state_prompt (state s) (data s) Hst) as [p Hp].
  exists p. split; [exact Hp |].
  assert (Hrun : handleAll env userId session messages w
                 = (Normal tt,
                    with_outbox (fun o =>
                      (o ++ rejectionReplies env userId (state s) p messages)%list) w)).
  { revert w Hs Hu. induction Hall as [| m r [Hx Hr] _ IH]; intros w Hs Hu.
    - unfold handleAll. simpl. rewrite with_outbox_nil. reflexivity.
    - unfold handleAll in *. simpl foldM.
      erewrite bind_normal.
      2: { rewrite (handleSession_dispatch env w userId m session s Hs Hd Hx).
           rewrite (field_state_dispatch env _ Hst).
           apply (rejected_once env w userId m session s p Hs Hu Hp Hr). }
      rewrite IH by exact Hs || exact Hu.
      rewrite with_outbox_app. reflexivity. }
  rewrite Hrun. simpl. repeat split. exact Hs.
Qed.

Lemma rejected_input_keeps_session_witness :
  let s := Examples.sessionIn "admission_grade"
             {[ "displayname" := JStr "John Smith" ]} in
  let w := Examples.worldOf Examples.user s Examples.emptyDatabase in
  let env := Examples.oracle "That is not a grade between 1 and 12." "unknown"
                             "AdmissionFlow" Examples.saturdayNoon Examples.noFaults in
  let messages := ["thirteen"; "Grade 99"; "soon"] in
  heap w !! 1%positive = Some s
  /\ userSessions w !! Examples.user = Some 1%positive
  /\ intentDisabled s = false
  /\ In (state s) fieldStates
  /\ Forall (fun userMessage =>
               notExit userMessage
               /\ isValidValidation
                    (validateInput env (validationTypeOfState (state s)) userMessage) = false)
            messages
  /\ exists prompt,
       getPromptForState (state s) (data s) = Some prompt
       /\ let '(completion, w') := handleAll env Examples.user 1%positive messages w in
          completion = Normal tt
          /\ outbox w'
             = (outbox w ++ rejectionReplies env Examples.user (state s) prompt messages)%list
          /\ heap w' = heap w
          /\ heap w' !! 1%positive = Some s
          /\ userSessions w' = userSessions w
          /\ db w' = db w.
Proof.
  intros s w env messages.
  assert (H1 : heap w !! 1%positive = Some s) by reflexivity.
  assert (H2 : userSessions w !! Examples.user = Some 1%positive) by reflexivity.
  assert (H3 : intentDisabled s = false) by reflexivity.
  assert (H4 : In (state s) fieldStates) by (simpl; tauto).
  assert (H5 : Forall (fun userMessage =>
               notExit userMessage
               /\ isValidValidation
                    (validateInput env (validationTypeOfState (state s)) userMessage) = false)
            messages).
  { repeat constructor; unfold notExit; vm_compute; discriminate. }
  repeat (split; [assumption |]).
  exact (rejected_input_keeps_session env w Examples.user 1%positive s messages
           H1 H2 H3 H4 H5).
Defined.






(** ** The confirmation state and the question-answering interrupt *)




Lemma unhandled_state_dispatch (env : Env) (st : string) :
  ~ In st handledStates -> dispatch env st = handleDefault env.
Proof.
  intros H. unfold dispatch.
  repeat match goal with
  | |- context [String.eqb st ?x] =>
      destruct (String.eqb_spec st x) as [-> | _];
      [exfalso; apply H; simpl; tauto |]
  end.
  reflexivity.
Qed.

(** The interrupt itself: in a state without a case of its own, a
    message classified AskFAQ records the state as [previousState],
    forces awaiting_continue and is answered.  No case of the handler
    assigns [intentDisabled]. *)
Lemma faq_interrupt_in_unhandled_state (env : Env) (w : World)
    (userId userMessage : string) (session : loc) (s : Session) :
  heap w !! session = Some s ->
  intentDisabled s = false ->
  notExit userMessage ->
  ~ In (state s) handledStates ->
  state s <> "" ->
  determineIntent env userMessage (state s) = "AskFAQ" ->
  let '(completion, w') := handleSession env userId userMessage session w in
  completion = Normal tt
  /\ heap w' !! session
     = Some (set_state "awaiting_continue" (set_previousState (Some (state s)) s))
  /\ userSessions w' !! userId = Some session
  /\ outbox w' = (outbox w ++ [(userId, answerOrRephrase env userMessage);
                               (userId, "How can I help you today?")])%list
  /\ db w' = db w.
Proof.
  intros Hs Hd Hx Hst He Hi.
  rewrite (handleSession_dispatch env w userId userMessage session s Hs Hd Hx).
  rewrite (unhandled_state_dispatch env _ Hst).
  unfold handleDefault.
  rewrite (bind_normal _ _ _ _ _ (readSession_eq _ _ _ Hs)).
  rewrite Hi. apply String.eqb_neq in He. rewrite He.
  cbn [String.eqb Ascii.eqb Bool.eqb andb negb].
  unfold sendMessage, sessionsSet, mutate, modifyWorld, mbind, M_bind.
  simpl. repeat split.
  - rewrite !lookup_alter_eq, Hs. reflexivity.
  - apply lookup_insert_eq.
  - rewrite <- app_assoc. reflexivity.
Qed.

(** ** Replacing an appointment *)

Lemma rollback_same (w : World) :
  with_db (with_appointments (fun _ => appointments (db w))) w = w.
Proof. destruct w as [us h r [a s c g u] o l]. reflexivity. Qed.

(** Booking the Invalid Date books nothing: the window check is refused
    with the text that is no date. *)
Lemma saveAppointment_invalid (env : Env) (studentId : SqlVal) (purpose type_ : string)
    (forgrade : SqlVal) (w : World) :
  saveAppointment env studentId InvalidDate purpose type_ forgrade w = (Normal false, w)
  \/ exists e,
       saveAppointment env studentId InvalidDate purpose type_ forgrade w = (Throw e, w).
Proof.
  unfold saveAppointment, getConnection, tryFinally, tryCatch, beginTransaction, rollback,
    release, countBetween, throw, mbind, M_bind, mret, M_ret.
  simpl.
  destruct (fault env GetConnection); [right; eexists; reflexivity |].
  destruct (fault env BeginTransaction); destruct (fault env Rollback);
    rewrite rollback_same; (left; reflexivity) || (right; eexists; reflexivity).
Qed.

(** C9, the behaviour of the code on a yes.  Whatever slot was stashed
    under [data.pendingSlot], the date handed to [saveAppointment] is
    read from the properties slot_date and slot_time, which a Date does
    not have, and is the Invalid Date: no row is inserted (the prior row
    is not deleted either), the session is deleted and the user is told
    that the replacement failed. *)
Theorem replace_yes_never_books_pendingSlot (env : Env) (w : World)
    (userId userMessage : string) (session : loc) (s : Session) (pending : Date) :
  heap w !! session = Some s ->
  intentDisabled s = false ->
  notExit userMessage ->
  state s = "confirm_replace_appointment" ->
  data s !! "pendingSlot" = Some (JDate pending) ->
  toLowerCase (interpretYesNo env userMessage) = "yes" ->
  let '(completion, w') := handleSession env userId userMessage session w in
  completion = Normal tt
  /\ db w' = db w
  /\ heap w' = heap w
  /\ userSessions w' = delete userId (userSessions w)
  /\ (outbox w' = (outbox w ++ [(userId, replaceFailedText)])%list
      \/ outbox w' = (outbox w ++ [(userId, replaceErrorText)])%list).
Proof.
  intros Hs Hd Hx Hst Hp Hy.
  rewrite (handleSession_dispatch env w userId userMessage session s Hs Hd Hx).
  rewrite Hst.
  change (dispatch env "confirm_replace_appointment")
    with (handleConfirmReplaceAppointment env).
  unfold handleConfirmReplaceAppointment. rewrite Hy.
  cbn [String.eqb Ascii.eqb Bool.eqb].
  rewrite (bind_normal _ _ _ _ _ (readSession_eq _ _ _ Hs)).
  rewrite Hp. unfold getProperty.
  unfold mbind at 1, M_bind at 1, mret at 1, M_ret at 1.
  unfold mbind at 1, M_bind at 1, mret at 1, M_ret at 1.
  change (JsDate.parse (dateParser env) (display None ++ " " ++ display None))
    with InvalidDate.
  unfold tryCatch.
  destruct (saveAppointment_invalid env (toSql (data s !! "studentId"))
              "Admission Inquiry" "Admission" (toSql (data s !! "grade")) w)
    as [H | [e H]].
  - rewrite (bind_normal _ _ _ _ _ H). simpl. repeat split. left. reflexivity.
  - rewrite (bind_throw _ _ _ _ _ H). simpl. repeat split. right. reflexivity.
Qed.

(** The failing input of C9: student 7 has the appointment of Monday
    09:00, chose the free slot of Tuesday 10:00 and answers yes.  The
    slot could be booked, and is not. *)
Lemma replace_yes_never_books_pendingSlot_witness :
  let s := Examples.sessionIn "confirm_replace_appointment" Examples.replaceData in
  let w := Examples.worldOf Examples.user s Examples.oneBooking in
  let env := Examples.oracle "" "yes" "Unknown" Examples.saturdayNoon
                             Examples.noFaults in
  heap w !! 1%positive = Some s
  /\ intentDisabled s = false
  /\ notExit "yes"
  /\ state s = "confirm_replace_appointment"
  /\ data s !! "pendingSlot" = Some (JDate (ValidDate Examples.tuesdayTen))
  /\ toLowerCase (interpretYesNo env "yes") = "yes"
  /\ fst (saveAppointment env (SInt 7) (ValidDate Examples.tuesdayTen)
            "Admission Inquiry" "Admission" (SInt 3) w) = Normal true
  /\ let '(completion, w') := handleSession env Examples.user "yes" 1%positive w in
     completion = Normal tt
     /\ db w' = db w
     /\ heap w' = heap w
     /\ userSessions w' = delete Examples.user (userSessions w)
     /\ (outbox w' = (outbox w ++ [(Examples.user, replaceFailedText)])%list
         \/ outbox w' = (outbox w ++ [(Examples.user, replaceErrorText)])%list).
Proof.
  intros s w env.
  assert (Hx : notExit "yes") by (unfold notExit; vm_compute; discriminate).
  split; [reflexivity |]. split; [reflexivity |]. split; [exact Hx |].
  split; [reflexivity |]. split; [reflexivity |]. split; [reflexivity |].
  split; [vm_compute; reflexivity |].
  apply (replace_yes_never_books_pendingSlot env w Examples.user "yes" 1%positive s
           (ValidDate Examples.tuesdayTen)); try reflexivity; exact Hx.
Defined.

(** The other answer of confirm_replace_appointment: an answer that is
    not yes discards [pendingSlot] and [existingAppointmentDate] and
    returns the session to meeting_offer. *)
Lemma replace_no_returns_to_meeting_offer (env : Env) (w : World)
    (userId userMessage : string) (session : loc) (s : Session) :
  heap w !! session = Some s ->
  intentDisabled s = false ->
  notExit userMessage ->
  state s = "confirm_replace_appointment" ->
  toLowerCase (interpretYesNo env userMessage) <> "yes" ->
  exists prompt,
    getPromptForState "meeting_offer" ∅ = Some prompt
    /\ let '(completion, w') := handleSession env userId userMessage session w in
       completion = Normal tt
       /\ heap w' !! session
          = Some (delete_field "existingAppointmentDate"
                    (delete_field "pendingSlot" (set_state "meeting_offer" s)))
       /\ userSessions w' !! userId = Some session
       /\ db w' = db w
       /\ outbox w' = (outbox w ++ [(userId, notReplacedText); (userId, prompt)])%list.
Proof.
  intros Hs Hd Hx Hst Hy.
  eexists. split; [reflexivity |].
  rewrite (handleSession_dispatch env w userId userMessage session s Hs Hd Hx).
  rewrite Hst.
  change (dispatch env "confirm_replace_appointment")
    with (handleConfirmReplaceAppointment env).
  unfold handleConfirmReplaceAppointment.
  apply String.eqb_neq in Hy. rewrite Hy.
  unfold sendPrompt, sendMessage, sessionsSet, mutate, modifyWorld, mbind, M_bind,
    readSession.
  simpl. rewrite !lookup_alter_eq, Hs. simpl.
  repeat split.
  - rewrite !lookup_alter_eq, Hs. reflexivity.
  - apply lookup_insert_eq.
  - rewrite <- app_assoc. reflexivity.
Qed.

(** ** The sanitizer *)

Lemma forallb_filter (p : ascii -> bool) (s : string) :
  JsString.forallb p (JsString.filter p s) = true.
Proof.
  induction s as [| c r IH]; [reflexivity |]. simpl.
  destruct (p c) eqn:E; [simpl; rewrite E; exact IH | exact IH].
Qed.

Lemma forallb_trimStart (p : ascii -> bool) (s : string) :
  JsString.forallb p s = true -> JsString.forallb p (trimStart s) = true.
Proof.
  induction s as [| c r IH]; [reflexivity |]. intros H. simpl.
  destruct (isSpace c); [| exact H].
  simpl in H. apply andb_true_iff in H. apply IH, H.
Qed.

Lemma forallb_trimEnd (p : ascii -> bool) (s : string) :
  JsString.forallb p s = true -> JsString.forallb p (trimEnd s) = true.
Proof.
  induction s as [| c r IH]; [reflexivity |]. intros H.
  simpl in H. apply andb_true_iff in H. destruct H as [Hc Hr].
  specialize (IH Hr). simpl.
  destruct (trimEnd r) as [| c' r'].
  - destruct (isSpace c); [reflexivity |]. simpl. rewrite Hc. reflexivity.
  - change (JsString.forallb p (String c (String c' r')))
      with (p c && JsString.forallb p (String c' r')).
    rewrite Hc. exact IH.
Qed.

Lemma filter_none (p : ascii -> bool) (s : string) :
  JsString.forallb (fun c => negb (p c)) s = true -> JsString.filter p s = "".
Proof.
  induction s as [| c r IH]; [reflexivity |]. simpl. intros H.
  apply andb_true_iff in H. destruct H as [Hc Hr].
  apply negb_true_iff in Hc. rewrite Hc. apply IH, Hr.
Qed.

Lemma filter_all (p : ascii -> bool) (s : string) :
  JsString.forallb p s = true -> JsString.filter p s = s.
Proof.
  induction s as [| c r IH]; [reflexivity |]. simpl. intros H.
  apply andb_true_iff in H. destruct H as [Hc Hr].
  rewrite Hc, (IH Hr). reflexivity.
Qed.

Lemma trimEnd_idempotent (s : string) : trimEnd (trimEnd s) = trimEnd s.
Proof.
  induction s as [| c r IH]; [reflexivity |]. simpl.
  destruct (trimEnd r) as [| c' r'] eqn:E.
  - destruct (isSpace c) eqn:Ec; [reflexivity |]. simpl. rewrite Ec. reflexivity.
  - change (trimEnd (String c (String c' r')))
      with (match trimEnd (String c' r') with
            | EmptyString => if isSpace c then EmptyString else String c EmptyString
            | r0 => String c r0
            end).
    rewrite IH. reflexivity.
Qed.

Lemma trimStart_head (s : string) : headIsText (trimStart s) = true.
Proof.
  induction s as [| c r IH]; [reflexivity |]. simpl.
  destruct (isSpace c) eqn:E; [exact IH |]. simpl. rewrite E. reflexivity.
Qed.

Lemma trimEnd_head (s : string) : headIsText s = true -> headIsText (trimEnd s) = true.
Proof.
  destruct s as [| c r]; [reflexivity |]. simpl. intros H.
  apply negb_true_iff in H.
  destruct (trimEnd r); rewrite ?H; simpl; rewrite H; reflexivity.
Qed.

Lemma trimStart_text (s : string) : headIsText s = true -> trimStart s = s.
Proof.
  destruct s as [| c r]; [reflexivity |]. simpl. intros H.
  apply negb_true_iff in H. rewrite H. reflexivity.
Qed.

Lemma trim_idempotent (s : string) : trim (trim s) = trim s.
Proof.
  unfold trim.
  rewrite (trimStart_text (trimEnd (trimStart s))).
  - apply trimEnd_idempotent.
  - apply trimEnd_head, trimStart_head.
Qed.

Lemma sanitizeInput_allowed (input : string) :
  JsString.forallb allowed (sanitizeInput input) = true.
Proof.
  unfold sanitizeInput, trim.
  apply forallb_trimEnd, forallb_trimStart, forallb_filter.
Qed.

Lemma sanitizeInput_idempotent (input : string) :
  sanitizeInput (sanitizeInput input) = sanitizeInput input.
Proof.
  unfold sanitizeInput at 1.
  rewrite (filter_all allowed _ (sanitizeInput_allowed input)).
  unfold sanitizeInput. apply trim_idempotent.
Qed.

(** An accepted input of a text field is stored as the value that
    [extractValue] reads in the response of the Oracle. *)
Lemma accepted_text_is_stored (env : Env) (w : World) (userId userMessage : string)
    (session : loc) (s : Session) :
  heap w !! session = Some s ->
  intentDisabled s = false ->
  notExit userMessage ->
  In (state s) textFieldStates ->
  isValidValidation (validateInput env (validationTypeOfState (state s)) userMessage) = true ->
  let res := validateInput env (validationTypeOfState (state s)) userMessage in
  let '(completion, w') := handleSession env userId userMessage session w in
  completion = Normal tt
  /\ exists s',
       heap w' !! session = Some s'
       /\ data s' !! storeKeyMapping (validationTypeOfState (state s))
          = Some (JStr (extractValue res userMessage)).
Proof.
  intros Hs Hd Hx Hst Hv.
  rewrite (handleSession_dispatch env w userId userMessage session s Hs Hd Hx).
  assert (Hf : In (state s) fieldStates).
  { simpl in Hst |- *. tauto. }
  rewrite (field_state_dispatch env _ Hf).
  unfold handleFieldCollection.
  rewrite (bind_normal _ _ _ _ _ (readSession_eq _ _ _ Hs)).
  rewrite Hv.
  destruct Hst as [E | [E | [E | []]]]; rewrite <- E in *;
    cbn [validationTypeOfState storeKeyMapping nextStateOf String.eqb Ascii.eqb Bool.eqb];
    unfold sendPrompt, sendMessage, sessionsSet, mutate, modifyWorld, mbind, M_bind,
      readSession;
    simpl; rewrite !lookup_alter_eq, Hs; simpl;
    unfold promptFor, getPromptForState;
    cbn [String.eqb Ascii.eqb Bool.eqb];
    try match goal with
        | |- context [if ?c then Some _ else Some _] => destruct c
        end;
    (split; [reflexivity |]);
    eexists; (split; [simpl; rewrite ?lookup_alter_eq, ?Hs; reflexivity |]);
    simpl; apply lookup_insert_eq.
Qed.

(** C10, as stated, fails in its consequence: the value that a
    field-collection state stores is the value that the Oracle returns
    after the acceptance marker, not the sanitized input.  The hyphen
    typed by the user is removed by the sanitizer, the Oracle answers
    with the name it reads, and [data.displayname] holds a hyphen. *)
Lemma stored_value_outside_sanitized_set :
  let s := Examples.sessionIn "admission_displayname" ∅ in
  let w := Examples.worldOf Examples.user s Examples.emptyDatabase in
  let env := Examples.oracle "valid Jean-Luc Picard" "unknown" "AdmissionFlow"
                             Examples.saturdayNoon Examples.noFaults in
  let w' := snd (onMessage env (Examples.inbound "Jean-Luc Picard") w) in
  sanitizeInput "Jean-Luc Picard" = "JeanLuc Picard"
  /\ (heap w' !! 1%positive ≫= fun s' => data s' !! "displayname")
     = Some (JStr "Jean-Luc Picard")
  /\ JsString.forallb allowed "Jean-Luc Picard" = false.
Proof. vm_compute. repeat split. Qed.

(** C10, amended.  The main handler works on the sanitized body only: a
    message and its sanitized form are handled alike, so the session
    handling, the intent classification, the field validation and the
    comparison with the exit keyword all see the body without the
    characters outside letters, digits, space and . , ! ? @ and without
    surrounding white space; a body made of other characters only is
    handled as the empty string.  In the field-collection states whose
    field is a text (admission_displayname, admission_email and
    admission_referral), the value stored on acceptance is what follows
    the acceptance marker in the response of the Oracle, trimmed, when
    the response begins with the marker and a space; for any other
    accepted response, the bare marker for one, it is the sanitized
    input, hence made of characters of that set.  The statement is about
    these states only: update_detail has a rule of its own for the value
    that it stores. *)
Theorem sanitized_before_handling (env : Env) (w : World) (msg : Message) :
  let userMessage := sanitizeInput (body msg) in
  onMessage env msg w
  = onMessage env {| from := from msg; body := userMessage; timestamp := timestamp msg |} w
  /\ JsString.forallb allowed userMessage = true
  /\ (JsString.forallb (fun c => negb (allowed c)) (body msg) = true -> userMessage = "")
  /\ forall (userId : string) (session : loc) (s : Session),
       heap w !! session = Some s ->
       intentDisabled s = false ->
       notExit userMessage ->
       In (state s) textFieldStates ->
       let res := validateInput env (validationTypeOfState (state s)) userMessage in
       isValidValidation res = true ->
       let '(completion, w') := handleSession env userId userMessage session w in
       completion = Normal tt
       /\ exists s',
            heap w' !! session = Some s'
            /\ data s' !! storeKeyMapping (validationTypeOfState (state s))
               = Some (JStr (extractValue res userMessage))
            /\ (startsWith (toLowerCase res) "valid " = true ->
                extractValue res userMessage = trim (substring 6 res))
            /\ (startsWith (toLowerCase res) "valid " = false ->
                extractValue res userMessage = userMessage).
Proof.
  intros userMessage. split; [| split; [| split]].
  - unfold onMessage. simpl. unfold userMessage.
    rewrite sanitizeInput_idempotent. reflexivity.
  - apply sanitizeInput_allowed.
  - intros H. unfold userMessage, sanitizeInput. rewrite (filter_none _ _ H). reflexivity.
  - intros userId session s Hs Hd Hx Hst res Hv.
    pose proof (accepted_text_is_stored env w userId userMessage session s
                  Hs Hd Hx Hst Hv) as H.
    cbv zeta in H.
    destruct (handleSession env userId userMessage session w) as [completion w'].
    destruct H as [Hc [s' [Hs' Hdata]]].
    split; [exact Hc |]. exists s'. split; [exact Hs' |]. split; [exact Hdata |].
    unfold extractValue. split; intros E; fold res; rewrite E; [reflexivity |].
    unfold userMessage, sanitizeInput. apply trim_idempotent.
Qed.

Lemma sanitized_before_handling_witness :
  let s := Examples.sessionIn "admission_displayname" ∅ in
  let w := Examples.worldOf Examples.user s Examples.emptyDatabase in
  let env := Examples.oracle "valid" "unknown" "AdmissionFlow"
                             Examples.saturdayNoon Examples.noFaults in
  let msg := Examples.inbound "  John <Smith>  " in
  sanitizeInput (body msg) = "John Smith"
  /\ heap w !! 1%positive = Some s
  /\ intentDisabled s = false
  /\ notExit "John Smith"
  /\ In (state s) textFieldStates
  /\ isValidValidation (validateInput env "name" "John Smith") = true
  /\ startsWith (toLowerCase (validateInput env "name" "John Smith")) "valid " = false
  /\ let '(completion, w') := handleSession env Examples.user "John Smith" 1%positive w in
     completion = Normal tt
     /\ exists s',
          heap w' !! 1%positive = Some s'
          /\ data s' !! "displayname" = Some (JStr "John Smith").
Proof.
  intros s w env msg.
  assert (Hx : notExit "John Smith") by (unfold notExit; vm_compute; discriminate).
  assert (Hst : In (state s) textFieldStates) by (simpl; tauto).
  split; [reflexivity |]. split; [reflexivity |]. split; [reflexivity |].
  split; [exact Hx |]. split; [exact Hst |]. split; [reflexivity |].
  split; [reflexivity |].
  destruct (sanitized_before_handling env w msg) as (_ & _ & _ & H).
  specialize (H Examples.user 1%positive s eq_refl eq_refl Hx Hst eq_refl).
  change (sanitizeInput (body msg)) with "John Smith" in H.
  destruct (handleSession env Examples.user "John Smith" 1%positive w)
    as [completion w'].
  destruct H as [Hc [s' [Hs' [Hdata [_ Hbare]]]]].
  split; [exact Hc |]. exists s'. split; [exact Hs' |].
  rewrite (Hbare eq_refl) in Hdata. exact Hdata.
Defined.

(** ** Booking *)

Lemma nextId_plus_one (maxId : option Z) :
  nextId maxId = match maxId with Some m => m + 1 | None => 1 end.
Proof.
  destruct maxId as [m |]; [| reflexivity]. unfold nextId.
  destruct (Z.eqb_spec m 0) as [-> | _]; reflexivity.
Qed.

Lemma count_positive {A} (f : A -> bool) (l : list A) :
  (0 <? Z.of_nat (length (List.filter f l))) = existsb f l.
Proof.
  induction l as [| a l IH]; [reflexivity |]. simpl.
  destruct (f a); [| exact IH]. simpl length. rewrite Nat2Z.inj_succ.
  simpl. apply Z.ltb_lt. lia.
Qed.

Lemma format_shift (t k : Z) :
  formatDateTimeMySql (JsDate.shift (ValidDate t) (k * 1000)) = Some (t / msPerSecond + k).
Proof. simpl. unfold msPerSecond. rewrite Z.div_add by lia. reflexivity. Qed.

Lemma saveAppointment_valid (env : Env) (w : World) (studentId : SqlVal) (t : Z)
    (purpose type_ : string) (forgrade : SqlVal) :
  fault env GetConnection = false ->
  fault env Rollback = false ->
  let rows := appointments (db w) in
  let second := t / msPerSecond in
  saveAppointment env studentId (ValidDate t) purpose type_ forgrade w
  = if existsb (inWindow second) rows || bookingStatementsFail env second
    then (Normal false, w)
    else (Normal true,
          with_db (with_appointments (fun r =>
            (r ++ [bookedRowFor rows studentId second purpose type_ forgrade])%list)) w).
Proof.
  intros Hc Hr rows second. subst rows.
  pose proof (format_shift t (-1)) as Hm. pose proof (format_shift t 1) as Hp.
  change (-1 * 1000) with (-1000) in Hm. change (1 * 1000) with 1000 in Hp.
  change (t / msPerSecond + -1) with (second - 1) in Hm.
  change (t / msPerSecond + 1) with (second + 1) in Hp.
  unfold saveAppointment. rewrite Hm, Hp.
  unfold getConnection, tryFinally, tryCatch, beginTransaction, rollback,
    release, countBetween, selectMaxId, insertAppointment, commit, query, execute, throw,
    formatDateTimeMySql, bookingStatementsFail.
  unfold mbind, M_bind, mret, M_ret.
  rewrite Hc.
  change (t / msPerSecond) with second.
  destruct (fault env BeginTransaction).
  { simpl. rewrite Hr, rollback_same, orb_true_r. reflexivity. }
  simpl.
  destruct (fault env (CountAppointmentsBetween (Some (second - 1)) (Some (second + 1)))).
  { simpl. rewrite Hr, rollback_same, orb_true_r. reflexivity. }
  simpl. rewrite count_positive.
  change (fun a => (second - 1 <=? appdate a) && (appdate a <=? second + 1))
    with (inWindow second).
  destruct (existsb (inWindow second) (appointments (db w))).
  { simpl. rewrite Hr. simpl. rewrite rollback_same. reflexivity. }
  simpl.
  destruct (fault env SelectMaxAppointmentId).
  { simpl. rewrite Hr, rollback_same. reflexivity. }
  simpl.
  destruct (fault env InsertAppointment).
  { simpl. rewrite Hr, rollback_same. reflexivity. }
  simpl.
  destruct (fault env Commit).
  { simpl. rewrite Hr. simpl. unfold with_db, with_appointments. simpl.
    destruct w as [us h r [a s c g u] o l]. reflexivity. }
  simpl. unfold bookedRowFor. rewrite nextId_plus_one. reflexivity.
Qed.

(** [maxOf] is the greatest element of a list that has one. *)
Lemma maxOf_greatest (l : list Z) (m : Z) :
  maxOf l = Some m -> In m l /\ forall x, In x l -> x <= m.
Proof.
  destruct l as [| a l]; [discriminate |]. simpl. intros H. injection H as <-.
  revert a. induction l as [| b l IH]; intros a.
  - simpl. split; [left; reflexivity | intros x [<- | []]; lia].
  - simpl fold_left. destruct (IH (Z.max a b)) as [Hin Hle]. split.
    + destruct Hin as [E | Hin]; [| right; right; exact Hin].
      rewrite <- E. destruct (Z.max_spec a b) as [[_ ->] | [_ ->]];
        [right; left | left]; reflexivity.
    + intros x [<- | [<- | Hx]].
      * specialize (Hle (Z.max a b) (or_introl eq_refl)). lia.
      * specialize (Hle (Z.max a b) (or_introl eq_refl)). lia.
      * apply Hle. right. exact Hx.
Qed.

(** C2, as stated, fails where it promises a boolean in every case: the
    connection is taken from the pool before the [try], and when the
    pool has none to give the exception reaches the caller.  It also
    fails where it promises the insertion whenever the window is free:
    when the INSERT is refused the call returns false and the table is
    unchanged; and the window is taken around the second of
    slotDatetime, so that a slot 1999 ms after a booked second is
    refused although no row lies within one second of it. *)
Lemma saveAppointment_not_as_stated :
  let s := Examples.sessionIn "meeting_show_slots" {[ "studentId" := JNum 7 ]} in
  let w := Examples.worldOf Examples.user s Examples.oneBooking in
  let lost := Examples.oracle "" "yes" "Unknown" Examples.saturdayNoon
                              Examples.connectionLost in
  let refused := Examples.oracle "" "yes" "Unknown" Examples.saturdayNoon
                                 Examples.insertRefused in
  let sound := Examples.oracle "" "yes" "Unknown" Examples.saturdayNoon
                               Examples.noFaults in
  saveAppointment lost (SInt 7) (ValidDate Examples.tuesdayTen)
    "Admission Inquiry" "Admission" (SInt 3) w
  = (Throw "no connection", w)
  /\ existsb (inWindow (Examples.tuesdayTen / msPerSecond)) (appointments (db w)) = false
  /\ saveAppointment refused (SInt 7) (ValidDate Examples.tuesdayTen)
       "Admission Inquiry" "Admission" (SInt 3) w
     = (Normal false, w)
  /\ existsb (withinOneSecond (Examples.mondayNine + 1999)) (appointments (db w)) = false
  /\ saveAppointment sound (SInt 8) (ValidDate (Examples.mondayNine + 1999))
       "Admission Inquiry" "Admission" SNull w
     = (Normal false, w).
Proof. vm_compute. repeat split. Qed.

(** C2, amended.  Provided the pool gives a connection and the rollback
    does not fail, every call returns a boolean and no exception.  If a
    row exists whose appdate lies within one second of the second of
    slotDatetime, or if a statement of the transaction fails, or if
    slotDatetime is the Invalid Date, the call returns false and inserts
    nothing.  Otherwise it inserts exactly one row, at that second, whose
    identifier is the greatest identifier of the table plus one (1 in an
    empty table), and returns true. *)
Theorem saveAppointment_outcome (env : Env) (w : World) (studentId : SqlVal)
    (slotDatetime : Date) (purpose type_ : string) (forgrade : SqlVal) :
  fault env GetConnection = false ->
  fault env Rollback = false ->
  let rows := appointments (db w) in
  match slotDatetime with
  | ValidDate t =>
      let second := t / msPerSecond in
      saveAppointment env studentId slotDatetime purpose type_ forgrade w
      = if existsb (inWindow second) rows || bookingStatementsFail env second
        then (Normal false, w)
        else (Normal true,
              with_db (with_appointments (fun r =>
                (r ++ [bookedRowFor rows studentId second purpose type_ forgrade])%list)) w)
  | InvalidDate =>
      saveAppointment env studentId slotDatetime purpose type_ forgrade w
      = (Normal false, w)
  end.
Proof.
  intros Hc Hr rows. destruct slotDatetime as [t |].
  - apply (saveAppointment_valid env w studentId t purpose type_ forgrade Hc Hr).
  - unfold saveAppointment, getConnection, tryFinally, tryCatch, beginTransaction,
      rollback, release, countBetween, throw, mbind, M_bind, mret, M_ret.
    simpl. rewrite Hc, Hr.
    destruct (fault env BeginTransaction); rewrite rollback_same; reflexivity.
Qed.

Lemma saveAppointment_outcome_witness :
  let s := Examples.sessionIn "meeting_show_slots" {[ "studentId" := JNum 7 ]} in
  let w := Examples.worldOf Examples.user s Examples.oneBooking in
  let env := Examples.oracle "" "yes" "Unknown" Examples.saturdayNoon
                             Examples.noFaults in
  fault env GetConnection = false
  /\ fault env Rollback = false
  /\ saveAppointment env (SInt 7) (ValidDate Examples.tuesdayTen)
       "Admission Inquiry" "Admission" (SInt 3) w
     = (Normal true,
        with_db (with_appointments (fun r =>
          (r ++ [ {| app_id := 2; app_student_id := SInt 7;
                     appdate := Examples.tuesdayTen / msPerSecond;
                     app_time := Examples.tuesdayTen / msPerSecond;
                     app_purpose := "Admission Inquiry"; app_host := "IvyBot";
                     app_type := "Admission"; app_forgrade := SInt 3 |} ])%list)) w)
  /\ saveAppointment env (SInt 8) (ValidDate (Examples.mondayNine + 1999))
       "Admission Inquiry" "Admission" SNull w
     = (Normal false, w).
Proof.
  intros s w env.
  split; [reflexivity |]. split; [reflexivity |]. split.
  - exact (saveAppointment_outcome env w (SInt 7) (ValidDate Examples.tuesdayTen)
             "Admission Inquiry" "Admission" (SInt 3) eq_refl eq_refl).
  - exact (saveAppointment_outcome env w (SInt 8) (ValidDate (Examples.mondayNine + 1999))
             "Admission Inquiry" "Admission" SNull eq_refl eq_refl).
Defined.

(** ** Generation of the slots *)

Lemma count_zero {A} (f : A -> bool) (l : list A) :
  negb (Z.of_nat (length (List.filter f l)) =? 0) = existsb f l.
Proof.
  induction l as [| a l IH]; [reflexivity |]. simpl.
  destruct (f a); [| exact IH]. simpl length. rewrite Nat2Z.inj_succ.
  simpl. apply negb_true_iff, Z.eqb_neq. lia.
Qed.

Lemma foldM_append {A B} (body : list B -> A -> M (list B)) (g : A -> list B)
    (w : World) (l : list A) :
  (forall acc x, body acc x w = (Normal (acc ++ g x)%list, w)) ->
  forall acc, foldM body l acc w = (Normal (acc ++ flat_map g l)%list, w).
Proof.
  intros H. induction l as [| x l IH]; intros acc.
  - simpl. rewrite app_nil_r. reflexivity.
  - simpl. rewrite (bind_normal _ _ _ _ _ (H acc x)). rewrite IH.
    rewrite <- app_assoc. reflexivity.
Qed.

Lemma flat_map_nested {A B C} (g : B -> list C) (h : A -> list B) (l : list A) :
  flat_map g (flat_map h l) = flat_map (fun x => flat_map g (h x)) l.
Proof.
  induction l as [| x l IH]; [reflexivity |].
  cbn [flat_map]. rewrite flat_map_app, IH. reflexivity.
Qed.

Lemma slotStep_noFault (env : Env) (w : World) (now current hour minute : Z)
    (possibleSlots : list Slot) :
  noFault env ->
  slotStep env now current hour possibleSlots minute w
  = (Normal (possibleSlots
             ++ keptSlot now (appointments (db w)) (atTimeOfDay current hour minute))%list,
     w).
Proof.
  intros Hf. unfold slotStep, keptSlot, isSlotBooked, countAt, tryCatch, query,
    formatDateTimeMySql, isBookedAt, mkSlot.
  destruct (now <? atTimeOfDay current hour minute); simpl.
  - unfold mbind, M_bind, mret, M_ret. rewrite Hf. simpl.
    rewrite count_zero.
    destruct (existsb _ _); simpl; [rewrite app_nil_r |]; reflexivity.
  - rewrite app_nil_r. reflexivity.
Qed.

Lemma day_noFault (env : Env) (w : World) (now current : Z) (possibleSlots : list Slot) :
  noFault env ->
  foldM (hourStep env now current) hours possibleSlots w
  = (Normal (possibleSlots
             ++ flat_map (keptSlot now (appointments (db w))) (halfHourMarks current))%list,
     w).
Proof.
  intros Hf.
  rewrite (foldM_append (hourStep env now current)
             (fun hour => flat_map (keptSlot now (appointments (db w)))
                            (List.map (fun minute => atTimeOfDay current hour minute) [0; 30]))).
  - unfold halfHourMarks, hours. change (15 - 8) with 7.
    rewrite flat_map_nested. reflexivity.
  - intros acc hour. unfold hourStep.
    rewrite (foldM_append (slotStep env now current hour)
               (fun minute => keptSlot now (appointments (db w))
                                (atTimeOfDay current hour minute))).
    + unfold minutes. simpl. rewrite !app_nil_r. reflexivity.
    + intros acc' minute. apply slotStep_noFault, Hf.
Qed.

Lemma keptSlot_filter (now : Z) (rows : list Appointment) (l : list Z) :
  flat_map (keptSlot now rows) l
  = List.map mkSlot
      (List.filter (fun t => negb (isBookedAt rows t)) (List.filter (fun t => now <? t) l)).
Proof.
  induction l as [| t l IH]; [reflexivity |].
  cbn [flat_map List.filter]. unfold keptSlot at 1.
  destruct (now <? t); simpl; [| exact IH].
  destruct (isBookedAt rows t); simpl; rewrite IH; reflexivity.
Qed.

Lemma daySlots_window (now : Z) (rows : list Appointment) (days : list Z) :
  flat_map (daySlots now rows) days
  = List.map mkSlot
      (List.filter (fun t => negb (isBookedAt rows t))
        (List.filter (fun t => now <? t)
          (flat_map halfHourMarks (List.filter isSundayToThursday days)))).
Proof.
  induction days as [| d days IH]; [reflexivity |].
  cbn [flat_map List.filter]. unfold daySlots at 1.
  destruct (isSundayToThursday d).
  - cbn [flat_map]. rewrite !List.filter_app, List.map_app, <- IH, keptSlot_filter. reflexivity.
  - exact IH.
Qed.

Lemma dayLoop_days (env : Env) (w : World) (now endDate : Z) (k : nat) :
  noFault env ->
  forall (current : Z) (acc : list Slot) (fuel : nat),
    (forall i, (i < k)%nat -> current + Z.of_nat i * msPerDay < endDate) ->
    endDate <= current + Z.of_nat k * msPerDay ->
    (k < fuel)%nat ->
    dayLoop env fuel now current endDate acc w
    = (Normal (acc ++ flat_map (daySlots now (appointments (db w)))
                        (List.map (fun i => addDays current (Z.of_nat i)) (seq 0 k)))%list,
       w).
Proof.
  intros Hf. induction k as [| k IH]; intros current acc fuel Hlt Hge Hfuel.
  - destruct fuel as [| fuel]; [lia |]. simpl.
    destruct (Z.ltb_spec current endDate) as [H | _]; [lia |].
    rewrite app_nil_r. reflexivity.
  - destruct fuel as [| fuel]; [lia |]. cbn [dayLoop].
    destruct (Z.ltb_spec current endDate) as [_ | H];
      [| specialize (Hlt 0%nat ltac:(lia)); simpl in Hlt; lia].
    erewrite bind_normal.
    2: { instantiate (1 := w).
         instantiate (1 := (acc ++ daySlots now (appointments (db w)) current)%list).
         unfold daySlots, isSundayToThursday.
         destruct ((0 <=? getDay current) && (getDay current <=? 4)).
         - apply day_noFault, Hf.
         - rewrite app_nil_r. reflexivity. }
    rewrite (IH (addDays current 1)
               (acc ++ daySlots now (appointments (db w)) current)%list fuel).
    + assert (Hl : List.map (fun i => addDays current (Z.of_nat i)) (seq 0 (S k))
                   = current :: List.map (fun i => addDays (addDays current 1) (Z.of_nat i))
                                  (seq 0 k)).
      { cbn [seq List.map]. f_equal; [unfold addDays; lia |].
        rewrite <- seq_shift, List.map_map.
        apply List.map_ext. intros i. unfold addDays. lia. }
      rewrite Hl. cbn [flat_map]. rewrite <- app_assoc. reflexivity.
    + intros i Hi. specialize (Hlt (S i) ltac:(lia)). unfold addDays. lia.
    + unfold addDays. lia.
    + lia.
Qed.

Lemma startOfDay_aligned (t : Z) : startOfDay t mod msPerDay = 0.
Proof.
  unfold startOfDay, msPerDay.
  rewrite Zminus_mod_idemp_r. rewrite Z.sub_diag. reflexivity.
Qed.

Lemma startOfDay_of_aligned (t : Z) : t mod msPerDay = 0 -> startOfDay t = t.
Proof. intros H. unfold startOfDay. rewrite H. lia. Qed.

Lemma getAvailableSlots_noFault (env : Env) (w : World) (grade : string) :
  noFault env ->
  getAvailableSlots env grade w
  = (Normal (slotsOfWindow 4 (clock env) (appointments (db w))), w).
Proof.
  intros Hf. unfold getAvailableSlots, slotsOfWindow.
  set (now := clock env).
  set (start := startOfDay (addDays now 1)).
  assert (Hs : start mod msPerDay = 0) by apply startOfDay_aligned.
  rewrite (startOfDay_of_aligned start Hs).
  assert (H3 : startOfDay (addDays start 3) = start + 3 * msPerDay).
  { apply startOfDay_of_aligned. unfold addDays.
    rewrite Z.mod_add by (unfold msPerDay; lia). exact Hs. }
  rewrite H3.
  assert (Hfuel : daysBetween start (start + 3 * msPerDay + (msPerDay - 1)) = 5%nat).
  { unfold daysBetween.
    replace (start + 3 * msPerDay + (msPerDay - 1) - start) with (4 * msPerDay - 1) by lia.
    reflexivity. }
  rewrite Hfuel.
  rewrite (dayLoop_days env w now _ 4 Hf start [] 5).
  - rewrite app_nil_l, daySlots_window. reflexivity.
  - intros i Hi. unfold msPerDay. lia.
  - unfold msPerDay. simpl. lia.
  - lia.
Qed.

(** The list of slots is in chronological order: within a day the
    half-hour marks increase, and the last mark of a day is before the
    first of any later day. *)
Lemma StronglySorted_filter {A} (R : relation A) (p : A -> bool) (l : list A) :
  StronglySorted R l -> StronglySorted R (List.filter p l).
Proof.
  induction 1 as [| a l _ IH Hall]; simpl; [constructor |].
  destruct (p a); [| exact IH].
  constructor; [exact IH |].
  rewrite List.Forall_forall in *. intros x Hx.
  apply List.filter_In in Hx. apply Hall, Hx.
Qed.

Lemma Forall_filter {A} (P : A -> Prop) (p : A -> bool) (l : list A) :
  List.Forall P l -> List.Forall P (List.filter p l).
Proof.
  rewrite !List.Forall_forall. intros H x Hx. apply List.filter_In in Hx. apply H, Hx.
Qed.

Lemma halfHourMarks_sorted (day : Z) :
  day mod msPerDay = 0 ->
  StronglySorted Z.lt (halfHourMarks day)
  /\ List.Forall (fun t => day + 8 * msPerHour <= t < day + 15 * msPerHour)
       (halfHourMarks day).
Proof.
  intros H. unfold halfHourMarks.
  change (seqZ 8 7) with [8; 9; 10; 11; 12; 13; 14].
  cbn [flat_map List.map app]. unfold atTimeOfDay.
  rewrite (startOfDay_of_aligned day H). unfold msPerHour, msPerMinute.
  split; repeat constructor; lia.
Qed.

Lemma days_sorted (days : list Z) :
  StronglySorted dayApart days ->
  List.Forall (fun d => d mod msPerDay = 0) days ->
  StronglySorted Z.lt (flat_map halfHourMarks days).
Proof.
  induction 1 as [| d days _ IH Hgap]; intros Hal; [constructor |].
  apply List.Forall_cons_iff in Hal. destruct Hal as [Hd Hal].
  cbn [flat_map]. destruct (halfHourMarks_sorted d Hd) as [Hs Hb].
  apply StronglySorted_app_2; [| exact Hs | apply IH, Hal].
  intros x y Hx Hy.
  apply list_elem_of_In in Hx, Hy.
  rewrite List.Forall_forall in Hb. specialize (Hb x Hx).
  apply List.in_flat_map in Hy. destruct Hy as [d' [Hd' Hy]].
  rewrite List.Forall_forall in Hgap, Hal.
  specialize (Hgap d' Hd'). specialize (Hal d' Hd').
  destruct (halfHourMarks_sorted d' Hal) as [_ Hb'].
  rewrite List.Forall_forall in Hb'. specialize (Hb' y Hy).
  unfold dayApart, msPerDay, msPerHour in *. lia.
Qed.

Lemma windowDays_sorted (start : Z) (n a : nat) :
  StronglySorted dayApart
    (List.map (fun k => addDays start (Z.of_nat k)) (seq a n)).
Proof.
  revert a. induction n as [| n IH]; intros a; simpl; constructor; [apply IH |].
  rewrite List.Forall_forall. intros x Hx.
  apply List.in_map_iff in Hx. destruct Hx as [k [<- Hk]].
  apply List.in_seq in Hk. unfold dayApart, addDays, msPerDay. lia.
Qed.

Lemma windowDays_aligned (now : Z) (n : nat) :
  List.Forall (fun d => d mod msPerDay = 0) (windowDays now n).
Proof.
  unfold windowDays. rewrite List.Forall_forall. intros x Hx.
  apply List.in_map_iff in Hx. destruct Hx as [k [<- _]].
  unfold addDays. rewrite Z.mod_add by (unfold msPerDay; lia).
  apply startOfDay_aligned.
Qed.

Lemma slotsOfWindow_chronological (n : nat) (now : Z) (rows : list Appointment) :
  chronological (slotsOfWindow n now rows).
Proof.
  unfold chronological, slotsOfWindow.
  rewrite List.map_map. change (fun x => slotTime (mkSlot x)) with (fun x : Z => x).
  rewrite List.map_id.
  apply StronglySorted_filter, StronglySorted_filter, days_sorted.
  - apply StronglySorted_filter, windowDays_sorted.
  - apply Forall_filter, windowDays_aligned.
Qed.

(** X2.  When no statement fails, the slots that [getAvailableSlots]
    returns are in chronological order: their times strictly increase,
    so that no slot is listed twice. *)
Lemma getAvailableSlots_chronological (env : Env) (w : World) (grade : string) :
  noFault env ->
  exists slots, getAvailableSlots env grade w = (Normal slots, w) /\ chronological slots.
Proof.
  intros Hf. eexists. split; [apply getAvailableSlots_noFault, Hf |].
  apply slotsOfWindow_chronological.
Qed.

(** The loop over the days leaves by its test: more fuel than the five
    rounds that [getAvailableSlots] allows changes nothing. *)
Lemma dayLoop_exits_by_its_test (env : Env) (w : World) (extra : nat) :
  noFault env ->
  let now := clock env in
  let start := startOfDay (addDays now 1) in
  dayLoop env (5 + extra) now start (start + 3 * msPerDay + (msPerDay - 1)) [] w
  = (Normal (slotsOfWindow 4 now (appointments (db w))), w).
Proof.
  intros Hf now start.
  rewrite (dayLoop_days env w now _ 4 Hf start [] (5 + extra)).
  - rewrite app_nil_l, daySlots_window. reflexivity.
  - intros i Hi. unfold msPerDay. lia.
  - unfold msPerDay. simpl. lia.
  - lia.
Qed.

(** C3, the behaviour of the code.  When no check of a slot fails,
    [getAvailableSlots] returns, for every grade and every current time,
    the slots that the Generation paragraph describes, in chronological
    order, but over the 4 days that start tomorrow: the loop also visits
    the day that follows the 3-day window. *)
Theorem getAvailableSlots_visits_four_days (env : Env) (w : World) (grade : string) :
  noFault env ->
  getAvailableSlots env grade w
  = (Normal (slotsOfWindow 4 (clock env) (appointments (db w))), w).
Proof. apply getAvailableSlots_noFault. Qed.

(** The failing input of C3: Saturday 2025-03-01 at noon, no appointment.
    The code lists the 56 slots of Sunday to Wednesday, the last one on
    Wednesday at 14:30; the 3-day window of the specification holds the
    42 slots of Sunday to Tuesday. *)
Lemma getAvailableSlots_visits_four_days_witness :
  let s := Examples.sessionIn "meeting_offer" {[ "studentId" := JNum 7 ]} in
  let w := Examples.worldOf Examples.user s Examples.emptyDatabase in
  let env := Examples.oracle "" "yes" "Unknown" Examples.saturdayNoon
                             Examples.noFaults in
  let listed := slotsOfWindow 4 Examples.saturdayNoon [] in
  let specified := spec_getAvailableSlots Examples.saturdayNoon [] in
  noFault env
  /\ getAvailableSlots env "Grade 3" w = (Normal listed, w)
  /\ length listed = 56%nat
  /\ length specified = 42%nat
  /\ firstn 42 listed = specified
  /\ last listed = Some (mkSlot (20152 * msPerDay + 14 * msPerHour + 30 * msPerMinute))
  /\ getDay (20152 * msPerDay) = 3.
Proof.
  intros s w env listed specified.
  assert (Hf : noFault env) by (intros st; reflexivity).
  split; [exact Hf |]. split.
  - exact (getAvailableSlots_visits_four_days env w "Grade 3" Hf).
  - vm_compute. repeat split.
Defined.

(** Two bookings of the same time, one after the other, for any two
    students: when no statement fails and the slot is free, the first
    call succeeds and the second reports the conflict. *)
Lemma sequential_bookings_exclusive (env : Env) (w : World) (student1 student2 : SqlVal)
    (t : Z) (purpose type_ : string) (forgrade : SqlVal) :
  noFault env ->
  existsb (inWindow (t / msPerSecond)) (appointments (db w)) = false ->
  exists w1,
    saveAppointment env student1 (ValidDate t) purpose type_ forgrade w = (Normal true, w1)
    /\ saveAppointment env student2 (ValidDate t) purpose type_ forgrade w1
       = (Normal false, w1).
Proof.
  intros Hf Hfree.
  assert (Hb : bookingStatementsFail env (t / msPerSecond) = false).
  { unfold bookingStatementsFail. rewrite !Hf. reflexivity. }
  eexists. split.
  - rewrite (saveAppointment_valid env w student1 t purpose type_ forgrade (Hf _) (Hf _)).
    rewrite Hfree, Hb. reflexivity.
  - rewrite (saveAppointment_valid env _ student2 t purpose type_ forgrade (Hf _) (Hf _)).
    rewrite Hb, orb_false_r. simpl appointments.
    rewrite existsb_app. simpl. unfold inWindow at 2. simpl.
    replace ((t / msPerSecond - 1 <=? t / msPerSecond)
             && (t / msPerSecond <=? t / msPerSecond + 1)) with true.
    + rewrite orb_true_r. reflexivity.
    + symmetry. apply andb_true_iff. split; apply Z.leb_le; lia.
Qed.

(** ** The flag [intentDisabled] is never raised *)

(** No handler of this revision of the controller assigns
    [intentDisabled]: every computation of the handlers keeps the flags
    of all session objects down. *)

Lemma keeps_mret {A} (a : A) : keepsFlags (mret a).
Proof. intros w H. exact H. Qed.

Lemma keeps_throw {A} (e : string) : keepsFlags (@throw A e).
Proof. intros w H. exact H. Qed.

Lemma keeps_bind {A B} (m : M A) (f : A -> M B) :
  keepsFlags m -> (forall a, keepsFlags (f a)) -> keepsFlags (m ≫= f).
Proof.
  intros Hm Hf w H. unfold mbind, M_bind. specialize (Hm w H).
  destruct (m w) as [[a | e] w']; simpl in *; [apply Hf, Hm | exact Hm].
Qed.

Lemma keeps_tryCatch {A} (body : M A) (handler : string -> M A) :
  keepsFlags body -> (forall e, keepsFlags (handler e)) -> keepsFlags (tryCatch body handler).
Proof.
  intros Hm Hf w H. unfold tryCatch. specialize (Hm w H).
  destruct (body w) as [[a | e] w']; simpl in *; [exact Hm | apply Hf, Hm].
Qed.

Lemma keeps_tryFinally {A} (body : M A) (final : M unit) :
  keepsFlags body -> keepsFlags final -> keepsFlags (tryFinally body final).
Proof.
  intros Hm Hf w H. unfold tryFinally. specialize (Hm w H).
  destruct (body w) as [r w']. simpl in Hm. specialize (Hf w' Hm).
  destruct (final w') as [[u | e] w'']; exact Hf.
Qed.

Lemma keeps_same_heap {A} (m : M A) :
  (forall w, heap (snd (m w)) = heap w) -> keepsFlags m.
Proof. intros Hh w H l s. rewrite Hh. apply H. Qed.

Lemma keeps_mutate (session : loc) (f : Session -> Session) :
  (forall s, intentDisabled (f s) = intentDisabled s) -> keepsFlags (mutate session f).
Proof.
  intros Hf w H l s. unfold mutate, modifyWorld. simpl.
  destruct (decide (session = l)) as [-> | Hne].
  - rewrite lookup_alter_eq. destruct (heap w !! l) as [s0 |] eqn:E; [| discriminate].
    simpl. intros [= <-]. rewrite Hf. apply (H l s0 E).
  - rewrite lookup_alter_ne by exact Hne. apply H.
Qed.

Lemma keeps_allocSession (s : Session) :
  intentDisabled s = false -> keepsFlags (allocSession s).
Proof.
  intros Hs w H l s'. unfold allocSession. simpl.
  destruct (decide (fresh (dom (heap w)) = l)) as [-> | Hne].
  - rewrite lookup_insert_eq. intros [= <-]. exact Hs.
  - rewrite lookup_insert_ne by exact Hne. apply H.
Qed.

Lemma keeps_foldM {A S} (body : S -> A -> M S) (l : list A) :
  (forall acc x, keepsFlags (body acc x)) -> forall acc, keepsFlags (foldM body l acc).
Proof.
  intros Hb. induction l as [| x l IH]; intros acc; simpl.
  - apply keeps_mret.
  - apply keeps_bind; [apply Hb | intros a; apply IH].
Qed.

Create HintDb keeps.

Ltac same_heap :=
  apply keeps_same_heap; intros;
  repeat match goal with
         | |- context [if ?c then _ else _] => destruct c
         | |- context [match ?x with _ => _ end] => destruct x
         end;
  reflexivity.

Lemma keeps_sendMessage (userId content : string) : keepsFlags (sendMessage userId content).
Proof. same_heap. Qed.

Lemma keeps_readSession (session : loc) : keepsFlags (readSession session).
Proof. unfold readSession. same_heap. Qed.

Lemma keeps_sessionsGet (userId : string) : keepsFlags (sessionsGet userId).
Proof. same_heap. Qed.

Lemma keeps_sessionsSet (userId : string) (session : loc) :
  keepsFlags (sessionsSet userId session).
Proof. same_heap. Qed.

Lemma keeps_sessionsDelete (userId : string) : keepsFlags (sessionsDelete userId).
Proof. same_heap. Qed.

Lemma keeps_getWorld : keepsFlags getWorld.
Proof. same_heap. Qed.

Lemma keeps_modifyWorld (f : World -> World) :
  (forall w, heap (f w) = heap w) -> keepsFlags (modifyWorld f).
Proof. intros H. apply keeps_same_heap. exact H. Qed.

Lemma keeps_query {A} (env : Env) (st : Stmt) (read : Database -> A) :
  keepsFlags (query env st read).
Proof. unfold query. same_heap. Qed.

Lemma keeps_execute (env : Env) (st : Stmt) (write : Database -> Database) :
  keepsFlags (execute env st write).
Proof. unfold execute. same_heap. Qed.

Lemma keeps_getConnection (env : Env) : keepsFlags (getConnection env).
Proof. unfold getConnection. same_heap. Qed.

Lemma keeps_beginTransaction (env : Env) : keepsFlags (beginTransaction env).
Proof. unfold beginTransaction. same_heap. Qed.

Lemma keeps_commit (env : Env) : keepsFlags (commit env).
Proof. unfold commit. same_heap. Qed.

Lemma keeps_rollback (env : Env) (connection : list Appointment) :
  keepsFlags (rollback env connection).
Proof. unfold rollback. same_heap. Qed.

#[local] Hint Resolve keeps_mret keeps_throw keeps_sendMessage keeps_readSession
  keeps_sessionsGet keeps_sessionsSet keeps_sessionsDelete keeps_getWorld keeps_query
  keeps_execute keeps_getConnection keeps_beginTransaction keeps_commit keeps_rollback
  : keeps.

Ltac keeps_step :=
  first
    [ solve [auto with keeps]
    | apply keeps_mutate; intros; reflexivity
    | apply keeps_allocSession; reflexivity
    | apply keeps_modifyWorld; intros; reflexivity
    | apply keeps_bind; [| intros]
    | apply keeps_tryCatch; [| intros]
    | apply keeps_tryFinally
    | apply keeps_foldM; intros
    | match goal with
      | |- keepsFlags (if ?c then _ else _) => destruct c
      | |- keepsFlags (match ?x with _ => _ end) => destruct x
      | |- keepsFlags (let _ := _ in _) => cbv zeta
      end ].

Ltac keeps := repeat keeps_step.

Lemma keeps_sendPrompt (userId : string) (session : loc) :
  keepsFlags (sendPrompt userId session).
Proof. unfold sendPrompt, promptFor. keeps. Qed.

Lemma keeps_saveAppointment (env : Env) (studentId : SqlVal) (slotDatetime : Date)
    (purpose type_ : string) (forgrade : SqlVal) :
  keepsFlags (saveAppointment env studentId slotDatetime purpose type_ forgrade).
Proof.
  unfold saveAppointment, countBetween, selectMaxId, insertAppointment, release. keeps.
Qed.

Lemma keeps_dayLoop (env : Env) (fuel : nat) :
  forall now current endDate acc, keepsFlags (dayLoop env fuel now current endDate acc).
Proof.
  induction fuel as [| fuel IH]; intros now current endDate acc; simpl.
  - keeps.
  - unfold hourStep, slotStep, isSlotBooked, countAt. keeps.
Qed.

Lemma keeps_getAvailableSlots (env : Env) (grade : string) :
  keepsFlags (getAvailableSlots env grade).
Proof. unfold getAvailableSlots. apply keeps_dayLoop. Qed.

Lemma keeps_checkExistingAppointment (env : Env) (studentId : SqlVal) :
  keepsFlags (checkExistingAppointment env studentId).
Proof. unfold checkExistingAppointment. keeps. Qed.

Lemma keeps_getAllFutureAppointments (env : Env) (studentId : SqlVal) :
  keepsFlags (getAllFutureAppointments env studentId).
Proof. unfold getAllFutureAppointments. keeps. Qed.

Lemma keeps_getUserInfo (env : Env) (userPhone : string) :
  keepsFlags (getUserInfo env userPhone).
Proof. unfold getUserInfo. keeps. Qed.

#[local] Hint Resolve keeps_sendPrompt keeps_saveAppointment keeps_getAvailableSlots
  keeps_checkExistingAppointment keeps_getAllFutureAppointments keeps_getUserInfo
  : keeps.

Lemma keeps_dispatch (env : Env) (st userId userMessage : string) (session : loc) :
  keepsFlags (dispatch env st userId userMessage session).
Proof.
  unfold dispatch.
  repeat match goal with
         | |- keepsFlags ((if ?c then _ else _) _ _ _) => destruct c
         end.
  - unfold handleConfirmBookAnotherAppointment, resumeFromExistingData,
      selectUnenrolledByMobile. keeps.
  - unfold handleConfirmExistingData. keeps.
  - unfold handleFieldCollection. keeps.
  - unfold handleCheckExistingAppointment, resumeFromExistingData,
      selectUnenrolledByMobile. keeps.
  - unfold handleAdmissionConfirm, persistAdmission. keeps.
  - unfold handleChooseDetailToChange. keeps.
  - unfold handleUpdateDetail. keeps.
  - unfold handleMeetingOffer. keeps.
  - unfold handleMeetingShowSlots. keeps.
  - unfold handleConfirmReplaceAppointment, getProperty. keeps.
  - unfold handleAwaitingContinue, handleOtherIntent, findStudentId, admissionChecks,
      selectStudentIdByMobile, selectUnenrolledById, promptFor. keeps.
  - unfold handleDefault, handleOtherIntent. keeps.
Qed.

Lemma keeps_handleSession (env : Env) (userId userMessage : string) (session : loc) :
  keepsFlags (handleSession env userId userMessage session).
Proof. unfold handleSession. keeps; apply keeps_dispatch. Qed.

#[local] Hint Resolve keeps_handleSession : keeps.

Lemma keeps_onMessage (env : Env) (msg : Message) : keepsFlags (onMessage env msg).
Proof.
  unfold onMessage, isRateLimited, saveUserMessage, logInteraction, route,
    handleWithoutSession, startAdmissionFlow, findStudentId, admissionChecks,
    selectStudentIdByMobile, selectUnenrolledById, promptFor.
  keeps.
Qed.

Lemma reachable_flagsDown (w : World) : reachable w -> flagsDown w.
Proof.
  induction 1 as [database | env msg w _ IH].
  - intros l s. simpl. rewrite lookup_empty. discriminate.
  - apply keeps_onMessage, IH.
Qed.

(** Hence the exit keyword deletes every session that the controller
    itself has created. *)
Lemma exit_deletes_reachable_session (env : Env) (w : World)
    (userId userMessage : string) (session : loc) (s : Session) :
  reachable w ->
  heap w !! session = Some s ->
  toLowerCase userMessage = "exit" ->
  handleSession env userId userMessage session w
  = (Normal tt,
     with_outbox (fun o => (o ++ [(userId, cancellationText)])%list)
       (with_userSessions (delete userId) w)).
Proof.
  intros Hw Hs Hx.
  apply (handleSession_exit env w userId userMessage session s Hs); [| exact Hx].
  apply (reachable_flagsDown w Hw session s Hs).
Qed.

(** The same at the main message handler: in a world that the
    controller has reached, a message whose sanitized body is the exit
    keyword, from a user with an active session, neither older than the
    bot nor rate limited, is answered by the cancellation acknowledgment
    alone and removes the session of its sender from the session store;
    no session object and no admission, contact, appointment or guardian
    record changes. *)
Lemma onMessage_exit (env : Env) (w : World) (msg : Message)
    (session : loc) (s : Session) :
  reachable w ->
  userSessions w !! from msg = Some session ->
  heap w !! session = Some s ->
  state s <> "" ->
  (timestamp msg * 1000 <? botStartTime env) = false ->
  fst (isRateLimited env (from msg) w) = Normal false ->
  toLowerCase (sanitizeInput (body msg)) = "exit" ->
  let w' := snd (onMessage env msg w) in
  outbox w' = (outbox w ++ [(from msg, cancellationText)])%list
  /\ userSessions w' = delete (from msg) (userSessions w)
  /\ heap w' = heap w
  /\ appointments (db w') = appointments (db w)
  /\ student (db w') = student (db w)
  /\ studentcontactinfo (db w') = studentcontactinfo (db w)
  /\ guardian (db w') = guardian (db w).
Proof.
  intros Hw Hu Hs Hst Hold Hrate Hx.
  pose proof (reachable_flagsDown w Hw session s Hs) as Hd.
  unfold onMessage, tryCatch. rewrite Hold.
  unfold isRateLimited in *. unfold mbind, M_bind, getWorld in *. simpl in Hrate |- *.
  destruct (100 <=? _) eqn:E; [discriminate |]. clear Hrate.
  unfold modifyWorld, mret, M_ret. simpl.
  unfold saveUserMessage, tryCatch, execute, logInteraction, modifyWorld, route,
    sessionsGet, getWorld, readSession, mbind, M_bind, mret, M_ret, handleSession,
    sessionsDelete, sendMessage, modifyWorld.
  apply String.eqb_neq in Hst.
  destruct (fault env InsertUserMessage); simpl; rewrite Hu; simpl; rewrite Hs; simpl;
    rewrite Hst; simpl;
    (erewrite bind_normal by (apply readSession_eq; exact Hs));
    rewrite Hd, Hx; simpl; repeat split.
Qed.

(** C4.  For every session that the controller holds, in any state, a
    message equal to the keyword exit up to case deletes the session
    from the session store and sends the cancellation acknowledgment,
    whatever the state; nothing else changes, no handler of the state
    runs.  The next message of the user is then handled as the message
    of a user without a session: it starts a fresh flow.  The worlds are
    those that the main message handler reaches from an empty session
    store; in them the first global rule, which answers a session with
    [intentDisabled = true] before the keyword is looked at, never
    applies, since no handler raises that flag. *)
Theorem exit_deletes_session (env : Env) (w : World) (userId userMessage : string)
    (session : loc) (s : Session) :
  reachable w ->
  heap w !! session = Some s ->
  toLowerCase userMessage = "exit" ->
  let '(completion, w') := handleSession env userId userMessage session w in
  completion = Normal tt
  /\ userSessions w' = delete userId (userSessions w)
  /\ userSessions w' !! userId = None
  /\ outbox w' = (outbox w ++ [(userId, cancellationText)])%list
  /\ heap w' = heap w
  /\ db w' = db w
  /\ forall (env' : Env) (next : string),
       route env' userId next w'
       = handleWithoutSession env' userId next (determineIntent env' next "") w'.
Proof.
  intros Hw Hs Hx.
  pose proof (reachable_flagsDown w Hw session s Hs) as Hd.
  rewrite (handleSession_exit env w userId userMessage session s Hs Hd Hx).
  simpl. repeat split.
  - apply lookup_delete_eq.
  - intros env' next. unfold route, sessionsGet, getWorld, mbind, M_bind, mret, M_ret.
    simpl. rewrite lookup_delete_eq. reflexivity.
Qed.

(** The example: the applicant starts the admission flow, gives a name
    that the Oracle accepts, and types Exit when asked for the email. *)
Lemma exit_deletes_session_witness :
  let env := Examples.oracle "valid" "yes" "AdmissionFlow" Examples.saturdayNoon
                             Examples.noFaults in
  let w := Examples.afterMessages env
             [Examples.inbound "I want to apply"; Examples.inbound "John Smith"]
             (Examples.startWorld Examples.emptyDatabase) in
  let s := {| state := "admission_email"; previousState := None;
              intentDisabled := false; checkedExistingData := true;
              checkedExistingAppointment := true;
              data := {[ "displayname" := JStr "John Smith" ]} |} in
  reachable w
  /\ heap w !! 1%positive = Some s
  /\ userSessions w !! Examples.user = Some 1%positive
  /\ toLowerCase "Exit" = "exit"
  /\ let '(completion, w') := handleSession env Examples.user "Exit" 1%positive w in
     completion = Normal tt
     /\ userSessions w' = delete Examples.user (userSessions w)
     /\ userSessions w' !! Examples.user = None
     /\ outbox w' = (outbox w ++ [(Examples.user, cancellationText)])%list
     /\ heap w' = heap w
     /\ db w' = db w
     /\ forall (env' : Env) (next : string),
          route env' Examples.user next w'
          = handleWithoutSession env' Examples.user next (determineIntent env' next "") w'.
Proof.
  intros env w s.
  assert (H1 : reachable w).
  { exact (reachable_message env (Examples.inbound "John Smith") _
             (reachable_message env (Examples.inbound "I want to apply") _
                (reachable_start Examples.emptyDatabase))). }
  assert (H2 : heap w !! 1%positive = Some s) by (vm_compute; reflexivity).
  assert (H3 : userSessions w !! Examples.user = Some 1%positive)
    by (vm_compute; reflexivity).
  assert (H4 : toLowerCase "Exit" = "exit") by reflexivity.
  split; [exact H1 |]. split; [exact H2 |]. split; [exact H3 |]. split; [exact H4 |].
  exact (exit_deletes_session env w Examples.user "Exit" 1%positive s H1 H2 H4).
Defined.

(** ** The main message handler and a completed session *)

(** A message for a session with [intentDisabled = true], seen from the
    main message handler: when the message is neither older than the
    bot nor rate limited, the only reply is the completion
    acknowledgment, and the session objects, the session store and the
    admission, contact, appointment and guardian records are unchanged.
    What the main handler writes before it calls [handleSession] is its
    log of inbound messages and its rate-limit count. *)
Lemma onMessage_intentDisabled (env : Env) (w : World) (msg : Message)
    (session : loc) (s : Session) :
  userSessions w !! from msg = Some session ->
  heap w !! session = Some s ->
  intentDisabled s = true ->
  state s <> "" ->
  (timestamp msg * 1000 <? botStartTime env) = false ->
  fst (isRateLimited env (from msg) w) = Normal false ->
  let w' := snd (onMessage env msg w) in
  outbox w' = (outbox w ++ [(from msg, completionText)])%list
  /\ heap w' = heap w
  /\ userSessions w' = userSessions w
  /\ appointments (db w') = appointments (db w)
  /\ student (db w') = student (db w)
  /\ studentcontactinfo (db w') = studentcontactinfo (db w)
  /\ guardian (db w') = guardian (db w).
Proof.
  intros Hu Hs Hd Hst Hold Hrate.
  unfold onMessage, tryCatch. rewrite Hold.
  unfold isRateLimited in *. unfold mbind, M_bind, getWorld in *. simpl in Hrate |- *.
  destruct (100 <=? _) eqn:E; [discriminate |]. clear Hrate.
  unfold modifyWorld, mret, M_ret. simpl.
  unfold saveUserMessage, tryCatch, execute, logInteraction, modifyWorld, route,
    sessionsGet, getWorld, readSession, mbind, M_bind, mret, M_ret, handleSession,
    sendMessage, modifyWorld.
  apply String.eqb_neq in Hst.
  destruct (fault env InsertUserMessage); simpl; rewrite Hu; simpl; rewrite Hs; simpl;
    rewrite Hst; simpl;
    (erewrite bind_normal by (apply readSession_eq; exact Hs));
    rewrite Hd; simpl; repeat split.
Qed.

(* ===================================================================== *)
(** * Further properties of the code *)
(* ===================================================================== *)

(** ** The list of slots, whatever statements fail *)

Lemma slotStep_any (env : Env) (w : World) (now current hour minute : Z)
    (possibleSlots : list Slot) :
  slotStep env now current hour possibleSlots minute w
  = (Normal (possibleSlots
             ++ keptBy (checkedFree env (appointments (db w))) now
                  (atTimeOfDay current hour minute))%list,
     w).
Proof.
  unfold slotStep, keptBy, checkedFree, isSlotBooked, countAt, tryCatch, query,
    formatDateTimeMySql, isBookedAt, mkSlot.
  destruct (now <? atTimeOfDay current hour minute); simpl.
  - unfold mbind, M_bind, mret, M_ret.
    destruct (fault env _); simpl; [rewrite app_nil_r; reflexivity |].
    rewrite count_zero.
    destruct (existsb _ _); simpl; [rewrite app_nil_r |]; reflexivity.
  - rewrite app_nil_r. reflexivity.
Qed.

Lemma day_any (env : Env) (w : World) (now current : Z) (possibleSlots : list Slot) :
  foldM (hourStep env now current) hours possibleSlots w
  = (Normal (possibleSlots
             ++ flat_map (keptBy (checkedFree env (appointments (db w))) now)
                  (halfHourMarks current))%list,
     w).
Proof.
  rewrite (foldM_append (hourStep env now current)
             (fun hour => flat_map (keptBy (checkedFree env (appointments (db w))) now)
                            (List.map (fun minute => atTimeOfDay current hour minute) [0; 30]))).
  - unfold halfHourMarks, hours. change (15 - 8) with 7.
    rewrite flat_map_nested. reflexivity.
  - intros acc hour. unfold hourStep.
    rewrite (foldM_append (slotStep env now current hour)
               (fun minute => keptBy (checkedFree env (appointments (db w))) now
                                (atTimeOfDay current hour minute))).
    + unfold minutes. simpl. rewrite !app_nil_r. reflexivity.
    + intros acc' minute. apply slotStep_any.
Qed.

Lemma keptBy_filter (free : Z -> bool) (now : Z) (l : list Z) :
  flat_map (keptBy free now) l
  = List.map mkSlot (List.filter free (List.filter (fun t => now <? t) l)).
Proof.
  induction l as [| t l IH]; [reflexivity |].
  cbn [flat_map List.filter]. unfold keptBy at 1.
  destruct (now <? t); simpl; [| exact IH].
  destruct (free t); simpl; rewrite IH; reflexivity.
Qed.

Lemma dayKept_window (free : Z -> bool) (now : Z) (days : list Z) :
  flat_map (dayKept free now) days
  = List.map mkSlot
      (List.filter free
        (List.filter (fun t => now <? t)
          (flat_map halfHourMarks (List.filter isSundayToThursday days)))).
Proof.
  induction days as [| d days IH]; [reflexivity |].
  cbn [flat_map List.filter]. unfold dayKept at 1.
  destruct (isSundayToThursday d).
  - cbn [flat_map]. rewrite !List.filter_app, List.map_app, <- IH, keptBy_filter. reflexivity.
  - exact IH.
Qed.

Lemma dayLoop_any (env : Env) (w : World) (now endDate : Z) (k : nat) :
  forall (current : Z) (acc : list Slot) (fuel : nat),
    (forall i, (i < k)%nat -> current + Z.of_nat i * msPerDay < endDate) ->
    endDate <= current + Z.of_nat k * msPerDay ->
    (k < fuel)%nat ->
    dayLoop env fuel now current endDate acc w
    = (Normal (acc ++ flat_map (dayKept (checkedFree env (appointments (db w))) now)
                        (List.map (fun i => addDays current (Z.of_nat i)) (seq 0 k)))%list,
       w).
Proof.
  induction k as [| k IH]; intros current acc fuel Hlt Hge Hfuel.
  - destruct fuel as [| fuel]; [lia |]. simpl.
    destruct (Z.ltb_spec current endDate) as [H | _]; [lia |].
    rewrite app_nil_r. reflexivity.
  - destruct fuel as [| fuel]; [lia |]. cbn [dayLoop].
    destruct (Z.ltb_spec current endDate) as [_ | H];
      [| specialize (Hlt 0%nat ltac:(lia)); simpl in Hlt; lia].
    erewrite bind_normal.
    2: { instantiate (1 := w).
         instantiate (1 := (acc ++ dayKept (checkedFree env (appointments (db w))) now
                                     current)%list).
         unfold dayKept, isSundayToThursday.
         destruct ((0 <=? getDay current) && (getDay current <=? 4)).
         - apply day_any.
         - rewrite app_nil_r. reflexivity. }
    rewrite (IH (addDays current 1)
               (acc ++ dayKept (checkedFree env (appointments (db w))) now current)%list fuel).
    + assert (Hl : List.map (fun i => addDays current (Z.of_nat i)) (seq 0 (S k))
                   = current :: List.map (fun i => addDays (addDays current 1) (Z.of_nat i))
                                  (seq 0 k)).
      { cbn [seq List.map]. f_equal; [unfold addDays; lia |].
        rewrite <- seq_shift, List.map_map.
        apply List.map_ext. intros i. unfold addDays. lia. }
      rewrite Hl. cbn [flat_map]. rewrite <- app_assoc. reflexivity.
    + intros i Hi. specialize (Hlt (S i) ltac:(lia)). unfold addDays. lia.
    + unfold addDays. lia.
    + lia.
Qed.

(** The call returns the listed slots and leaves the world as it is,
    in every environment. *)
Lemma getAvailableSlots_listed (env : Env) (w : World) (grade : string) :
  getAvailableSlots env grade w
  = (Normal (listedSlots env (clock env) (appointments (db w))), w).
Proof.
  unfold getAvailableSlots, listedSlots.
  set (now := clock env).
  set (start := startOfDay (addDays now 1)).
  assert (Hs : start mod msPerDay = 0) by apply startOfDay_aligned.
  rewrite (startOfDay_of_aligned start Hs).
  assert (H3 : startOfDay (addDays start 3) = start + 3 * msPerDay).
  { apply startOfDay_of_aligned. unfold addDays.
    rewrite Z.mod_add by (unfold msPerDay; lia). exact Hs. }
  rewrite H3.
  assert (Hfuel : daysBetween start (start + 3 * msPerDay + (msPerDay - 1)) = 5%nat).
  { unfold daysBetween.
    replace (start + 3 * msPerDay + (msPerDay - 1) - start) with (4 * msPerDay - 1) by lia.
    reflexivity. }
  rewrite Hfuel.
  rewrite (dayLoop_any env w now _ 4 start [] 5).
  - rewrite app_nil_l, dayKept_window. reflexivity.
  - intros i Hi. unfold msPerDay. lia.
  - unfold msPerDay. simpl. lia.
  - lia.
Qed.

Lemma halfHourMarks_elements (day t : Z) :
  day mod msPerDay = 0 ->
  In t (halfHourMarks day) ->
  exists k, 16 <= k <= 29 /\ t = day + k * (30 * msPerMinute).
Proof.
  intros H. unfold halfHourMarks.
  change (seqZ 8 7) with [8; 9; 10; 11; 12; 13; 14].
  cbn [flat_map List.map app]. unfold atTimeOfDay.
  rewrite (startOfDay_of_aligned day H). unfold msPerHour, msPerMinute.
  intros Hin. cbn [In] in Hin.
  repeat (destruct Hin as [<- | Hin];
          [first [ exists 16; split; lia | exists 17; split; lia | exists 18; split; lia
                 | exists 19; split; lia | exists 20; split; lia | exists 21; split; lia
                 | exists 22; split; lia | exists 23; split; lia | exists 24; split; lia
                 | exists 25; split; lia | exists 26; split; lia | exists 27; split; lia
                 | exists 28; split; lia | exists 29; split; lia ] |]).
  destruct Hin.
Qed.

Lemma windowDays_elements (now d : Z) (n : nat) :
  In d (windowDays now n) ->
  d mod msPerDay = 0
  /\ exists i, 0 <= i < Z.of_nat n /\ d = startOfDay now + (i + 1) * msPerDay.
Proof.
  intros Hin. split.
  - pose proof (windowDays_aligned now n) as Ha.
    rewrite List.Forall_forall in Ha. apply Ha, Hin.
  - unfold windowDays in Hin. apply List.in_map_iff in Hin.
    destruct Hin as [k [<- Hk]]. apply List.in_seq in Hk.
    exists (Z.of_nat k). split; [lia |].
    unfold addDays, startOfDay. rewrite Z.mul_1_l.
    rewrite <- (Z.mul_1_l msPerDay) at 2. rewrite Z.mod_add by (unfold msPerDay; lia).
    lia.
Qed.

Lemma isBookedAt_false (rows : list Appointment) (t : Z) :
  isBookedAt rows t = false ->
  forall a, In a rows -> appdate a <> t / msPerSecond.
Proof.
  unfold isBookedAt. intros H a Ha E.
  assert (Ht : existsb (fun a => appdate a =? t / msPerSecond) rows = true).
  { apply existsb_exists. exists a. split; [exact Ha | apply Z.eqb_eq, E]. }
  congruence.
Qed.

Lemma listedSlots_offerable (env : Env) (now : Z) (rows : list Appointment) (s : Slot) :
  In s (listedSlots env now rows) ->
  exists t, slotDate s = ValidDate t /\ offerable now rows t.
Proof.
  unfold listedSlots. intros Hin.
  apply List.in_map_iff in Hin. destruct Hin as [t [<- Hin]].
  exists t. split; [reflexivity |].
  apply List.filter_In in Hin. destruct Hin as [Hin Hfree].
  apply List.filter_In in Hin. destruct Hin as [Hin Hnow].
  apply List.in_flat_map in Hin. destruct Hin as [d [Hd Hin]].
  apply List.filter_In in Hd. destruct Hd as [Hd Hday].
  apply windowDays_elements in Hd. destruct Hd as [Hal [i [Hi Hdi]]].
  destruct (halfHourMarks_elements d t Hal Hin) as [k [Hk Ht]].
  unfold checkedFree in Hfree. apply andb_true_iff in Hfree. destruct Hfree as [_ Hfree].
  apply negb_true_iff in Hfree.
  assert (Hdq : exists q, d = msPerDay * q).
  { apply Z.mod_divide in Hal; [| unfold msPerDay; lia]. destruct Hal as [q Hq].
    exists q. lia. }
  destruct Hdq as [q Hdq].
  assert (Hq : t / msPerDay = q).
  { symmetry. apply (Z.div_unique t msPerDay q (k * (30 * msPerMinute))).
    - unfold msPerDay, msPerMinute. lia.
    - rewrite Ht, Hdq. reflexivity. }
  assert (Hm : t mod msPerDay = k * (30 * msPerMinute)).
  { symmetry. apply (Z.mod_unique t msPerDay q (k * (30 * msPerMinute))).
    - unfold msPerDay, msPerMinute. lia.
    - rewrite Ht, Hdq. reflexivity. }
  assert (Hd' : d / msPerDay = q).
  { rewrite Hdq, Z.mul_comm. apply Z.div_mul. unfold msPerDay. lia. }
  unfold offerable. repeat split.
  - apply Z.ltb_lt, Hnow.
  - apply isBookedAt_false, Hfree.
  - unfold isSundayToThursday in Hday. apply andb_true_iff in Hday.
    unfold getDay in *. rewrite Hq, <- Hd'. apply Z.leb_le, Hday.
  - unfold isSundayToThursday in Hday. apply andb_true_iff in Hday.
    unfold getDay in *. rewrite Hq, <- Hd'. apply Z.leb_le, Hday.
  - rewrite Hm. unfold msPerHour, msPerMinute. lia.
  - rewrite Hm. unfold msPerHour, msPerMinute. lia.
  - apply Z.mod_divide; [unfold msPerMinute; lia |].
    exists (q * 48 + k). rewrite Ht, Hdq. unfold msPerDay, msPerMinute. lia.
  - unfold msPerDay, msPerMinute in *. lia.
  - unfold msPerDay, msPerMinute in *. lia.
Qed.

(** X1.  Whatever statements fail, [getAvailableSlots] returns a list
    and writes nothing, and every slot of the list is later than now,
    has no appointment at its second, falls on a day from Sunday to
    Thursday, at a half hour from 08:00 to 14:30, within the four days
    that start tomorrow. *)
Theorem getAvailableSlots_offers_free_future_slots (env : Env) (w : World)
    (grade : string) :
  exists slots,
    getAvailableSlots env grade w = (Normal slots, w)
    /\ Forall (fun s => exists t,
                 slotDate s = ValidDate t
                 /\ offerable (clock env) (appointments (db w)) t) slots.
Proof.
  eexists. split; [apply getAvailableSlots_listed |].
  apply List.Forall_forall. intros s Hs.
  apply (listedSlots_offerable env _ _ s Hs).
Qed.

(** The example of X2: the slots listed on Saturday noon while one
    appointment is booked are in chronological order. *)
Lemma getAvailableSlots_chronological_witness :
  let s := Examples.sessionIn "meeting_offer" {[ "studentId" := JNum 7 ]} in
  let w := Examples.worldOf Examples.user s Examples.oneBooking in
  let env := Examples.oracle "" "yes" "Unknown" Examples.saturdayNoon
                             Examples.noFaults in
  noFault env
  /\ exists slots,
       getAvailableSlots env "Grade 3" w = (Normal slots, w) /\ chronological slots.
Proof.
  intros s w env.
  assert (Hf : noFault env) by (intros st; reflexivity).
  split; [exact Hf |].
  exact (getAvailableSlots_chronological env w "Grade 3" Hf).
Defined.

(** X3.  When the direct check of every slot fails, no slot is offered:
    a slot whose check fails counts as booked. *)
Theorem getAvailableSlots_empty_when_checks_fail (env : Env) (w : World)
    (grade : string) :
  (forall at_, fault env (CountAppointmentsAt at_) = true) ->
  getAvailableSlots env grade w = (Normal [], w).
Proof.
  intros Hf. rewrite getAvailableSlots_listed. unfold listedSlots.
  replace (List.filter (checkedFree env (appointments (db w))) _) with (@nil Z);
    [reflexivity |].
  symmetry. induction (List.filter (fun t => clock env <? t) _) as [| t l IH];
    [reflexivity |].
  simpl. unfold checkedFree at 1. rewrite Hf. simpl. exact IH.
Qed.

Lemma getAvailableSlots_empty_when_checks_fail_witness :
  let s := Examples.sessionIn "meeting_offer" {[ "studentId" := JNum 7 ]} in
  let w := Examples.worldOf Examples.user s Examples.emptyDatabase in
  let env := Examples.oracle "" "yes" "Unknown" Examples.saturdayNoon
                             Examples.checksFail in
  (forall at_, fault env (CountAppointmentsAt at_) = true)
  /\ getAvailableSlots env "Grade 3" w = (Normal [], w).
Proof.
  intros s w env.
  assert (Hf : forall at_, fault env (CountAppointmentsAt at_) = true)
    by (intros at_; reflexivity).
  split; [exact Hf |].
  exact (getAvailableSlots_empty_when_checks_fail env w "Grade 3" Hf).
Defined.

(** ** Booking, in every environment *)

(** A call that returns true has inserted its row, whatever statements
    fail in the environment. *)
Lemma saveAppointment_true_inserts (env : Env) (w w' : World) (studentId : SqlVal)
    (slotDatetime : Date) (purpose type_ : string) (forgrade : SqlVal) :
  saveAppointment env studentId slotDatetime purpose type_ forgrade w = (Normal true, w') ->
  exists t,
    slotDatetime = ValidDate t
    /\ existsb (inWindow (t / msPerSecond)) (appointments (db w)) = false
    /\ w' = with_db (with_appointments (fun r =>
              (r ++ [bookedRowFor (appointments (db w)) studentId (t / msPerSecond)
                       purpose type_ forgrade])%list)) w.
Proof.
  intros H.
  destruct (fault env GetConnection) eqn:Hc.
  { unfold saveAppointment, getConnection, mbind, M_bind in H. rewrite Hc in H.
    discriminate. }
  destruct (fault env Rollback) eqn:Hr.
  - (* a failing rollback turns every refusal into an exception *)
    destruct slotDatetime as [t |].
    + exists t. split; [reflexivity |].
      pose proof (format_shift t (-1)) as Hm. pose proof (format_shift t 1) as Hp.
      change (-1 * 1000) with (-1000) in Hm. change (1 * 1000) with 1000 in Hp.
      unfold saveAppointment in H. rewrite Hm, Hp in H.
      unfold getConnection, tryFinally, tryCatch, beginTransaction, rollback,
        release, countBetween, selectMaxId, insertAppointment, commit, query, execute,
        throw, formatDateTimeMySql in H.
      unfold mbind, M_bind, mret, M_ret in H. rewrite Hc in H.
      destruct (fault env BeginTransaction); simpl in H;
        [rewrite Hr in H; discriminate |].
      destruct (fault env (CountAppointmentsBetween _ _)); simpl in H;
        [rewrite Hr in H; discriminate |].
      rewrite count_positive in H.
      change (fun a => (t / msPerSecond + -1 <=? appdate a)
                       && (appdate a <=? t / msPerSecond + 1))
        with (inWindow (t / msPerSecond)) in H.
      destruct (existsb (inWindow (t / msPerSecond)) (appointments (db w))); simpl in H;
        [rewrite Hr in H; discriminate |].
      destruct (fault env SelectMaxAppointmentId); simpl in H;
        [rewrite Hr in H; discriminate |].
      destruct (fault env InsertAppointment); simpl in H;
        [rewrite Hr in H; discriminate |].
      destruct (fault env Commit); simpl in H;
        [rewrite Hr in H; discriminate |].
      split; [reflexivity |].
      injection H as <-. unfold bookedRowFor. rewrite nextId_plus_one. reflexivity.
    + unfold saveAppointment, getConnection, tryFinally, tryCatch, beginTransaction,
        rollback, release, countBetween, throw, mbind, M_bind, mret, M_ret in H.
      simpl in H. rewrite Hc in H.
      destruct (fault env BeginTransaction); simpl in H; rewrite Hr in H; discriminate.
  - destruct slotDatetime as [t |].
    + exists t. split; [reflexivity |].
      rewrite (saveAppointment_valid env w studentId t purpose type_ forgrade Hc Hr) in H.
      destruct (existsb (inWindow (t / msPerSecond)) (appointments (db w))); simpl in H;
        [discriminate |].
      destruct (bookingStatementsFail env (t / msPerSecond)); [discriminate |].
      split; [reflexivity |]. injection H as <-. reflexivity.
    + unfold saveAppointment, getConnection, tryFinally, tryCatch, beginTransaction,
        rollback, release, countBetween, throw, mbind, M_bind, mret, M_ret in H.
      simpl in H. rewrite Hc in H.
      destruct (fault env BeginTransaction); simpl in H; rewrite Hr in H; discriminate.
Qed.

(** A call that does not return true leaves the world as it was. *)
Lemma saveAppointment_otherwise_same (env : Env) (w : World) (studentId : SqlVal)
    (slotDatetime : Date) (purpose type_ : string) (forgrade : SqlVal) :
  fst (saveAppointment env studentId slotDatetime purpose type_ forgrade w) <> Normal true ->
  snd (saveAppointment env studentId slotDatetime purpose type_ forgrade w) = w.
Proof.
  destruct slotDatetime as [t |].
  - pose proof (format_shift t (-1)) as Hm. pose proof (format_shift t 1) as Hp.
    change (-1 * 1000) with (-1000) in Hm. change (1 * 1000) with 1000 in Hp.
    unfold saveAppointment. rewrite Hm, Hp.
    unfold getConnection, tryFinally, tryCatch, beginTransaction, rollback,
      release, countBetween, selectMaxId, insertAppointment, commit, query, execute,
      throw, formatDateTimeMySql.
    unfold mbind, M_bind, mret, M_ret.
    destruct (fault env GetConnection); [reflexivity |].
    destruct (fault env BeginTransaction); simpl;
      [destruct (fault env Rollback); simpl; intros _;
       destruct w as [us h r [a s c g u] o l]; reflexivity |].
    destruct (fault env (CountAppointmentsBetween _ _)); simpl;
      [destruct (fault env Rollback); simpl; intros _;
       destruct w as [us h r [a s c g u] o l]; reflexivity |].
    destruct (0 <? _); simpl;
      [destruct (fault env Rollback); simpl; intros _;
       destruct w as [us h r [a s c g u] o l]; reflexivity |].
    destruct (fault env SelectMaxAppointmentId); simpl;
      [destruct (fault env Rollback); simpl; intros _;
       destruct w as [us h r [a s c g u] o l]; reflexivity |].
    destruct (fault env InsertAppointment); simpl;
      [destruct (fault env Rollback); simpl; intros _;
       destruct w as [us h r [a s c g u] o l]; reflexivity |].
    destruct (fault env Commit); simpl.
    + destruct (fault env Rollback); simpl; intros _;
        destruct w as [us h r [a s c g u] o l]; reflexivity.
    + intros H. exfalso. apply H. reflexivity.
  - unfold saveAppointment, getConnection, tryFinally, tryCatch, beginTransaction,
      rollback, release, countBetween, throw, mbind, M_bind, mret, M_ret.
    simpl. destruct (fault env GetConnection); [reflexivity |].
    destruct (fault env BeginTransaction); simpl;
      destruct (fault env Rollback); simpl; intros _;
      destruct w as [us h r [a s c g u] o l]; reflexivity.
Qed.

(** X4.  In every environment a call of [saveAppointment] either returns
    true and has appended exactly one row, for that student, at the
    second of slotDatetime, with an identifier greater than every
    identifier of the table; or it does not return true (it returns false
    or raises) and the world is as it was: nothing is written in part. *)
Theorem saveAppointment_all_or_nothing (env : Env) (w : World) (studentId : SqlVal)
    (slotDatetime : Date) (purpose type_ : string) (forgrade : SqlVal) :
  let '(completion, w') :=
    saveAppointment env studentId slotDatetime purpose type_ forgrade w in
  (completion = Normal true
   /\ exists row,
        appointments (db w') = (appointments (db w) ++ [row])%list
        /\ app_student_id row = studentId
        /\ formatDateTimeMySql slotDatetime = Some (appdate row)
        /\ Forall (fun a => app_id a < app_id row) (appointments (db w)))
  \/ (completion <> Normal true /\ w' = w).
Proof.
  destruct (saveAppointment env studentId slotDatetime purpose type_ forgrade w)
    as [completion w'] eqn:E.
  destruct completion as [[|] | e].
  - left. split; [reflexivity |].
    apply saveAppointment_true_inserts in E. destruct E as [t [-> [_ ->]]].
    eexists. split; [reflexivity |]. split; [reflexivity |]. split; [reflexivity |].
    apply List.Forall_forall. intros a Ha. simpl.
    destruct (maxOf (List.map app_id (appointments (db w)))) as [m |] eqn:Em.
    + apply maxOf_greatest in Em. destruct Em as [_ Hle].
      specialize (Hle (app_id a) (List.in_map app_id _ _ Ha)). lia.
    + destruct (appointments (db w)); [destruct Ha | discriminate].
  - right. split; [discriminate |].
    pose proof (saveAppointment_otherwise_same env w studentId slotDatetime purpose
                  type_ forgrade) as H.
    rewrite E in H. apply H. simpl. discriminate.
  - right. split; [discriminate |].
    pose proof (saveAppointment_otherwise_same env w studentId slotDatetime purpose
                  type_ forgrade) as H.
    rewrite E in H. apply H. simpl. discriminate.
Qed.

(** X5.  After a booking that returned true, no list of available
    slots, in whatever environment it is computed, holds a slot in the
    booked second. *)
Theorem booked_slot_is_not_offered (env env' : Env) (w w' : World) (studentId : SqlVal)
    (t : Z) (purpose type_ grade : string) (forgrade : SqlVal) :
  saveAppointment env studentId (ValidDate t) purpose type_ forgrade w = (Normal true, w') ->
  exists slots,
    getAvailableSlots env' grade w' = (Normal slots, w')
    /\ forall u, u / msPerSecond = t / msPerSecond ->
                 ~ In {| slotDate := ValidDate u |} slots.
Proof.
  intros H. apply saveAppointment_true_inserts in H.
  destruct H as [t' [E [_ Hw]]]. injection E as <-.
  eexists. split; [apply getAvailableSlots_listed |].
  intros u Hu Hin.
  destruct (listedSlots_offerable env' _ _ _ Hin) as [u' [E [_ [Hfree _]]]].
  simpl in E. injection E as <-.
  apply (Hfree (bookedRowFor (appointments (db w)) studentId (t / msPerSecond)
                  purpose type_ forgrade)).
  - rewrite Hw. simpl. apply in_or_app. right. left. reflexivity.
  - simpl. symmetry. exact Hu.
Qed.

Lemma booked_slot_is_not_offered_witness :
  let s := Examples.sessionIn "meeting_show_slots" {[ "studentId" := JNum 7 ]} in
  let w := Examples.worldOf Examples.user s Examples.oneBooking in
  let env := Examples.oracle "" "yes" "Unknown" Examples.saturdayNoon
                             Examples.noFaults in
  let w' := snd (saveAppointment env (SInt 7) (ValidDate Examples.tuesdayTen)
                   "Admission Inquiry" "Admission" (SInt 3) w) in
  saveAppointment env (SInt 7) (ValidDate Examples.tuesdayTen)
    "Admission Inquiry" "Admission" (SInt 3) w = (Normal true, w')
  /\ exists slots,
       getAvailableSlots env "Grade 3" w' = (Normal slots, w')
       /\ forall u, u / msPerSecond = Examples.tuesdayTen / msPerSecond ->
                    ~ In {| slotDate := ValidDate u |} slots.
Proof.
  intros s w env w'.
  assert (H : saveAppointment env (SInt 7) (ValidDate Examples.tuesdayTen)
                "Admission Inquiry" "Admission" (SInt 3) w = (Normal true, w'))
    by reflexivity.
  split; [exact H |].
  exact (booked_slot_is_not_offered env env w w' (SInt 7) Examples.tuesdayTen
           "Admission Inquiry" "Admission" "Grade 3" (SInt 3) H).
Defined.

(** ** Future appointments *)

Lemma insertByAppdate_perm (a : Appointment) (l : list Appointment) :
  Permutation (insertByAppdate a l) (a :: l).
Proof.
  induction l as [| b l IH]; [reflexivity |]. simpl.
  destruct (appdate a <=? appdate b); [reflexivity |].
  rewrite IH. apply perm_swap.
Qed.

Lemma orderByAppdate_perm (l : list Appointment) : Permutation (orderByAppdate l) l.
Proof.
  induction l as [| a l IH]; [reflexivity |].
  unfold orderByAppdate in *. simpl. rewrite insertByAppdate_perm.
  apply perm_skip, IH.
Qed.

Lemma insertByAppdate_sorted (a : Appointment) (l : list Appointment) :
  StronglySorted notLater l -> StronglySorted notLater (insertByAppdate a l).
Proof.
  induction 1 as [| b l Hs IH Hall]; simpl.
  - constructor; constructor.
  - destruct (Z.leb_spec (appdate a) (appdate b)) as [Hle | Hgt].
    + constructor; [constructor; assumption |].
      constructor; [exact Hle |].
      rewrite List.Forall_forall in *. intros x Hx. specialize (Hall x Hx).
      unfold notLater in *. lia.
    + constructor; [exact IH |].
      rewrite List.Forall_forall in *. intros x Hx.
      apply (Permutation_in _ (insertByAppdate_perm a l)) in Hx.
      destruct Hx as [<- | Hx]; [unfold notLater; lia | apply Hall, Hx].
Qed.

Lemma orderByAppdate_sorted (l : list Appointment) :
  StronglySorted notLater (orderByAppdate l).
Proof.
  induction l as [| a l IH]; [constructor |].
  unfold orderByAppdate in *. simpl. apply insertByAppdate_sorted, IH.
Qed.

(** The first row of the ordered list is a row of the list that no
    other row precedes. *)
Lemma orderByAppdate_head (rows : list Appointment) :
  match head (orderByAppdate rows) with
  | Some a => In a rows /\ forall b, In b rows -> appdate a <= appdate b
  | None => rows = []
  end.
Proof.
  pose proof (orderByAppdate_perm rows) as Hp.
  pose proof (orderByAppdate_sorted rows) as Hs.
  destruct (orderByAppdate rows) as [| a rest]; simpl.
  - apply Permutation_nil. exact Hp.
  - split.
    + apply (Permutation_in _ Hp). left. reflexivity.
    + intros b Hb.
      assert (Hin : In b (a :: rest)) by apply (Permutation_in _ (Permutation_sym Hp)), Hb.
      destruct Hin as [<- | Hin]; [lia |].
      apply StronglySorted_inv in Hs. destruct Hs as [_ Hall].
      rewrite List.Forall_forall in Hall. apply (Hall b Hin).
Qed.

(** [checkExistingAppointment] as an equation: the first of the ordered
    upcoming rows of the student, null when the query fails. *)
Lemma checkExistingAppointment_first (env : Env) (w : World) (studentId : SqlVal) :
  checkExistingAppointment env studentId w
  = (Normal (if fault env SelectNextAppointment then None
             else head (orderByAppdate
                          (List.filter (upcoming env studentId) (appointments (db w))))),
     w).
Proof.
  unfold checkExistingAppointment, tryCatch, query, mbind, M_bind, mret, M_ret.
  destruct (fault env SelectNextAppointment); [reflexivity |].
  unfold futureOf. fold (upcoming env studentId).
  destruct (orderByAppdate _); reflexivity.
Qed.

(** X6.  [getAllFutureAppointments] never raises and writes nothing.
    When its query fails it returns the empty list; otherwise it returns
    the rows of the student whose appdate is not before NOW(), each once,
    the earliest first. *)
Theorem getAllFutureAppointments_in_order (env : Env) (w : World) (studentId : SqlVal) :
  exists rows,
    getAllFutureAppointments env studentId w = (Normal rows, w)
    /\ if fault env SelectFutureAppointments then rows = []
       else Permutation rows (List.filter (upcoming env studentId) (appointments (db w)))
            /\ StronglySorted notLater rows.
Proof.
  unfold getAllFutureAppointments, tryCatch, query.
  destruct (fault env SelectFutureAppointments).
  - exists []. split; reflexivity.
  - eexists. split; [reflexivity |]. unfold futureOf. split.
    + apply orderByAppdate_perm.
    + apply orderByAppdate_sorted.
Qed.

(** X7.  [checkExistingAppointment] never raises and writes nothing.
    When its query fails it returns null; otherwise it returns a row of
    the student that is not before NOW() and that no other such row
    precedes, and null exactly when the student has no such row. *)
Theorem checkExistingAppointment_earliest (env : Env) (w : World) (studentId : SqlVal) :
  exists found,
    checkExistingAppointment env studentId w = (Normal found, w)
    /\ if fault env SelectNextAppointment then found = None
       else match found with
            | Some a =>
                In a (appointments (db w))
                /\ upcoming env studentId a = true
                /\ forall b, In b (appointments (db w)) ->
                             upcoming env studentId b = true -> appdate a <= appdate b
            | None =>
                forall b, In b (appointments (db w)) -> upcoming env studentId b = false
            end.
Proof.
  eexists. split; [apply checkExistingAppointment_first |].
  destruct (fault env SelectNextAppointment); [reflexivity |].
  pose proof (orderByAppdate_head
                (List.filter (upcoming env studentId) (appointments (db w)))) as H.
  destruct (head (orderByAppdate _)) as [a |].
  - destruct H as [Ha Hle]. apply List.filter_In in Ha. destruct Ha as [Ha Hu].
    split; [exact Ha |]. split; [exact Hu |].
    intros b Hb Hub. apply Hle, List.filter_In. split; assumption.
  - intros b Hb. destruct (upcoming env studentId b) eqn:Hu; [| reflexivity].
    exfalso. assert (Hin : In b (List.filter (upcoming env studentId) (appointments (db w))))
      by (apply List.filter_In; split; assumption).
    rewrite H in Hin. destruct Hin.
Qed.

(** X8.  A booking that returned true is found again: for a student
    identifier that is not NULL and a slot that is not before NOW(),
    [checkExistingAppointment] then returns an appointment of a student,
    not later than the booked second. *)
Theorem booked_appointment_is_found (env env' : Env) (w w' : World) (studentId : SqlVal)
    (t : Z) (purpose type_ : string) (forgrade : SqlVal) :
  saveAppointment env studentId (ValidDate t) purpose type_ forgrade w = (Normal true, w') ->
  studentId <> SNull ->
  sqlNow env' <= t / msPerSecond ->
  fault env' SelectNextAppointment = false ->
  exists a,
    checkExistingAppointment env' studentId w' = (Normal (Some a), w')
    /\ sqlEq (app_student_id a) studentId = true
    /\ appdate a <= t / msPerSecond.
Proof.
  intros H Hsid Hnow Hf.
  apply saveAppointment_true_inserts in H. destruct H as [t' [E [_ Hw]]].
  injection E as <-.
  rewrite checkExistingAppointment_first, Hf.
  set (row := bookedRowFor (appointments (db w)) studentId (t / msPerSecond)
                purpose type_ forgrade) in *.
  assert (Hu : upcoming env' studentId row = true).
  { unfold upcoming. simpl. apply andb_true_iff. split; [| apply Z.leb_le, Hnow].
    destruct studentId as [| n | s]; [congruence | simpl; apply Z.eqb_refl
                                     | simpl; apply String.eqb_refl]. }
  assert (Hin : In row (List.filter (upcoming env' studentId) (appointments (db w')))).
  { apply List.filter_In. split; [| exact Hu].
    rewrite Hw. simpl. apply in_or_app. right. left. reflexivity. }
  pose proof (orderByAppdate_head
                (List.filter (upcoming env' studentId) (appointments (db w')))) as H.
  destruct (head (orderByAppdate _)) as [a |].
  - exists a. split; [reflexivity |]. destruct H as [Ha Hle].
    apply List.filter_In in Ha. destruct Ha as [_ Hua]. split.
    + unfold upcoming in Hua. apply andb_true_iff in Hua. apply Hua.
    + apply (Hle row Hin).
  - rewrite H in Hin. destruct Hin.
Qed.

Lemma booked_appointment_is_found_witness :
  let s := Examples.sessionIn "meeting_show_slots" {[ "studentId" := JNum 7 ]} in
  let w := Examples.worldOf Examples.user s Examples.emptyDatabase in
  let env := Examples.oracle "" "yes" "Unknown" Examples.saturdayNoon
                             Examples.noFaults in
  let w' := snd (saveAppointment env (SInt 7) (ValidDate Examples.tuesdayTen)
                   "Admission Inquiry" "Admission" (SInt 3) w) in
  saveAppointment env (SInt 7) (ValidDate Examples.tuesdayTen)
    "Admission Inquiry" "Admission" (SInt 3) w = (Normal true, w')
  /\ SInt 7 <> SNull
  /\ sqlNow env <= Examples.tuesdayTen / msPerSecond
  /\ fault env SelectNextAppointment = false
  /\ exists a,
       checkExistingAppointment env (SInt 7) w' = (Normal (Some a), w')
       /\ sqlEq (app_student_id a) (SInt 7) = true
       /\ appdate a <= Examples.tuesdayTen / msPerSecond.
Proof.
  intros s w env w'.
  assert (H1 : saveAppointment env (SInt 7) (ValidDate Examples.tuesdayTen)
                 "Admission Inquiry" "Admission" (SInt 3) w = (Normal true, w'))
    by reflexivity.
  assert (H2 : SInt 7 <> SNull) by discriminate.
  assert (H3 : sqlNow env <= Examples.tuesdayTen / msPerSecond)
    by (vm_compute; discriminate).
  assert (H4 : fault env SelectNextAppointment = false) by reflexivity.
  split; [exact H1 |].
  split; [exact H2 |].
  split; [exact H3 |].
  split; [exact H4 |].
  exact (booked_appointment_is_found env env w w' (SInt 7) Examples.tuesdayTen
           "Admission Inquiry" "Admission" (SInt 3) H1 H2 H3 H4).
Defined.

(** ** Offering and choosing a slot *)


Lemma meeting_show_slots_dispatch (env : Env) :
  dispatch env "meeting_show_slots" = handleMeetingShowSlots env.
Proof. reflexivity. Qed.

Lemma checkExistingAppointment_run (env : Env) (w : World) (studentId : SqlVal) :
  checkExistingAppointment env studentId w
  = (fst (checkExistingAppointment env studentId w), w).
Proof.
  rewrite checkExistingAppointment_first. reflexivity.
Qed.



(** X10.  In state meeting_show_slots a reply that is not the number of
    a listed slot (no number at all, a number below 1 or above the
    length of the list) is answered with the refusal and the list
    again; the session, the session store and the database are
    unchanged. *)
Theorem invalid_slot_choice_relists (env : Env) (w : World)
    (userId userMessage : string) (session : loc) (s : Session) :
  heap w !! session = Some s ->
  intentDisabled s = false ->
  notExit userMessage ->
  state s = "meeting_show_slots" ->
  let slots := listedSlots env (clock env) (appointments (db w)) in
  notASlotNumber userMessage slots ->
  handleSession env userId userMessage session w
  = (Normal tt,
     with_outbox (fun o => (o ++ [(userId, invalidSlotText);
                                  (userId, relistText env slots)])%list) w).
Proof.
  intros Hs Hd Hx Hst slots Hn.
  rewrite (handleSession_dispatch env w userId userMessage session s Hs Hd Hx).
  rewrite Hst, meeting_show_slots_dispatch. unfold handleMeetingShowSlots.
  rewrite (bind_normal _ _ _ _ _ (readSession_eq _ _ _ Hs)).
  rewrite (bind_normal _ _ _ _ _ (getAvailableSlots_listed env w _)).
  fold slots. unfold notASlotNumber in Hn.
  assert (Hout : forall w0 : World,
            (sendMessage userId invalidSlotText;;
             sendMessage userId (relistText env slots)) w0
            = (Normal tt,
               with_outbox (fun o => (o ++ [(userId, invalidSlotText);
                                            (userId, relistText env slots)])%list) w0)).
  { intros w0. unfold sendMessage, modifyWorld, mbind, M_bind. simpl.
    rewrite with_outbox_app. reflexivity. }
  destruct (parseInt (trim userMessage)) as [n |]; [| apply Hout].
  replace ((n <=? 0) || (Z.of_nat (length slots) <? n)) with true; [apply Hout |].
  symmetry. apply orb_true_iff.
  destruct Hn as [Hn | Hn]; [left; apply Z.leb_le, Hn | right; apply Z.ltb_lt, Hn].
Qed.

(** The example of X10: 55 slots are listed, the user asks for slot 99. *)
Lemma invalid_slot_choice_relists_witness :
  let s := Examples.sessionIn "meeting_show_slots" {[ "studentId" := JNum 7 ]} in
  let w := Examples.worldOf Examples.user s Examples.oneBooking in
  let env := Examples.oracle "" "yes" "Unknown" Examples.saturdayNoon
                             Examples.noFaults in
  let slots := listedSlots env (clock env) (appointments (db w)) in
  heap w !! 1%positive = Some s
  /\ intentDisabled s = false
  /\ notExit " 99 "
  /\ state s = "meeting_show_slots"
  /\ length slots = 55%nat
  /\ notASlotNumber " 99 " slots
  /\ handleSession env Examples.user " 99 " 1%positive w
     = (Normal tt,
        with_outbox (fun o => (o ++ [(Examples.user, invalidSlotText);
                                     (Examples.user, relistText env slots)])%list) w).
Proof.
  intros s w env slots.
  assert (H1 : heap w !! 1%positive = Some s) by reflexivity.
  assert (H2 : intentDisabled s = false) by reflexivity.
  assert (H3 : notExit " 99 ") by (unfold notExit; vm_compute; discriminate).
  assert (H4 : state s = "meeting_show_slots") by reflexivity.
  assert (H5 : length slots = 55%nat) by (vm_compute; reflexivity).
  assert (H6 : notASlotNumber " 99 " slots) by (right; vm_compute; reflexivity).
  split; [exact H1 |].
  split; [exact H2 |].
  split; [exact H3 |].
  split; [exact H4 |].
  split; [exact H5 |].
  split; [exact H6 |].
  exact (invalid_slot_choice_relists env w Examples.user " 99 " 1%positive s
           H1 H2 H3 H4 H6).
Defined.

(** X11.  In state meeting_show_slots the number n of a listed slot,
    when no upcoming appointment is found under the phone number of the
    user, books the n-th slot of the list: provided the pool gives a
    connection and the rollback does not fail, either a row lies within
    one second of the slot or a statement of the booking fails, and then
    nothing is written, the user is told that the slot may have been
    taken and the session is deleted; or one row is appended at the
    second of that slot for [data.studentId] and [data.grade], the
    confirmation and the neutral prompt are sent, and the session moves
    to awaiting_continue without its [slotsList]. *)
Theorem chosen_slot_is_booked (env : Env) (w : World)
    (userId userMessage : string) (session : loc) (s : Session) (n t : Z) :
  heap w !! session = Some s ->
  intentDisabled s = false ->
  notExit userMessage ->
  state s = "meeting_show_slots" ->
  let rows := appointments (db w) in
  let second := t / msPerSecond in
  parseInt (trim userMessage) = Some n ->
  0 < n ->
  listedSlots env (clock env) rows !! Z.to_nat (n - 1) = Some (mkSlot t) ->
  fst (checkExistingAppointment env (SText (phoneOf userId)) w) = Normal None ->
  fault env GetConnection = false ->
  fault env Rollback = false ->
  let '(completion, w') := handleSession env userId userMessage session w in
  completion = Normal tt
  /\ if existsb (inWindow second) rows || bookingStatementsFail env second
     then db w' = db w
          /\ heap w' = heap w
          /\ userSessions w' = delete userId (userSessions w)
          /\ outbox w' = (outbox w ++ [(userId, slotTakenText)])%list
     else appointments (db w')
          = (rows ++ [bookedRowFor rows (toSql (data s !! "studentId")) second
                        "Admission Inquiry" "Admission" (toSql (data s !! "grade"))])%list
          /\ heap w' !! session
             = Some (delete_field "slotsList" (set_state "awaiting_continue" s))
          /\ userSessions w' !! userId = Some session
          /\ outbox w' = (outbox w ++ [(userId, scheduledText env (ValidDate t));
                                       (userId, "How can I help you today?")])%list.
Proof.
  intros Hs Hd Hx Hst rows second Hn Hpos Hslot Hex Hc Hr.
  rewrite (handleSession_dispatch env w userId userMessage session s Hs Hd Hx).
  rewrite Hst, meeting_show_slots_dispatch. unfold handleMeetingShowSlots.
  rewrite (bind_normal _ _ _ _ _ (readSession_eq _ _ _ Hs)).
  rewrite (bind_normal _ _ _ _ _ (getAvailableSlots_listed env w _)).
  fold rows. rewrite Hn.
  assert (Hlen : (n <=? 0) || (Z.of_nat (length (listedSlots env (clock env) rows)) <? n)
                 = false).
  { apply lookup_lt_Some in Hslot. apply orb_false_iff.
    split; [apply Z.leb_gt; lia | apply Z.ltb_ge; lia]. }
  rewrite Hlen, Hslot. cbn [slotDate mkSlot].
  erewrite bind_normal.
  2: { rewrite checkExistingAppointment_run, Hex. reflexivity. }
  unfold tryCatch.
  unfold mbind at 1, M_bind at 1.
  rewrite (saveAppointment_valid env w _ t "Admission Inquiry" "Admission" _ Hc Hr).
  fold rows. fold second.
  destruct (existsb (inWindow second) rows || bookingStatementsFail env second).
  - unfold sendMessage, sessionsDelete, modifyWorld, mbind, M_bind. simpl.
    repeat split.
  - unfold sendMessage, sendPrompt, sessionsSet, mutate, readSession, promptFor,
      modifyWorld, mbind, M_bind, mret, M_ret. simpl.
    rewrite !lookup_alter_eq, Hs. simpl.
    repeat split.
    + rewrite !lookup_alter_eq, Hs. reflexivity.
    + apply lookup_insert_eq.
    + rewrite <- app_assoc. reflexivity.
Qed.

(** The example of X11: student 7 chooses the first listed slot, Sunday
    at 08:00, which becomes the second row of the table. *)
Lemma chosen_slot_is_booked_witness :
  let s := Examples.sessionIn "meeting_show_slots"
             (<[ "grade" := JNum 3 ]> {[ "studentId" := JNum 7 ]}) in
  let w := Examples.worldOf Examples.user s Examples.oneBooking in
  let env := Examples.oracle "" "yes" "Unknown" Examples.saturdayNoon
                             Examples.noFaults in
  let t := Examples.sundayEight in
  heap w !! 1%positive = Some s
  /\ intentDisabled s = false
  /\ notExit "1"
  /\ state s = "meeting_show_slots"
  /\ parseInt (trim "1") = Some 1
  /\ 0 < 1
  /\ listedSlots env (clock env) (appointments (db w)) !! Z.to_nat (1 - 1) = Some (mkSlot t)
  /\ fst (checkExistingAppointment env (SText (phoneOf Examples.user)) w) = Normal None
  /\ fault env GetConnection = false
  /\ fault env Rollback = false
  /\ existsb (inWindow (t / msPerSecond)) (appointments (db w))
     || bookingStatementsFail env (t / msPerSecond) = false
  /\ let '(completion, w') := handleSession env Examples.user "1" 1%positive w in
     completion = Normal tt
     /\ appointments (db w')
        = [Examples.bookedRow;
           {| app_id := 2; app_student_id := SInt 7; appdate := t / msPerSecond;
              app_time := t / msPerSecond; app_purpose := "Admission Inquiry";
              app_host := "IvyBot"; app_type := "Admission"; app_forgrade := SInt 3 |}]
     /\ heap w' !! 1%positive
        = Some (delete_field "slotsList" (set_state "awaiting_continue" s))
     /\ userSessions w' !! Examples.user = Some 1%positive
     /\ outbox w' = (outbox w ++ [(Examples.user, scheduledText env (ValidDate t));
                                  (Examples.user, "How can I help you today?")])%list.
Proof.
  intros s w env t.
  assert (H1 : heap w !! 1%positive = Some s) by reflexivity.
  assert (H2 : intentDisabled s = false) by reflexivity.
  assert (H3 : notExit "1") by (unfold notExit; vm_compute; discriminate).
  assert (H4 : state s = "meeting_show_slots") by reflexivity.
  assert (H5 : parseInt (trim "1") = Some 1) by reflexivity.
  assert (H6 : 0 < 1) by reflexivity.
  assert (H7 : listedSlots env (clock env) (appointments (db w)) !! Z.to_nat (1 - 1)
               = Some (mkSlot t)) by (vm_compute; reflexivity).
  assert (H8 : fst (checkExistingAppointment env (SText (phoneOf Examples.user)) w)
               = Normal None) by (vm_compute; reflexivity).
  assert (H9 : fault env GetConnection = false) by reflexivity.
  assert (H10 : fault env Rollback = false) by reflexivity.
  assert (H11 : existsb (inWindow (t / msPerSecond)) (appointments (db w))
                || bookingStatementsFail env (t / msPerSecond) = false)
    by (vm_compute; reflexivity).
  split; [exact H1 |].
  split; [exact H2 |].
  split; [exact H3 |].
  split; [exact H4 |].
  split; [exact H5 |].
  split; [exact H6 |].
  split; [exact H7 |].
  split; [exact H8 |].
  split; [exact H9 |].
  split; [exact H10 |].
  split; [exact H11 |].
  pose proof (chosen_slot_is_booked env w Examples.user "1" 1%positive s 1 t
                H1 H2 H3 H4 H5 H6 H7 H8 H9 H10) as H.
  cbv zeta in H. rewrite H11 in H. exact H.
Defined.



(** ** The admission form, from the first field to the review *)

Lemma alter_known {A} (f : A -> A) (m : gmap loc A) (l : loc) (x : A) :
  m !! l = Some x -> alter f l m = <[l := f x]> m.
Proof.
  intros H. apply map_eq. intros k. destruct (decide (k = l)) as [-> | Hne].
  - rewrite lookup_alter_eq, lookup_insert_eq, H. reflexivity.
  - rewrite lookup_alter_ne, lookup_insert_ne by congruence. reflexivity.
Qed.

Lemma review_prompt_exists (d : gmap string JsVal) :
  exists review, getPromptForState "admission_confirm" d = Some review.
Proof.
  unfold getPromptForState. cbn [String.eqb Ascii.eqb Bool.eqb].
  destruct (_ && _); eexists; reflexivity.
Qed.

(** One accepted input of a field-collection state, as an equation. *)
Lemma accepted_once (env : Env) (w : World) (userId userMessage : string)
    (session : loc) (s : Session) (p : string) :
  heap w !! session = Some s ->
  intentDisabled s = false ->
  notExit userMessage ->
  In (state s) fieldStates ->
  let res := validateInput env (validationTypeOfState (state s)) userMessage in
  isValidValidation res = true ->
  let s' := set_state (nextStateOf (state s))
              (set_field (storeKeyMapping (validationTypeOfState (state s)))
                 (collectedValue (state s) res userMessage) s) in
  getPromptForState (state s') (data s') = Some p ->
  handleSession env userId userMessage session w
  = (Normal tt,
     with_outbox (fun o => (o ++ [(userId, p)])%list)
       (with_userSessions <[userId := session]>
          (with_heap <[session := s']> w))).
Proof.
  intros Hs Hd Hx Hst res Hv s' Hp.
  rewrite (handleSession_dispatch env w userId userMessage session s Hs Hd Hx).
  rewrite (field_state_dispatch env _ Hst).
  unfold handleFieldCollection.
  rewrite (bind_normal _ _ _ _ _ (readSession_eq _ _ _ Hs)).
  fold res. rewrite Hv.
  assert (Hh : forall v,
            alter (set_state (nextStateOf (state s))) session
              (alter (set_field (storeKeyMapping (validationTypeOfState (state s))) v)
                 session (heap w))
            = <[session := set_state (nextStateOf (state s))
                             (set_field (storeKeyMapping (validationTypeOfState (state s)))
                                v s)]> (heap w)).
  { intros v. apply map_eq. intros l. destruct (decide (l = session)) as [-> | Hne].
    - rewrite !lookup_alter_eq, lookup_insert_eq, Hs. reflexivity.
    - rewrite !lookup_alter_ne, lookup_insert_ne by congruence. reflexivity. }
  subst s'. unfold collectedValue in *.
  repeat (destruct Hst as [E | Hst]; [rewrite <- E in *; clear E |]); [.. | destruct Hst];
    cbn [validationTypeOfState storeKeyMapping String.eqb Ascii.eqb Bool.eqb orb] in *;
    unfold mutate, sessionsSet, sendPrompt, readSession, sendMessage,
      modifyWorld, mbind, M_bind, mret, M_ret;
    cbn -[getPromptForState nextStateOf] in Hp |- *;
    rewrite !lookup_alter_eq, Hs; cbn -[getPromptForState nextStateOf];
    unfold promptFor; rewrite Hp; cbn -[getPromptForState nextStateOf];
    unfold with_outbox, with_userSessions, with_heap;
    cbn -[getPromptForState nextStateOf]; rewrite Hh; reflexivity.
Qed.

Lemma accepted_step (env : Env) (w : World) (userId userMessage : string)
    (session : loc) (s : Session) (p : string) :
  heap w !! session = Some s ->
  intentDisabled s = false ->
  notExit userMessage ->
  In (state s) fieldStates ->
  let res := validateInput env (validationTypeOfState (state s)) userMessage in
  isValidValidation res = true ->
  let s' := set_state (nextStateOf (state s))
              (set_field (storeKeyMapping (validationTypeOfState (state s)))
                 (collectedValue (state s) res userMessage) s) in
  getPromptForState (state s') (data s') = Some p ->
  exists w',
    handleSession env userId userMessage session w = (Normal tt, w')
    /\ heap w' !! session = Some s'
    /\ userSessions w' !! userId = Some session
    /\ db w' = db w
    /\ outbox w' = (outbox w ++ [(userId, p)])%list.
Proof.
  intros Hs Hd Hx Hst res Hv s' Hp.
  eexists. split; [apply (accepted_once env w userId userMessage session s p); assumption |].
  simpl. repeat split; apply lookup_insert_eq.
Qed.

(** X13.  From state admission_displayname, five inputs that the Oracle
    accepts fill the form in the order name, email, grade, semester,
    referral: each is answered with the prompt of the next state, the
    name, the email and the referral are stored as the text read in the
    response of the Oracle, the grade and the semester as the first
    number of that text, and the session ends in admission_confirm with
    the review of the collected data as the last reply.  The database is
    not written. *)
Theorem five_accepted_answers_reach_review (env : Env) (w : World) (userId : string)
    (session : loc) (s : Session) (name email grade semester referral : string) :
  heap w !! session = Some s ->
  intentDisabled s = false ->
  state s = "admission_displayname" ->
  notExit name -> notExit email -> notExit grade -> notExit semester -> notExit referral ->
  let r1 := validateInput env "name" name in
  let r2 := validateInput env "email" email in
  let r3 := validateInput env "grade_level" grade in
  let r4 := validateInput env "semester" semester in
  let r5 := validateInput env "referral_source" referral in
  isValidValidation r1 = true -> isValidValidation r2 = true ->
  isValidValidation r3 = true -> isValidValidation r4 = true ->
  isValidValidation r5 = true ->
  let d := <["referral" := JStr (extractValue r5 referral)]>
           (<["semester" := firstNumber (extractValue r4 semester)]>
           (<["grade" := firstNumber (extractValue r3 grade)]>
           (<["email" := JStr (extractValue r2 email)]>
           (<["displayname" := JStr (extractValue r1 name)]> (data s))))) in
  exists review,
    getPromptForState "admission_confirm" d = Some review
    /\ let '(completion, w') :=
         handleAll env userId session [name; email; grade; semester; referral] w in
       completion = Normal tt
       /\ heap w' !! session = Some (set_data d (set_state "admission_confirm" s))
       /\ userSessions w' !! userId = Some session
       /\ db w' = db w
       /\ outbox w' = (outbox w ++ [(userId, emailPrompt); (userId, gradePrompt);
                                    (userId, semesterPrompt); (userId, referralPrompt);
                                    (userId, review)])%list.
Proof.
  intros Hs Hd Hst Hx1 Hx2 Hx3 Hx4 Hx5 r1 r2 r3 r4 r5 Hv1 Hv2 Hv3 Hv4 Hv5 d.
  destruct (review_prompt_exists d) as [review Hrev].
  exists review. split; [exact Hrev |].
  destruct s as [st prev dis ced cea dat]. simpl in Hd, Hst. subst st dis.
  unfold handleAll. cbn [foldM].
  destruct (accepted_step env w userId name session _ emailPrompt Hs eq_refl Hx1)
    as [w1 [E1 [H1 [_ [D1 O1]]]]];
    [simpl; tauto | exact Hv1 | reflexivity |].
  rewrite (bind_normal _ _ _ _ _ E1). clear E1.
  destruct (accepted_step env w1 userId email session _ gradePrompt H1 eq_refl Hx2)
    as [w2 [E2 [H2 [_ [D2 O2]]]]];
    [simpl; tauto | exact Hv2 | reflexivity |].
  rewrite (bind_normal _ _ _ _ _ E2). clear E2.
  destruct (accepted_step env w2 userId grade session _ semesterPrompt H2 eq_refl Hx3)
    as [w3 [E3 [H3 [_ [D3 O3]]]]];
    [simpl; tauto | exact Hv3 | reflexivity |].
  rewrite (bind_normal _ _ _ _ _ E3). clear E3.
  destruct (accepted_step env w3 userId semester session _ referralPrompt H3 eq_refl Hx4)
    as [w4 [E4 [H4 [_ [D4 O4]]]]];
    [simpl; tauto | exact Hv4 | reflexivity |].
  rewrite (bind_normal _ _ _ _ _ E4). clear E4.
  destruct (accepted_step env w4 userId referral session _ review H4 eq_refl Hx5)
    as [w5 [E5 [H5 [U5 [D5 O5]]]]];
    [simpl; tauto | exact Hv5 | exact Hrev |].
  rewrite (bind_normal _ _ _ _ _ E5). clear E5.
  simpl. split; [reflexivity |]. split; [exact H5 |]. split; [exact U5 |].
  split; [congruence |].
  rewrite O5, O4, O3, O2, O1. rewrite <- !app_assoc. reflexivity.
Qed.

(** The example of X13: the Oracle answers every input with the bare
    marker, so that the inputs themselves are stored. *)
Lemma five_accepted_answers_reach_review_witness :
  let s := Examples.sessionIn "admission_displayname" ∅ in
  let w := Examples.worldOf Examples.user s Examples.emptyDatabase in
  let env := Examples.oracle "valid" "unknown" "AdmissionFlow" Examples.saturdayNoon
                             Examples.noFaults in
  let answers := ["John Smith"; "john@example.com"; "Grade 3"; "2"; "Friend"] in
  let d := <["referral" := JStr "Friend"]>
           (<["semester" := JNum 2]>
           (<["grade" := JNum 3]>
           (<["email" := JStr "john@example.com"]>
           (<["displayname" := JStr "John Smith"]> (∅ : gmap string JsVal))))) in
  heap w !! 1%positive = Some s
  /\ intentDisabled s = false
  /\ state s = "admission_displayname"
  /\ Forall notExit answers
  /\ isValidValidation "valid" = true
  /\ exists review,
       getPromptForState "admission_confirm" d = Some review
       /\ let '(completion, w') := handleAll env Examples.user 1%positive answers w in
          completion = Normal tt
          /\ heap w' !! 1%positive = Some (set_data d (set_state "admission_confirm" s))
          /\ userSessions w' !! Examples.user = Some 1%positive
          /\ db w' = db w
          /\ outbox w' = (outbox w ++ [(Examples.user, emailPrompt);
                                       (Examples.user, gradePrompt);
                                       (Examples.user, semesterPrompt);
                                       (Examples.user, referralPrompt);
                                       (Examples.user, review)])%list.
Proof.
  intros s w env answers d.
  assert (H1 : heap w !! 1%positive = Some s) by reflexivity.
  assert (H2 : intentDisabled s = false) by reflexivity.
  assert (H3 : state s = "admission_displayname") by reflexivity.
  assert (Hx : forall m, In m answers -> notExit m).
  { intros m Hm. simpl in Hm.
    repeat (destruct Hm as [<- | Hm]; [unfold notExit; vm_compute; discriminate |]).
    destruct Hm. }
  assert (H4 : Forall notExit answers) by (apply List.Forall_forall; exact Hx).
  assert (H5 : isValidValidation "valid" = true) by reflexivity.
  split; [exact H1 |].
  split; [exact H2 |].
  split; [exact H3 |].
  split; [exact H4 |].
  split; [exact H5 |].
  exact (five_accepted_answers_reach_review env w Examples.user 1%positive s
           "John Smith" "john@example.com" "Grade 3" "2" "Friend" H1 H2 H3
           (Hx _ (or_introl eq_refl))
           (Hx _ (or_intror (or_introl eq_refl)))
           (Hx _ (or_intror (or_intror (or_introl eq_refl))))
           (Hx _ (or_intror (or_intror (or_intror (or_introl eq_refl)))))
           (Hx _ (or_intror (or_intror (or_intror (or_intror (or_introl eq_refl))))))
           H5 H5 H5 H5 H5).
Defined.

(** ** Changing a detail *)

Lemma admission_confirm_dispatch (env : Env) :
  dispatch env "admission_confirm" = handleAdmissionConfirm env.
Proof. reflexivity. Qed.

Lemma choose_detail_dispatch (env : Env) :
  dispatch env "admission_choose_detail_to_change" = handleChooseDetailToChange.
Proof. reflexivity. Qed.

Lemma update_detail_dispatch (env : Env) :
  dispatch env "update_detail" = handleUpdateDetail env.
Proof. reflexivity. Qed.

Lemma admission_confirm_no (env : Env) (w : World) (userId userMessage : string)
    (session : loc) (s : Session) :
  heap w !! session = Some s ->
  intentDisabled s = false ->
  notExit userMessage ->
  state s = "admission_confirm" ->
  interpretYesNo env userMessage = "no" ->
  handleSession env userId userMessage session w
  = (Normal tt,
     with_outbox (fun o => (o ++ [(userId, chooseDetailPrompt)])%list)
       (with_userSessions <[userId := session]>
          (with_heap <[session := set_state "admission_choose_detail_to_change" s]> w))).
Proof.
  intros Hs Hd Hx Hst Hno.
  rewrite (handleSession_dispatch env w userId userMessage session s Hs Hd Hx).
  rewrite Hst, admission_confirm_dispatch. unfold handleAdmissionConfirm.
  rewrite Hno. cbn [toLowerCase JsString.map lowerChar String.eqb Ascii.eqb Bool.eqb].
  change (String.eqb (toLowerCase "no") "yes") with false. cbv iota.
  unfold mutate, sendPrompt, readSession, promptFor, sendMessage, sessionsSet,
    modifyWorld, mbind, M_bind, mret, M_ret.
  simpl. rewrite lookup_alter_eq, Hs. simpl.
  unfold with_outbox, with_userSessions, with_heap. simpl. do 2 f_equal.
  apply (alter_known _ _ _ _ Hs).
Qed.

Lemma detail_chosen (env : Env) (w : World) (userId userMessage : string)
    (session : loc) (s : Session) :
  heap w !! session = Some s ->
  intentDisabled s = false ->
  notExit userMessage ->
  state s = "admission_choose_detail_to_change" ->
  let detail := toLowerCase (trim userMessage) in
  In detail validDetails ->
  handleSession env userId userMessage session w
  = (Normal tt,
     with_userSessions <[userId := session]>
       (with_outbox (fun o => (o ++ [(userId, provideNewText detail)])%list)
          (with_heap <[session := set_state "update_detail"
                                    (set_field "detailToUpdate" (JStr detail) s)]> w))).
Proof.
  intros Hs Hd Hx Hst detail Hin.
  rewrite (handleSession_dispatch env w userId userMessage session s Hs Hd Hx).
  rewrite Hst, choose_detail_dispatch. unfold handleChooseDetailToChange.
  fold detail.
  assert (Hex : existsb (String.eqb detail) validDetails = true).
  { apply existsb_exists. exists detail. split; [exact Hin | apply String.eqb_refl]. }
  rewrite Hex.
  unfold mutate, sendMessage, sessionsSet, modifyWorld, mbind, M_bind, mret, M_ret.
  unfold with_outbox, with_userSessions, with_heap. simpl. do 2 f_equal.
  apply map_eq. intros l. destruct (decide (l = session)) as [-> | Hne].
  - rewrite !lookup_alter_eq, lookup_insert_eq, Hs. reflexivity.
  - rewrite !lookup_alter_ne, lookup_insert_ne by congruence. reflexivity.
Qed.

Lemma text_detail_updated (env : Env) (w : World) (userId userMessage : string)
    (session : loc) (s : Session) (detail review : string) :
  heap w !! session = Some s ->
  intentDisabled s = false ->
  notExit userMessage ->
  state s = "update_detail" ->
  data s !! "detailToUpdate" = Some (JStr detail) ->
  In detail textDetails ->
  isValidValidation
    (validateInput env (validationTypeOfDetail (Some (JStr detail))) userMessage) = true ->
  let s' := set_state "admission_confirm"
              (set_field "detailToUpdate" JNull
                 (set_field (keyOfDetail detail) (JStr (trim userMessage)) s)) in
  getPromptForState "admission_confirm" (data s') = Some review ->
  handleSession env userId userMessage session w
  = (Normal tt,
     with_userSessions <[userId := session]>
       (with_outbox (fun o => (o ++ [(userId, updatedText detail (trim userMessage));
                                     (userId, review)])%list)
          (with_heap <[session := s']> w))).
Proof.
  intros Hs Hd Hx Hst Hdet Hin Hv s' Hrev.
  rewrite (handleSession_dispatch env w userId userMessage session s Hs Hd Hx).
  rewrite Hst, update_detail_dispatch. unfold handleUpdateDetail.
  rewrite (bind_normal _ _ _ _ _ (readSession_eq _ _ _ Hs)).
  rewrite Hdet, Hv.
  assert (Hh : forall key v,
            alter (set_state "admission_confirm") session
              (alter (set_field "detailToUpdate" JNull) session
                 (alter (set_field key v) session (heap w)))
            = <[session := set_state "admission_confirm"
                             (set_field "detailToUpdate" JNull (set_field key v s))]>
                (heap w)).
  { intros key v. apply map_eq. intros l. destruct (decide (l = session)) as [-> | Hne].
    - rewrite !lookup_alter_eq, lookup_insert_eq, Hs. reflexivity.
    - rewrite !lookup_alter_ne, lookup_insert_ne by congruence. reflexivity. }
  subst s'. unfold keyOfDetail, updatedText in *.
  repeat (destruct Hin as [E | Hin]; [rewrite <- E in *; clear E |]); [.. | destruct Hin];
    cbn [validationTypeOfDetail storeKeyMapping String.eqb Ascii.eqb Bool.eqb orb] in *;
    unfold mutate, sessionsSet, sendPrompt, readSession, sendMessage,
      modifyWorld, mbind, M_bind, mret, M_ret;
    cbn -[getPromptForState] in Hrev |- *;
    rewrite !lookup_alter_eq, Hs; cbn -[getPromptForState];
    unfold promptFor; rewrite Hrev; cbn -[getPromptForState];
    unfold with_outbox, with_userSessions, with_heap;
    cbn -[getPromptForState]; rewrite Hh, <- app_assoc; reflexivity.
Qed.

(** X14.  From the review, the answer no, the name of a text detail
    (name, email or referral, in any case and with surrounding white
    space) and a new value that the Oracle accepts bring the session
    back to admission_confirm with that detail replaced by the trimmed
    text of the user, whatever value the Oracle returned after the
    marker; [detailToUpdate] is left null, the other collected data are
    unchanged, the database is not written, and the four replies are the
    question which detail, the request for its new value, the
    acknowledgment and the review. *)
Theorem changed_text_detail_keeps_user_text (env : Env) (w : World) (userId : string)
    (session : loc) (s : Session) (answer choice value : string) :
  heap w !! session = Some s ->
  intentDisabled s = false ->
  state s = "admission_confirm" ->
  notExit answer -> notExit choice -> notExit value ->
  interpretYesNo env answer = "no" ->
  let detail := toLowerCase (trim choice) in
  In detail textDetails ->
  isValidValidation
    (validateInput env (validationTypeOfDetail (Some (JStr detail))) value) = true ->
  let d := <["detailToUpdate" := JNull]>
           (<[keyOfDetail detail := JStr (trim value)]> (data s)) in
  exists review,
    getPromptForState "admission_confirm" d = Some review
    /\ let '(completion, w') := handleAll env userId session [answer; choice; value] w in
       completion = Normal tt
       /\ heap w' !! session = Some (set_data d s)
       /\ userSessions w' !! userId = Some session
       /\ db w' = db w
       /\ outbox w' = (outbox w ++ [(userId, chooseDetailPrompt);
                                    (userId, provideNewText detail);
                                    (userId, updatedText detail (trim value));
                                    (userId, review)])%list.
Proof.
  intros Hs Hd Hst Hx1 Hx2 Hx3 Hno detail Hin Hv d.
  destruct (review_prompt_exists d) as [review Hrev].
  exists review. split; [exact Hrev |].
  assert (Hkey : keyOfDetail detail <> "detailToUpdate").
  { unfold keyOfDetail.
    repeat (destruct Hin as [E | Hin]; [rewrite <- E; discriminate |]). destruct Hin. }
  assert (Hvalid : In detail validDetails).
  { unfold validDetails, textDetails in *. simpl in *. tauto. }
  destruct s as [st prev dis ced cea dat]. simpl in Hd, Hst. subst st dis.
  unfold handleAll. cbn [foldM].
  rewrite (bind_normal _ _ _ _ _
             (admission_confirm_no env w userId answer session _ Hs eq_refl Hx1 eq_refl Hno)).
  erewrite bind_normal.
  2: { apply (detail_chosen env _ userId choice session
                (set_state "admission_choose_detail_to_change"
                   {| state := "admission_confirm"; previousState := prev;
                      intentDisabled := false; checkedExistingData := ced;
                      checkedExistingAppointment := cea; data := dat |}));
       [apply lookup_insert_eq | reflexivity | exact Hx2 | reflexivity | exact Hvalid]. }
  fold detail.
  erewrite bind_normal.
  2: { apply (text_detail_updated env _ userId value session
                {| state := "update_detail"; previousState := prev;
                   intentDisabled := false; checkedExistingData := ced;
                   checkedExistingAppointment := cea;
                   data := <["detailToUpdate" := JStr detail]> dat |}
                detail review);
       [apply lookup_insert_eq | reflexivity | exact Hx3 | reflexivity
        | apply lookup_insert_eq | exact Hin | exact Hv |].
       cbn [data set_state set_field set_data].
       rewrite (insert_insert_ne _ (keyOfDetail detail) "detailToUpdate") by congruence.
       rewrite insert_insert_eq. exact Hrev. }
  simpl. split; [reflexivity |]. split.
  - rewrite lookup_insert_eq. unfold set_data, set_state, set_field. simpl.
    do 2 f_equal. subst d. simpl.
    rewrite (insert_insert_ne _ (keyOfDetail detail) "detailToUpdate") by congruence.
    rewrite insert_insert_eq. reflexivity.
  - split; [apply lookup_insert_eq |]. split; [reflexivity |].
    rewrite <- !app_assoc. reflexivity.
Qed.

(** The example of X14: the Oracle returns the email in lower case, and
    the email is stored as it was typed. *)
Lemma changed_text_detail_keeps_user_text_witness :
  let s := Examples.sessionIn "admission_confirm" Examples.reviewData in
  let w := Examples.worldOf Examples.user s Examples.emptyDatabase in
  let env := Examples.oracle "valid john.smith@example.com" "no" "AdmissionFlow"
                             Examples.saturdayNoon Examples.noFaults in
  let d := <["detailToUpdate" := JNull]>
           (<["email" := JStr "John.Smith@Example.com"]> Examples.reviewData) in
  heap w !! 1%positive = Some s
  /\ intentDisabled s = false
  /\ state s = "admission_confirm"
  /\ notExit "No" /\ notExit " Email " /\ notExit "John.Smith@Example.com"
  /\ interpretYesNo env "No" = "no"
  /\ In (toLowerCase (trim " Email ")) textDetails
  /\ isValidValidation (validateInput env "email" "John.Smith@Example.com") = true
  /\ exists review,
       getPromptForState "admission_confirm" d = Some review
       /\ let '(completion, w') :=
            handleAll env Examples.user 1%positive
              ["No"; " Email "; "John.Smith@Example.com"] w in
          completion = Normal tt
          /\ heap w' !! 1%positive = Some (set_data d s)
          /\ userSessions w' !! Examples.user = Some 1%positive
          /\ db w' = db w
          /\ outbox w'
             = (outbox w ++ [(Examples.user, chooseDetailPrompt);
                             (Examples.user, provideNewText "email");
                             (Examples.user, updatedText "email" "John.Smith@Example.com");
                             (Examples.user, review)])%list.
Proof.
  intros s w env d.
  assert (H1 : heap w !! 1%positive = Some s) by reflexivity.
  assert (H2 : intentDisabled s = false) by reflexivity.
  assert (H3 : state s = "admission_confirm") by reflexivity.
  assert (H4 : notExit "No") by (unfold notExit; vm_compute; discriminate).
  assert (H5 : notExit " Email ") by (unfold notExit; vm_compute; discriminate).
  assert (H6 : notExit "John.Smith@Example.com")
    by (unfold notExit; vm_compute; discriminate).
  assert (H7 : interpretYesNo env "No" = "no") by reflexivity.
  assert (H8 : In (toLowerCase (trim " Email ")) textDetails) by (simpl; tauto).
  assert (H9 : isValidValidation (validateInput env "email" "John.Smith@Example.com")
               = true) by reflexivity.
  split; [exact H1 |].
  split; [exact H2 |].
  split; [exact H3 |].
  split; [exact H4 |].
  split; [exact H5 |].
  split; [exact H6 |].
  split; [exact H7 |].
  split; [exact H8 |].
  split; [exact H9 |].
  exact (changed_text_detail_keeps_user_text env w Examples.user 1%positive s
           "No" " Email " "John.Smith@Example.com" H1 H2 H3 H4 H5 H6 H7 H8 H9).
Defined.




(** ** Storing a confirmed admission *)



(** X17.  The two inserts of a confirmed admission are not atomic: when
    the student row is inserted and the statement that reads the greatest
    contact identifier, or the insert of the contact row, fails, the
    student row stays in the table without a contact row, the user is
    told that the data could not be saved and the session is deleted from
    the session store. *)
Theorem failed_contact_insert_leaves_student_row (env : Env) (w : World)
    (userId userMessage : string) (session : loc) (s : Session) :
  heap w !! session = Some s ->
  intentDisabled s = false ->
  notExit userMessage ->
  state s = "admission_confirm" ->
  toLowerCase (interpretYesNo env userMessage) = "yes" ->
  truthy (data s !! "studentId") = false ->
  fault env SelectMaxStudentId = false ->
  fault env InsertStudent = false ->
  fault env SelectMaxContactId || fault env InsertContact = true ->
  let newStudentId := idAfter (List.map st_id (student (db w))) in
  let '(completion, w') := handleSession env userId userMessage session w in
  completion = Normal tt
  /\ student (db w') = (student (db w) ++ [studentRowOf env newStudentId (data s)])%list
  /\ studentcontactinfo (db w') = studentcontactinfo (db w)
  /\ heap w' = heap w
  /\ userSessions w' = delete userId (userSessions w)
  /\ outbox w' = (outbox w ++ [(userId, savingProblemText)])%list.
Proof.
  intros Hs Hd Hx Hst Hyes Hnew F1 F2 F34 newStudentId.
  rewrite (handleSession_dispatch env w userId userMessage session s Hs Hd Hx).
  rewrite Hst, admission_confirm_dispatch. unfold handleAdmissionConfirm.
  rewrite Hyes. cbn [String.eqb Ascii.eqb Bool.eqb].
  unfold tryCatch, persistAdmission.
  unfold query, execute, mutate, sendPrompt, readSession, promptFor, sendMessage,
    sessionsSet, sessionsDelete, modifyWorld, mbind, M_bind, mret, M_ret.
  rewrite Hs, Hnew, F1. cbn [db with_db student with_student]. rewrite F2.
  cbn -[getPromptForState nextId maxOf].
  destruct (fault env SelectMaxContactId).
  - cbn -[nextId maxOf]. rewrite nextId_plus_one. repeat split.
  - simpl in F34. rewrite F34. cbn -[nextId maxOf]. rewrite nextId_plus_one.
    repeat split.
Qed.

Lemma failed_contact_insert_leaves_student_row_witness :
  let s := Examples.sessionIn "admission_confirm" Examples.reviewData in
  let w := Examples.worldOf Examples.user s Examples.emptyDatabase in
  let env := Examples.oracle "" "yes" "AdmissionFlow" Examples.saturdayNoon
                             Examples.contactRefused in
  heap w !! 1%positive = Some s
  /\ intentDisabled s = false
  /\ notExit "yes"
  /\ state s = "admission_confirm"
  /\ toLowerCase (interpretYesNo env "yes") = "yes"
  /\ truthy (data s !! "studentId") = false
  /\ fault env SelectMaxStudentId = false
  /\ fault env InsertStudent = false
  /\ fault env SelectMaxContactId || fault env InsertContact = true
  /\ let '(completion, w') := handleSession env Examples.user "yes" 1%positive w in
     completion = Normal tt
     /\ student (db w') = (student (db w) ++ [studentRowOf env 1 (data s)])%list
     /\ studentcontactinfo (db w') = studentcontactinfo (db w)
     /\ heap w' = heap w
     /\ userSessions w' = delete Examples.user (userSessions w)
     /\ outbox w' = (outbox w ++ [(Examples.user, savingProblemText)])%list.
Proof.
  intros s w env.
  assert (H1 : heap w !! 1%positive = Some s) by reflexivity.
  assert (H2 : intentDisabled s = false) by reflexivity.
  assert (H3 : notExit "yes") by (unfold notExit; vm_compute; discriminate).
  assert (H4 : state s = "admission_confirm") by reflexivity.
  assert (H5 : toLowerCase (interpretYesNo env "yes") = "yes") by reflexivity.
  assert (H6 : truthy (data s !! "studentId") = false) by reflexivity.
  assert (F1 : fault env SelectMaxStudentId = false) by reflexivity.
  assert (F2 : fault env InsertStudent = false) by reflexivity.
  assert (F3 : fault env SelectMaxContactId || fault env InsertContact = true)
    by reflexivity.
  split; [exact H1 |].
  split; [exact H2 |].
  split; [exact H3 |].
  split; [exact H4 |].
  split; [exact H5 |].
  split; [exact H6 |].
  split; [exact F1 |].
  split; [exact F2 |].
  split; [exact F3 |].
  exact (failed_contact_insert_leaves_student_row env w Examples.user "yes" 1%positive s
           H1 H2 H3 H4 H5 H6 F1 F2 F3).
Defined.

(** ** Starting the admission flow *)

Lemma filter_nil_of_false {A} (f : A -> bool) (l : list A) :
  (forall x, In x l -> f x = false) -> List.filter f l = [].
Proof.
  induction l as [| a l IH]; intros H; [reflexivity |]. simpl.
  rewrite (H a (or_introl eq_refl)). apply IH. intros x Hx. apply H. right. exact Hx.
Qed.

(** X18.  A message classified AdmissionFlow from a user without a
    session, whose phone number is in no contact row or whose lookup
    fails, creates a session in state admission_displayname with empty
    data, both checks marked as done and [intentDisabled] false, stores
    it for the user and sends the prompt for the name.  The database is
    not written. *)
Theorem new_applicant_starts_fresh_form (env : Env) (w : World)
    (userId userMessage : string) :
  userSessions w !! userId = None ->
  determineIntent env userMessage "" = "AdmissionFlow" ->
  unknownPhone env w userId ->
  let l := fresh (dom (heap w)) in
  let '(completion, w') := route env userId userMessage w in
  completion = Normal tt
  /\ heap w' = <[l := freshForm]> (heap w)
  /\ userSessions w' = <[userId := l]> (userSessions w)
  /\ db w' = db w
  /\ outbox w' = (outbox w ++ [(userId, namePrompt)])%list.
Proof.
  intros Hu Hi Hp l.
  unfold route, sessionsGet, getWorld, mbind, M_bind, mret, M_ret.
  cbn beta iota. rewrite Hu. cbn beta iota.
  rewrite Hi. unfold handleWithoutSession. cbn [String.eqb Ascii.eqb Bool.eqb].
  unfold startAdmissionFlow, allocSession.
  unfold mbind at 1, M_bind at 1. fold l.
  assert (Hfind : forall w0 : World,
            db w0 = db w ->
            findStudentId env (phoneOf userId) l w0 = (Normal None, w0)).
  { intros w0 Hdb.
    unfold findStudentId, tryCatch, selectStudentIdByMobile, query, mbind, M_bind,
      mret, M_ret.
    destruct Hp as [Hf | Hnone]; [rewrite Hf; reflexivity |].
    destruct (fault env SelectStudentIdByMobile); [reflexivity |].
    rewrite Hdb, (filter_nil_of_false _ _ Hnone). reflexivity. }
  rewrite (bind_normal _ _ _ _ _
             (Hfind (with_heap <[l := newSession "admission_displayname"]> w) eq_refl)).
  unfold admissionChecks. cbn [fmap option_fmap option_map truthy].
  unfold mutate, readSession, promptFor, sessionsSet, sendMessage, modifyWorld,
    mbind, M_bind, mret, M_ret.
  cbn -[getPromptForState].
  rewrite !lookup_alter_eq, lookup_insert_eq. cbn.
  repeat split.
  unfold with_outbox, with_userSessions, with_heap. cbn [heap].
  rewrite !alter_insert_eq. reflexivity.
Qed.

(** The example of X18: the lookup of the contact rows fails. *)
Lemma new_applicant_starts_fresh_form_witness :
  let w := Examples.startWorld Examples.emptyDatabase in
  let env := Examples.oracle "" "unknown" "AdmissionFlow" Examples.saturdayNoon
                             (fun _ => true) in
  userSessions w !! Examples.user = None
  /\ determineIntent env "I want to apply" "" = "AdmissionFlow"
  /\ unknownPhone env w Examples.user
  /\ let '(completion, w') := route env Examples.user "I want to apply" w in
     completion = Normal tt
     /\ heap w' = <[fresh (dom (heap w)) := freshForm]> (heap w)
     /\ userSessions w' = <[Examples.user := fresh (dom (heap w))]> (userSessions w)
     /\ db w' = db w
     /\ outbox w' = (outbox w ++ [(Examples.user, namePrompt)])%list.
Proof.
  intros w env.
  assert (H1 : userSessions w !! Examples.user = None) by reflexivity.
  assert (H2 : determineIntent env "I want to apply" "" = "AdmissionFlow") by reflexivity.
  assert (H3 : unknownPhone env w Examples.user) by (left; reflexivity).
  split; [exact H1 |].
  split; [exact H2 |].
  split; [exact H3 |].
  exact (new_applicant_starts_fresh_form env w Examples.user "I want to apply" H1 H2 H3).
Defined.

(** ** The rate limiter *)

Lemma isRateLimited_step (env : Env) (w : World) (userId : string) :
  isRateLimited env userId w
  = if 100 <=? liveCount env w userId then (Normal true, w)
    else (Normal false,
          with_rateLimitCache
            <[userId := (liveCount env w userId + 1, clock env + 60 * msPerSecond)]> w).
Proof.
  unfold isRateLimited, liveCount, getWorld, modifyWorld, mbind, M_bind, mret, M_ret.
  destruct (100 <=? _); reflexivity.
Qed.

Lemma askLimiter_counts (userId : string) (t0 : Z) (envs : list Env) :
  Forall (fun env => t0 <= clock env <= t0 + 60 * msPerSecond) envs ->
  forall (w : World) (c : Z),
    match rateLimitCache w !! userId with
    | None => c = 0
    | Some (c', expiry) => c' = c /\ t0 + 60 * msPerSecond <= expiry
    end ->
    0 <= c <= 100 ->
    fst (askLimiter userId envs w)
    = Normal (replicate (Nat.min (length envs) (Z.to_nat (100 - c))) false
              ++ replicate (length envs - Z.to_nat (100 - c)) true)%list.
Proof.
  induction 1 as [| env envs Hclock _ IH]; intros w c Hentry Hc.
  - simpl. reflexivity.
  - cbn [askLimiter].
    assert (Hcount : liveCount env w userId = c).
    { unfold liveCount. destruct (rateLimitCache w !! userId) as [[c' e] |]; [| lia].
      destruct Hentry as [-> He].
      destruct (Z.ltb_spec e (clock env)); [lia | reflexivity]. }
    unfold mbind at 1, M_bind at 1. rewrite isRateLimited_step, Hcount. clear Hcount.
    destruct (Z.leb_spec 100 c) as [Hfull | Hroom].
    + assert (c = 100) by lia. subst c.
      specialize (IH w 100 Hentry Hc).
      unfold mbind, M_bind.
      destruct (askLimiter userId envs w) as [[answers | e] w'] eqn:E;
        simpl in IH; [| discriminate].
      injection IH as ->. change (Z.to_nat (100 - 100)) with 0%nat.
      rewrite Nat.min_0_r, !Nat.sub_0_r. reflexivity.
    + set (w1 := with_rateLimitCache
                   <[userId := (c + 1, clock env + 60 * msPerSecond)]> w).
      assert (Hentry1 : match rateLimitCache w1 !! userId with
                        | None => c + 1 = 0
                        | Some (c', expiry) =>
                            c' = c + 1 /\ t0 + 60 * msPerSecond <= expiry
                        end).
      { subst w1. simpl. rewrite lookup_insert_eq. split; [reflexivity | lia]. }
      specialize (IH w1 (c + 1) Hentry1 ltac:(lia)).
      unfold mbind, M_bind.
      destruct (askLimiter userId envs w1) as [[answers | e] w'] eqn:E;
        simpl in IH; [| discriminate].
      injection IH as ->. simpl.
      replace (Z.to_nat (100 - c)) with (S (Z.to_nat (100 - (c + 1)))) by lia.
      simpl. reflexivity.
Qed.

(** X19.  Of the messages of a user without an entry in the cache that
    arrive within sixty seconds of an instant, in any order of their
    clocks, the limiter lets the first hundred through and refuses every
    later one. *)
Theorem rate_limiter_admits_hundred_a_minute (userId : string) (t0 : Z)
    (envs : list Env) (w : World) :
  rateLimitCache w !! userId = None ->
  Forall (fun env => t0 <= clock env <= t0 + 60 * msPerSecond) envs ->
  fst (askLimiter userId envs w)
  = Normal (replicate (Nat.min (length envs) 100) false
            ++ replicate (length envs - 100) true)%list.
Proof.
  intros Hnone Hclock.
  apply (askLimiter_counts userId t0 envs Hclock w 0); [rewrite Hnone; reflexivity | lia].
Qed.

(** The example of X19: 102 messages at the same instant. *)
Lemma rate_limiter_admits_hundred_a_minute_witness :
  let w := Examples.startWorld Examples.emptyDatabase in
  let env := Examples.oracle "" "unknown" "Unknown" Examples.saturdayNoon
                             Examples.noFaults in
  let envs := replicate 102 env in
  rateLimitCache w !! Examples.user = None
  /\ Forall (fun env => Examples.saturdayNoon <= clock env
                        <= Examples.saturdayNoon + 60 * msPerSecond) envs
  /\ fst (askLimiter Examples.user envs w)
     = Normal (replicate 100 false ++ [true; true])%list.
Proof.
  intros w env envs.
  assert (H1 : rateLimitCache w !! Examples.user = None) by reflexivity.
  assert (H2 : Forall (fun env => Examples.saturdayNoon <= clock env
                                  <= Examples.saturdayNoon + 60 * msPerSecond) envs).
  { apply Forall_replicate. simpl. unfold msPerSecond. lia. }
  split; [exact H1 |].
  split; [exact H2 |].
  exact (rate_limiter_admits_hundred_a_minute Examples.user Examples.saturdayNoon envs w
           H1 H2).
Defined.

(** X20.  A refusal does not renew the entry of the cache: a user whose
    count has reached the limit is refused as long as the entry has not
    expired, and the first message that arrives after the expiry, sixty
    seconds after the last message that was let through, is let through
    with the count restarted at 1. *)
Theorem blocked_user_is_readmitted_after_expiry (userId : string) (count expiry : Z)
    (envs : list Env) (later : Env) (w : World) :
  rateLimitCache w !! userId = Some (count, expiry) ->
  100 <= count ->
  Forall (fun env => clock env <= expiry) envs ->
  expiry < clock later ->
  let '(completion, w') := askLimiter userId (envs ++ [later]) w in
  completion = Normal (replicate (length envs) true ++ [false])%list
  /\ rateLimitCache w' !! userId = Some (1, clock later + 60 * msPerSecond).
Proof.
  intros Hentry Hfull Hclock Hlater.
  induction Hclock as [| env envs Henv _ IH].
  - cbn [app askLimiter]. unfold mbind, M_bind.
    rewrite isRateLimited_step.
    assert (Hcount : liveCount later w userId = 0).
    { unfold liveCount. rewrite Hentry.
      destruct (Z.ltb_spec expiry (clock later)); [reflexivity | lia]. }
    rewrite Hcount. simpl. split; [reflexivity | apply lookup_insert_eq].
  - cbn [app askLimiter]. unfold mbind at 1, M_bind at 1.
    rewrite isRateLimited_step.
    assert (Hcount : liveCount env w userId = count).
    { unfold liveCount. rewrite Hentry.
      destruct (Z.ltb_spec expiry (clock env)); [lia | reflexivity]. }
    rewrite Hcount.
    destruct (Z.leb_spec 100 count) as [_ | Hlt]; [| lia].
    unfold mbind, M_bind.
    destruct (askLimiter userId (envs ++ [later]) w) as [[answers | e] w'] eqn:E.
    + destruct IH as [IH1 IH2]. injection IH1 as ->. simpl.
      split; [reflexivity | exact IH2].
    + destruct IH as [IH1 _]. discriminate.
Qed.

Lemma blocked_user_is_readmitted_after_expiry_witness :
  let noon := Examples.saturdayNoon in
  let at_ := fun now => Examples.oracle "" "unknown" "Unknown" now Examples.noFaults in
  let w := with_rateLimitCache <[ Examples.user := (100, noon + 1000) ]>
             (Examples.startWorld Examples.emptyDatabase) in
  let envs := [at_ noon; at_ (noon + 500); at_ (noon + 1000)] in
  let later := at_ (noon + 1001) in
  rateLimitCache w !! Examples.user = Some (100, noon + 1000)
  /\ 100 <= 100
  /\ Forall (fun env => clock env <= noon + 1000) envs
  /\ noon + 1000 < clock later
  /\ let '(completion, w') := askLimiter Examples.user (envs ++ [later]) w in
     completion = Normal [true; true; true; false]
     /\ rateLimitCache w' !! Examples.user = Some (1, noon + 1001 + 60 * msPerSecond).
Proof.
  intros noon at_ w envs later.
  assert (H1 : rateLimitCache w !! Examples.user = Some (100, noon + 1000)) by reflexivity.
  assert (H2 : 100 <= 100) by lia.
  assert (H3 : Forall (fun env => clock env <= noon + 1000) envs).
  { repeat constructor; simpl; lia. }
  assert (H4 : noon + 1000 < clock later) by (simpl; lia).
  split; [exact H1 |].
  split; [exact H2 |].
  split; [exact H3 |].
  split; [exact H4 |].
  exact (blocked_user_is_readmitted_after_expiry Examples.user 100 (noon + 1000) envs later w
           H1 H2 H3 H4).
Defined.

(** ** The sanitizer as a normal form *)

Lemma trimStart_shorter (s : string) :
  (String.length (trimStart s) <= String.length s)%nat.
Proof.
  induction s as [| c r IH]; [reflexivity |]. simpl.
  destruct (isSpace c); simpl; lia.
Qed.

Lemma trimEnd_shorter (s : string) :
  (String.length (trimEnd s) <= String.length s)%nat.
Proof.
  induction s as [| c r IH]; [reflexivity |]. simpl.
  destruct (trimEnd r) as [| c' r'].
  - destruct (isSpace c); simpl; lia.
  - simpl in *. lia.
Qed.

Lemma trim_shorter (s : string) :
  (String.length (trim s) <= String.length s)%nat.
Proof.
  unfold trim. etransitivity; [apply trimEnd_shorter | apply trimStart_shorter].
Qed.

Lemma filter_shorter (p : ascii -> bool) (s : string) :
  (String.length (JsString.filter p s) <= String.length s)%nat.
Proof.
  induction s as [| c r IH]; [reflexivity |]. simpl.
  destruct (p c); simpl; lia.
Qed.

Lemma filter_drops (p : ascii -> bool) (s : string) :
  JsString.forallb p s = false ->
  (String.length (JsString.filter p s) < String.length s)%nat.
Proof.
  induction s as [| c r IH]; [discriminate |]. simpl.
  destruct (p c); simpl.
  - intros H. apply IH in H. lia.
  - intros _. pose proof (filter_shorter p r). lia.
Qed.

(** X21.  The sanitized text holds letters, digits, spaces and the marks
    . , ! ? @ only and has no white space at either end; sanitizing it
    again changes nothing; and a text made of those characters only is
    sanitized to itself without its surrounding white space. *)
Theorem sanitizeInput_is_a_normal_form (input : string) :
  JsString.forallb allowed (sanitizeInput input) = true
  /\ trim (sanitizeInput input) = sanitizeInput input
  /\ sanitizeInput (sanitizeInput input) = sanitizeInput input
  /\ (if JsString.forallb allowed input
      then sanitizeInput input = trim input
      else String.length (sanitizeInput input) < String.length input)%nat.
Proof.
  split; [apply sanitizeInput_allowed |].
  split; [unfold sanitizeInput; apply trim_idempotent |].
  split; [apply sanitizeInput_idempotent |].
  destruct (JsString.forallb allowed input) eqn:E.
  - unfold sanitizeInput. rewrite filter_all by exact E. reflexivity.
  - unfold sanitizeInput.
    apply Nat.le_lt_trans with (String.length (JsString.filter allowed input)).
    + apply trim_shorter.
    + apply filter_drops. exact E.
Qed.

(** ** The AI service *)

Lemma orElse_not_empty (value : option string) (fallback : string) :
  fallback <> "" -> AiService.orElse value fallback <> "".
Proof.
  intros Hf. unfold AiService.orElse. destruct value as [text |]; [| exact Hf].
  destruct (String.eqb_spec text ""); assumption.
Qed.

(** X22.  Whatever the endpoint replies, and whether or not it replies,
    [interpretYesNo] returns one of the three words yes, no and
    unknown. *)
Theorem interpretYesNo_answers (chat : Chat) (userMessage : string) :
  In (AiService.interpretYesNo chat userMessage) ["yes"; "no"; "unknown"].
Proof.
  unfold AiService.interpretYesNo.
  destruct (String.eqb _ "yes"); [simpl; tauto |].
  destruct (String.eqb _ "no"); [simpl; tauto |].
  destruct (AiService.callOpenAI _ _ _ _) as [response |]; [| simpl; tauto].
  destruct (String.eqb response ""); [simpl; tauto |].
  destruct (String.eqb _ "yes"); [simpl; tauto |].
  destruct (String.eqb _ "no"); simpl; tauto.
Qed.

(** X23.  When the endpoint gives no reply, or a reply of white space
    only, [validateInput] returns the message that the validation service
    is unavailable, and the controller does not take that message for an
    acceptance. *)
Theorem validation_outage_is_a_rejection (chat : Chat) (validationType input : string) :
  (forall messages maxTokens temperature,
     chat messages maxTokens temperature = None
     \/ exists blank, chat messages maxTokens temperature = Some blank
                      /\ trim blank = "") ->
  AiService.validateInput chat validationType input = AiService.unavailableText
  /\ isValidValidation (AiService.validateInput chat validationType input) = false.
Proof.
  intros Hdown.
  assert (E : AiService.validateInput chat validationType input = AiService.unavailableText).
  { unfold AiService.validateInput, AiService.callOpenAI.
    destruct (Hdown (validationRequest validationType input) 150 0)
      as [H | [blank [H Hb]]]; unfold validationRequest in H; rewrite H;
      [reflexivity | rewrite Hb; reflexivity]. }
  rewrite E. split; [reflexivity |]. vm_compute. reflexivity.
Qed.

Lemma validation_outage_is_a_rejection_witness :
  (forall messages maxTokens temperature,
     Examples.chatDown messages maxTokens temperature = None
     \/ exists blank, Examples.chatDown messages maxTokens temperature = Some blank
                      /\ trim blank = "")
  /\ AiService.validateInput Examples.chatDown "email" "john@example.com"
     = AiService.unavailableText
  /\ isValidValidation (AiService.validateInput Examples.chatDown "email" "john@example.com")
     = false.
Proof.
  assert (H : forall messages maxTokens temperature,
            Examples.chatDown messages maxTokens temperature = None
            \/ exists blank, Examples.chatDown messages maxTokens temperature = Some blank
                             /\ trim blank = "")
    by (intros messages maxTokens temperature; left; reflexivity).
  split; [exact H |].
  exact (validation_outage_is_a_rejection Examples.chatDown "email" "john@example.com" H).
Defined.

(** X24.  [answerQuestion] never returns the empty text: without a
    reply, or with a reply of white space only, it returns its own
    fallback sentence.  So, when the controller is given the answers of
    the AI service, its request to rephrase the question is never
    sent. *)
Theorem answer_is_never_empty (chat : Chat) (env : Env) (userMessage : string) :
  (forall query info,
     answerQuestion env query info = AiService.answerQuestion chat query info) ->
  answerOrRephrase env userMessage <> ""
  /\ answerOrRephrase env userMessage
     = AiService.answerQuestion chat userMessage (inputContent env).
Proof.
  intros Henv. unfold answerOrRephrase. rewrite Henv.
  assert (Hne : AiService.answerQuestion chat userMessage (inputContent env) <> "").
  { unfold AiService.answerQuestion. apply orElse_not_empty. discriminate. }
  apply String.eqb_neq in Hne. rewrite Hne. apply String.eqb_neq in Hne.
  split; [exact Hne | reflexivity].
Qed.

(** The example of X24: the endpoint replies with white space. *)
Lemma answer_is_never_empty_witness :
  let env := Examples.answering Examples.chatBlank in
  (forall query info,
     answerQuestion env query info
     = AiService.answerQuestion Examples.chatBlank query info)
  /\ answerOrRephrase env "What are the school fees?" <> ""
  /\ answerOrRephrase env "What are the school fees?"
     = AiService.answerQuestion Examples.chatBlank "What are the school fees?"
         (inputContent env).
Proof.
  intros env.
  assert (H : forall query info,
            answerQuestion env query info
            = AiService.answerQuestion Examples.chatBlank query info)
    by (intros query info; reflexivity).
  split; [exact H |].
  exact (answer_is_never_empty Examples.chatBlank env "What are the school fees?" H).
Defined.

Lemma substring_length (n : nat) (s : string) :
  String.length (substring n s) = (String.length s - n)%nat.
Proof.
  revert s. induction n as [| n IH]; intros s; simpl; [lia |].
  destruct s as [| c r]; [reflexivity |]. simpl. apply IH.
Qed.

Lemma startsWith_length (s p : string) :
  startsWith s p = true -> (String.length p <= String.length s)%nat.
Proof.
  revert s. induction p as [| a p IH]; intros s H; simpl; [lia |].
  destruct s as [| b s]; [discriminate |]. simpl in H.
  apply andb_true_iff in H. destruct H as [_ H]. apply IH in H. simpl. lia.
Qed.

Lemma afterFence_shorter (s rest : string) :
  AiService.afterFence s = Some rest -> (String.length rest + 3 <= String.length s)%nat.
Proof.
  induction s as [| c r IH]; [discriminate |]. cbn [AiService.afterFence].
  destruct (startsWith (String c r) AiService.fence) eqn:E.
  - intros H. apply startsWith_length in E.
    change (String.length AiService.fence) with 3%nat in E.
    pose proof (substring_length 3 (String c r)) as Hl.
    assert (Hrest : rest = substring 3 (String c r)) by congruence.
    rewrite Hrest, Hl. lia.
  - intros H. apply IH in H. simpl. lia.
Qed.

(** The fuel of [stripFences] is enough: more of it changes nothing. *)
Lemma stripFences_fuel (fuel : nat) (s : string) :
  (String.length s <= fuel)%nat ->
  AiService.stripFencesFrom fuel s = AiService.stripFences s.
Proof.
  unfold AiService.stripFences.
  revert s. induction fuel as [fuel IH] using lt_wf_ind. intros s Hlen.
  destruct s as [| c r]; [destruct fuel; reflexivity |].
  destruct fuel as [| fuel]; [simpl in Hlen; lia |].
  cbn [String.length AiService.stripFencesFrom].
  destruct (startsWith (String c r) AiService.fence) eqn:E.
  - destruct (AiService.afterFence (substring 3 (String c r))) as [rest |] eqn:Er;
      [| reflexivity].
    pose proof (afterFence_shorter _ _ Er) as Hr. rewrite substring_length in Hr.
    simpl in Hr, Hlen.
    rewrite (IH fuel ltac:(lia) rest ltac:(lia)).
    rewrite (IH (String.length r) ltac:(simpl; lia) rest ltac:(lia)). reflexivity.
  - simpl in Hlen. f_equal.
    rewrite (IH fuel ltac:(lia) r ltac:(lia)). reflexivity.
Qed.

Lemma startsWith_fence_backtick (c : ascii) (r : string) :
  startsWith (String c r) AiService.fence = true -> isBacktick c = true.
Proof.
  unfold AiService.fence. cbn [startsWith]. intros H.
  apply andb_true_iff in H. destruct H as [H _].
  apply Ascii.eqb_eq in H. subst c. reflexivity.
Qed.

Lemma stripFences_plain (s : string) :
  JsString.forallb (fun c => negb (isBacktick c)) s = true ->
  AiService.stripFences s = s.
Proof.
  unfold AiService.stripFences.
  induction s as [| c r IH]; [reflexivity |]. intros H.
  simpl in H. apply andb_true_iff in H. destruct H as [Hc Hr].
  cbn [String.length AiService.stripFencesFrom].
  destruct (startsWith (String c r) AiService.fence) eqn:E.
  - apply startsWith_fence_backtick in E. rewrite E in Hc. discriminate.
  - rewrite (IH Hr). reflexivity.
Qed.

(** X25.  A reply of the endpoint that holds no backtick and is not
    blank is what [validateInput] returns, without its surrounding white
    space: nothing else of the reply is removed. *)
Theorem plain_reply_is_returned_trimmed (chat : Chat)
    (validationType input reply : string) :
  chat (validationRequest validationType input) 150 0 = Some reply ->
  JsString.forallb (fun c => negb (isBacktick c)) reply = true ->
  trim reply <> "" ->
  AiService.validateInput chat validationType input = trim reply.
Proof.
  intros Hreply Hplain Hne.
  unfold AiService.validateInput, AiService.callOpenAI.
  unfold validationRequest in Hreply. rewrite Hreply.
  apply String.eqb_neq in Hne. rewrite Hne.
  rewrite stripFences_plain.
  - apply trim_idempotent.
  - unfold trim. apply forallb_trimEnd, forallb_trimStart, Hplain.
Qed.

(** The example of X25: the reply that accepts the grade 3. *)
Lemma plain_reply_is_returned_trimmed_witness :
  let chat := Examples.chatSays " valid 3 " in
  chat (validationRequest "grade_level" "three") 150 0 = Some " valid 3 "
  /\ JsString.forallb (fun c => negb (isBacktick c)) " valid 3 " = true
  /\ trim " valid 3 " <> ""
  /\ AiService.validateInput chat "grade_level" "three" = trim " valid 3 ".
Proof.
  intros chat.
  assert (H1 : chat (validationRequest "grade_level" "three") 150 0 = Some " valid 3 ")
    by reflexivity.
  assert (H2 : JsString.forallb (fun c => negb (isBacktick c)) " valid 3 " = true)
    by reflexivity.
  assert (H3 : trim " valid 3 " <> "") by (vm_compute; discriminate).
  split; [exact H1 |]. split; [exact H2 |]. split; [exact H3 |].
  exact (plain_reply_is_returned_trimmed chat "grade_level" "three" " valid 3 " H1 H2 H3).
Defined.
